(** * rot-detector: the health scorer and the scan summary

    A shallow embedding of the scoring model of rot-detector
    ([analyzer], [types/index.ts]) and of the analysis loop and summary of
    [cli/index.ts], followed by the properties of the scorer: the weighted
    overall score, the three sub-scores, the archived override, the risk
    classification, totality, and the tallies of the scan summary. *)

From Stdlib Require Import ZArith QArith Qround Floats List String Ascii Bool Lia.
From Stdlib Require Import DecimalString DecimalZ Permutation Sorted.
Import ListNotations.

Set Warnings "-inexact-float".

Local Open Scope string_scope.
Local Open Scope Z_scope.

(** ** The JavaScript values the scorer handles *)

Module Js.

(** The outcome of evaluating a block: it completes with a value or throws an
    [Error] that carries a message. *)
Inductive Completion (A : Type) : Type :=
| Normal (value : A)
| Throw (message : string).
Arguments Normal {A} value.
Arguments Throw {A} message.

Definition bind {A B : Type} (c : Completion A) (k : A -> Completion B) : Completion B :=
  match c with
  | Normal a => k a
  | Throw m => Throw m
  end.

(** [try { c } catch (error) { handler (error.message) }] *)
Definition tryCatch {A : Type} (c : Completion A) (handler : string -> A) : A :=
  match c with
  | Normal a => a
  | Throw m => handler m
  end.

(** Reading a property or calling a method of [receiver]: a [TypeError] when
    the receiver is [null]. *)
Definition dereference {A : Type} (receiver : option A) : Completion A :=
  match receiver with
  | Some a => Normal a
  | None => Throw "TypeError: Cannot read properties of null"
  end.

(** [receiver?.property]: [undefined] when the receiver is [null] or
    [undefined]. *)
Definition optionalChain {A B : Type} (receiver : option A) (property : A -> B) : option B :=
  match receiver with
  | Some a => Some (property a)
  | None => None
  end.

(** A value that may be [undefined] and whose type has [null]: the two are
    told apart by no operation used here. *)
Definition nullish {A : Type} (v : option (option A)) : option A :=
  match v with
  | Some a => a
  | None => None
  end.

(** The numbers the scorer computes with are integers, [NaN] (the time value
    of an invalid date and what is computed from it) and the infinities
    ([Math.round] maps an infinity to itself). *)
Inductive number : Type :=
| Int (z : Z)
| NaN
| Infinity (negative : bool).

Definition sub (a b : number) : number :=
  match a, b with
  | Int x, Int y => Int (x - y)
  | NaN, _ | _, NaN => NaN
  | Infinity s, Int _ => Infinity s
  | Int _, Infinity s => Infinity (negb s)
  | Infinity s, Infinity t => if Bool.eqb s t then NaN else Infinity s
  end.

(** [Math.floor(a / d)] for a positive integer constant [d]. Time values are
    integers of magnitude at most 8.64e15, which doubles hold exactly, and the
    double quotient of such an integer by [d] lies on the same side of every
    integer as the exact quotient: the floor is that of the exact quotient
    ([whole_days_in_doubles] compares the two around each threshold). *)
Definition floorDiv (a : number) (d : Z) : number :=
  match a with
  | Int x => Int (x / d)
  | NaN => NaN
  | Infinity s => Infinity s
  end.

(** [a < k]: false as soon as [a] is [NaN]. *)
Definition lt (a : number) (k : Z) : bool :=
  match a with
  | Int x => x <? k
  | NaN => false
  | Infinity s => s
  end.

(** [a >= k] *)
Definition ge (a : number) (k : Z) : bool :=
  match a with
  | Int x => k <=? x
  | NaN => false
  | Infinity s => negb s
  end.

(** A [Date] holds a time value in milliseconds, or [NaN] when it was built
    from a string that is not a date. *)
Inductive Date : Type :=
| ValidDate (timeValue : Z)
| InvalidDate.

Definition getTime (d : Date) : number :=
  match d with
  | ValidDate t => Int t
  | InvalidDate => NaN
  end.

(** The double nearest to an integer (ties to even), as a number literal or
    an integer-valued variable is stored. *)
Definition toDouble (z : Z) : float :=
  SF2Prim (binary_normalize prec emax z 0 false).

(** [Math.round]: the integer closest to [x], the larger one on a tie, that
    is floor(x + 1/2) computed exactly from the mantissa and exponent of [x]. *)
Definition Math_round (x : float) : number :=
  match Prim2SF x with
  | S754_zero _ => Int 0
  | S754_infinity s => Infinity s
  | S754_nan => NaN
  | S754_finite s m e =>
      let n := if s then Zneg m else Zpos m in
      if 0 <=? e then Int (n * 2 ^ e)
      else Int ((2 * n + 2 ^ (- e)) / 2 ^ (1 - e))
  end.

(** [Math.floor], computed exactly in the same way. *)
Definition Math_floor (x : float) : number :=
  match Prim2SF x with
  | S754_zero _ => Int 0
  | S754_infinity s => Infinity s
  | S754_nan => NaN
  | S754_finite s m e =>
      let n := if s then Zneg m else Zpos m in
      if 0 <=? e then Int (n * 2 ^ e) else Int (n / 2 ^ (- e))
  end.

(** Strings are taken over the ASCII code units, where [toUpperCase] maps
    [a]-[z] to [A]-[Z] and the class [\s] is made of HT, LF, VT, FF, CR and
    the space. *)
Definition isLowerCase (c : ascii) : bool :=
  let n := N_of_ascii c in ((97 <=? n) && (n <=? 122))%N.

Definition toUpperCaseChar (c : ascii) : ascii :=
  if isLowerCase c then ascii_of_N (N_of_ascii c - 32) else c.

Fixpoint toUpperCase (s : string) : string :=
  match s with
  | EmptyString => EmptyString
  | String c r => String (toUpperCaseChar c) (toUpperCase r)
  end.

Definition isWhiteSpace (c : ascii) : bool :=
  let n := N_of_ascii c in (((9 <=? n) && (n <=? 13)) || (n =? 32))%N.

(** [s.replace(/\s+/g, '-')]: every maximal run of white space becomes one
    hyphen. [inRun] tells that the previous character was white space. *)
Fixpoint replaceWhiteSpaceRuns (inRun : bool) (s : string) : string :=
  match s with
  | EmptyString => EmptyString
  | String c r =>
      if isWhiteSpace c then
        if inRun then replaceWhiteSpaceRuns true r
        else String "-" (replaceWhiteSpaceRuns true r)
      else String c (replaceWhiteSpaceRuns false r)
  end.

(** [s.includes(needle)] *)
Fixpoint includes (s needle : string) : bool :=
  match s with
  | EmptyString => prefix needle EmptyString
  | String _ r => prefix needle s || includes r needle
  end.

(** Truthiness of a [string | null]: [null] and the empty string are falsy. *)
Definition truthyString (s : option string) : bool :=
  match s with
  | Some (String _ _) => true
  | _ => false
  end.

(** Truthiness of an object reference ([Date | null]): only [null] is falsy. *)
Definition truthyObject {A : Type} (o : option A) : bool :=
  match o with
  | Some _ => true
  | None => false
  end.

(** [a || b] on object references. *)
Definition orObject {A : Type} (a b : option A) : option A :=
  if truthyObject a then a else b.

(** [a || b] where [a] is an integer or [undefined] and [b] an integer: zero
    and [undefined] are falsy. *)
Definition orNumber (a : option Z) (b : Z) : Z :=
  match a with
  | Some n => if n =? 0 then b else n
  | None => b
  end.

(** Truthiness of a [boolean | undefined]. *)
Definition truthyBoolean (b : option bool) : bool :=
  match b with
  | Some true => true
  | _ => false
  end.

End Js.

Import Js.

Declare Scope js_scope.
Delimit Scope js_scope with js.
Notation "x <- c ;; k" := (Js.bind c (fun x => k))
  (at level 61, c at next level, right associativity) : js_scope.

(** ** types/index.ts *)

Module Maintainer.
Record t : Type := { name : string; email : option string }.
End Maintainer.

Module PackageMetadata.
Record t : Type := {
  name : string;
  version : string;
  lastPublished : option Date;
  maintainers : list Maintainer.t;
  license : option string;
  repositoryUrl : option string;
  homepage : option string;
  description : option string
}.
End PackageMetadata.

Module GitHubRepoHealth.
Record t : Type := {
  lastCommitDate : option Date;
  contributorCount : Z;
  openIssues : Z;
  stars : Z;
  isArchived : bool
}.
End GitHubRepoHealth.

Module FreshnessScore.
Inductive Status : Type := active | stale | abandoned | unknown.
Record t : Type := {
  score : Z;
  lastUpdate : option Date;
  daysSinceUpdate : option number;
  status : Status
}.
End FreshnessScore.

Module MaintainerScore.
Inductive Status : Type := healthy | warning | critical.
Record t : Type := { score : Z; count : Z; status : Status }.
End MaintainerScore.

Module LicenseScore.
Inductive Status : Type := approved | warning | unknown | deprecated.
Record t : Type := { score : Z; license : option string; status : Status }.
End LicenseScore.

Module HealthScore.
Record t : Type := {
  overall : number;
  freshness : FreshnessScore.t;
  maintainerHealth : MaintainerScore.t;
  licenseHealth : LicenseScore.t
}.
End HealthScore.

Inductive DependencyType : Type := direct | transitive.
Inductive Source : Type := npm | pypi | go.

Module Dependency.
Record t : Type := {
  name : string;
  version : string;
  type : DependencyType;
  source : Source;
  isDev : bool
}.
End Dependency.

Module DependencyAnalysis.
Record t : Type := {
  dependency : Dependency.t;
  metadata : option PackageMetadata.t;
  health : option HealthScore.t;
  error : option string
}.
End DependencyAnalysis.

Module ScanSummary.
Record t : Type := {
  total : nat;
  healthy : nat;
  warning : nat;
  critical : nat;
  failed : nat
}.
End ScanSummary.

Module RiskLevel.
Inductive t : Type := healthy | warning | critical | unknown.

Definition eqb (a b : t) : bool :=
  match a, b with
  | healthy, healthy | warning, warning | critical, critical | unknown, unknown => true
  | _, _ => false
  end.
End RiskLevel.

Definition getRiskLevel (score : option number) : RiskLevel.t :=
  match score with
  | None => RiskLevel.unknown
  | Some s =>
      if ge s 80 then RiskLevel.healthy
      else if ge s 50 then RiskLevel.warning
      else RiskLevel.critical
  end.

(** ** analyzer *)

Module Analyzer.

Definition OSI_APPROVED_LICENSES : list string :=
  [ "MIT"; "Apache-2.0"; "BSD-2-Clause"; "BSD-3-Clause"; "ISC"; "MPL-2.0";
    "GPL-3.0"; "GPL-3.0-only"; "GPL-3.0-or-later"; "LGPL-3.0"; "LGPL-3.0-only";
    "LGPL-3.0-or-later"; "AGPL-3.0"; "Unlicense"; "0BSD"; "CC0-1.0"; "Zlib";
    "Artistic-2.0"; "EPL-2.0"; "EUPL-1.2" ].

Definition DEPRECATED_LICENSES : list string :=
  [ "GPL-2.0"; "LGPL-2.0"; "LGPL-2.1"; "BSD-4-Clause"; "WTFPL" ].

Module WEIGHTS.
Definition freshness : float := 0.40.
Definition maintainers : float := 0.30.
Definition license : float := 0.30.
End WEIGHTS.

Local Open Scope js_scope.

(** The chain [if (daysSinceUpdate < 180) ... else ...] of
    [calculateFreshnessScore], which sets [score] and [status]. *)
Definition freshnessThresholds (daysSinceUpdate : number) : Z * FreshnessScore.Status :=
  if lt daysSinceUpdate 180 then (100, FreshnessScore.active)
  else if lt daysSinceUpdate 365 then (75, FreshnessScore.active)
  else if lt daysSinceUpdate 730 then (40, FreshnessScore.stale)
  else if lt daysSinceUpdate 1095 then (20, FreshnessScore.abandoned)
  else (5, FreshnessScore.abandoned).

(** [now] is the time value of [new Date()], read when the score is computed. *)
Definition calculateFreshnessScore (now : Z) (metadata : PackageMetadata.t)
    (githubHealth : option GitHubRepoHealth.t) : Completion FreshnessScore.t :=
  let lastUpdate :=
    orObject (nullish (optionalChain githubHealth GitHubRepoHealth.lastCommitDate))
             (PackageMetadata.lastPublished metadata) in
  if negb (truthyObject lastUpdate) then
    Normal {| FreshnessScore.score := 50;
              FreshnessScore.lastUpdate := None;
              FreshnessScore.daysSinceUpdate := None;
              FreshnessScore.status := FreshnessScore.unknown |}
  else
    date <- dereference lastUpdate ;;
    let daysSinceUpdate :=
      floorDiv (sub (Int now) (getTime date)) (1000 * 60 * 60 * 24) in
    let '(score, status) := freshnessThresholds daysSinceUpdate in
    let '(score, status) :=
      if truthyBoolean (optionalChain githubHealth GitHubRepoHealth.isArchived)
      then (Z.min score 10, FreshnessScore.abandoned)
      else (score, status) in
    Normal {| FreshnessScore.score := score;
              FreshnessScore.lastUpdate := lastUpdate;
              FreshnessScore.daysSinceUpdate := Some daysSinceUpdate;
              FreshnessScore.status := status |}.

Definition calculateMaintainerScore (metadata : PackageMetadata.t)
    (githubHealth : option GitHubRepoHealth.t) : MaintainerScore.t :=
  let count :=
    orNumber (optionalChain githubHealth GitHubRepoHealth.contributorCount)
             (Z.of_nat (List.length (PackageMetadata.maintainers metadata))) in
  let '(score, status) :=
    if 5 <=? count then (100, MaintainerScore.healthy)
    else if 3 <=? count then (85, MaintainerScore.healthy)
    else if count =? 2 then (70, MaintainerScore.warning)
    else if count =? 1 then (40, MaintainerScore.warning)
    else (10, MaintainerScore.critical) in
  {| MaintainerScore.score := score;
     MaintainerScore.count := count;
     MaintainerScore.status := status |}.

(** [for (const token of tokens) if (normalizedLicense.includes(token.toUpperCase())) return ...]:
    true when the loop returns from inside, false when it runs to its end. *)
Fixpoint includesSomeOf (normalizedLicense : string) (tokens : list string) : bool :=
  match tokens with
  | [] => false
  | token :: rest =>
      if includes normalizedLicense (toUpperCase token) then true
      else includesSomeOf normalizedLicense rest
  end.

Definition normalizeLicense (license : string) : string :=
  replaceWhiteSpaceRuns false (toUpperCase license).

Definition calculateLicenseScore (metadata : PackageMetadata.t) : Completion LicenseScore.t :=
  let license := PackageMetadata.license metadata in
  if negb (truthyString license) then
    Normal {| LicenseScore.score := 30;
              LicenseScore.license := None;
              LicenseScore.status := LicenseScore.unknown |}
  else
    text <- dereference license ;;
    let normalizedLicense := normalizeLicense text in
    if includesSomeOf normalizedLicense DEPRECATED_LICENSES then
      Normal {| LicenseScore.score := 50;
                LicenseScore.license := license;
                LicenseScore.status := LicenseScore.deprecated |}
    else if includesSomeOf normalizedLicense OSI_APPROVED_LICENSES then
      Normal {| LicenseScore.score := 100;
                LicenseScore.license := license;
                LicenseScore.status := LicenseScore.approved |}
    else
      Normal {| LicenseScore.score := 60;
                LicenseScore.license := license;
                LicenseScore.status := LicenseScore.warning |}.

Definition weightedSum (freshness maintainers license : Z) : float :=
  (toDouble freshness * WEIGHTS.freshness
   + toDouble maintainers * WEIGHTS.maintainers
   + toDouble license * WEIGHTS.license)%float.

Definition calculateHealthScore (now : Z) (metadata : PackageMetadata.t)
    (githubHealth : option GitHubRepoHealth.t) : Completion HealthScore.t :=
  freshness <- calculateFreshnessScore now metadata githubHealth ;;
  let maintainerHealth := calculateMaintainerScore metadata githubHealth in
  licenseHealth <- calculateLicenseScore metadata ;;
  let overall :=
    Math_round (weightedSum (FreshnessScore.score freshness)
                            (MaintainerScore.score maintainerHealth)
                            (LicenseScore.score licenseHealth)) in
  Normal {| HealthScore.overall := overall;
            HealthScore.freshness := freshness;
            HealthScore.maintainerHealth := maintainerHealth;
            HealthScore.licenseHealth := licenseHealth |}.

End Analyzer.

(** ** cli/index.ts: the analysis loop and the summary of [runScan] *)

Module Cli.

Module Options.
Record t : Type := {
  githubToken : option string;
  github : option bool
}.
End Options.

(** [options.github !== false] *)
Definition notFalse (flag : option bool) : bool :=
  match flag with
  | Some false => false
  | _ => true
  end.

Local Open Scope js_scope.

Section RunScan.

(** The registry and repository clients answer over the network: each is any
    function from its arguments to a completion. [clock i] is the time at
    which the [i]-th dependency is scored. *)
Variable fetchNpmMetadata : string -> Completion PackageMetadata.t.
Variable fetchPyPIMetadata : string -> Completion PackageMetadata.t.
Variable fetchGitHubRepoHealth :
  string -> option string -> Completion (option GitHubRepoHealth.t).
Variable clock : nat -> Z.
Variable options : Options.t.

Definition fetchMetadata (dep : Dependency.t) : Completion PackageMetadata.t :=
  match Dependency.source dep with
  | npm => fetchNpmMetadata (Dependency.name dep)
  | pypi => fetchPyPIMetadata (Dependency.name dep)
  | go => Throw "Unsupported source: go"
  end.

(** The body of the loop: the [try] block and its [catch]. *)
Definition analyzeDependency (now : Z) (dep : Dependency.t) : DependencyAnalysis.t :=
  tryCatch
    (metadata <- fetchMetadata dep ;;
     githubHealth <-
       (if notFalse (Options.github options)
           && truthyString (PackageMetadata.repositoryUrl metadata)
        then
          match PackageMetadata.repositoryUrl metadata with
          | Some url => fetchGitHubRepoHealth url (Options.githubToken options)
          | None => Normal None
          end
        else Normal None) ;;
     health <- Analyzer.calculateHealthScore now metadata githubHealth ;;
     Normal {| DependencyAnalysis.dependency := dep;
               DependencyAnalysis.metadata := Some metadata;
               DependencyAnalysis.health := Some health;
               DependencyAnalysis.error := None |})
    (fun message =>
       {| DependencyAnalysis.dependency := dep;
          DependencyAnalysis.metadata := None;
          DependencyAnalysis.health := None;
          DependencyAnalysis.error := Some message |}).

(** [for (let i = ...; i < dependencies.length; i++) analyses.push(...)],
    entered at index [i] with [dependencies] still to do. *)
Fixpoint analyzeFrom (i : nat) (dependencies : list Dependency.t) : list DependencyAnalysis.t :=
  match dependencies with
  | [] => []
  | dep :: rest => analyzeDependency (clock i) dep :: analyzeFrom (S i) rest
  end.

Definition analyzeAll (dependencies : list Dependency.t) : list DependencyAnalysis.t :=
  analyzeFrom 0 dependencies.

End RunScan.

(** [a.health?.overall ?? null] *)
Definition overallOrNull (a : DependencyAnalysis.t) : option number :=
  optionalChain (DependencyAnalysis.health a) HealthScore.overall.

Definition hasRisk (level : RiskLevel.t) (a : DependencyAnalysis.t) : bool :=
  RiskLevel.eqb (getRiskLevel (overallOrNull a)) level.

(** [a.error !== undefined] *)
Definition hasError (a : DependencyAnalysis.t) : bool :=
  match DependencyAnalysis.error a with
  | Some _ => true
  | None => false
  end.

Definition summarize (analyses : list DependencyAnalysis.t) : ScanSummary.t :=
  {| ScanSummary.total := List.length analyses;
     ScanSummary.healthy := List.length (filter (hasRisk RiskLevel.healthy) analyses);
     ScanSummary.warning := List.length (filter (hasRisk RiskLevel.warning) analyses);
     ScanSummary.critical := List.length (filter (hasRisk RiskLevel.critical) analyses);
     ScanSummary.failed := List.length (filter hasError analyses) |}.

End Cli.

Import Analyzer.

(** ** The wording of the specification *)

Module Spec.

(** "prefer [repoHealth.lastCommitDate] if present, else
    [metadata.lastPublished]" *)
Definition referenceTimestamp (metadata : PackageMetadata.t)
    (repoHealth : option GitHubRepoHealth.t) : option Date :=
  match repoHealth with
  | Some h =>
      match GitHubRepoHealth.lastCommitDate h with
      | Some d => Some d
      | None => PackageMetadata.lastPublished metadata
      end
  | None => PackageMetadata.lastPublished metadata
  end.

(** "the repository is flagged archived" *)
Definition archived (repoHealth : option GitHubRepoHealth.t) : bool :=
  match repoHealth with
  | Some h => GitHubRepoHealth.isArchived h
  | None => false
  end.

(** The ordered thresholds on the days elapsed: one row per band. *)
Definition thresholdRow (days score : Z) (status : FreshnessScore.Status) : Prop :=
  (days < 180 -> score = 100 /\ status = FreshnessScore.active) /\
  (180 <= days < 365 -> score = 75 /\ status = FreshnessScore.active) /\
  (365 <= days < 730 -> score = 40 /\ status = FreshnessScore.stale) /\
  (730 <= days < 1095 -> score = 20 /\ status = FreshnessScore.abandoned) /\
  (1095 <= days -> score = 5 /\ status = FreshnessScore.abandoned).

(** The same repository health with its archived flag set to [flag]. *)
Definition withArchived (flag : bool) (h : GitHubRepoHealth.t) : GitHubRepoHealth.t :=
  {| GitHubRepoHealth.lastCommitDate := GitHubRepoHealth.lastCommitDate h;
     GitHubRepoHealth.contributorCount := GitHubRepoHealth.contributorCount h;
     GitHubRepoHealth.openIssues := GitHubRepoHealth.openIssues h;
     GitHubRepoHealth.stars := GitHubRepoHealth.stars h;
     GitHubRepoHealth.isArchived := flag |}.

(** "round-half-up to nearest integer", in exact arithmetic *)
Definition roundHalfUp (q : Q) : Z := Qfloor (q + (1 # 2))%Q.

(** "freshness·0.40 + maintainer·0.30 + license·0.30", in exact arithmetic *)
Definition weighted (freshness maintainer license : Z) : Q :=
  ((40 # 100) * inject_Z freshness
   + (30 # 100) * inject_Z maintainer
   + (30 # 100) * inject_Z license)%Q.

(** The invariants of the data model: the overall score is an integer of
    [0,100], the rounded weighted sum of the sub-scores, each of which lies in
    [0,100]; the nullable fields are [null] exactly under the unknown status. *)
Definition wellFormed (hs : HealthScore.t) : Prop :=
  let f := HealthScore.freshness hs in
  let m := HealthScore.maintainerHealth hs in
  let l := HealthScore.licenseHealth hs in
  (exists overall, HealthScore.overall hs = Int overall /\ 0 <= overall <= 100 /\
     overall = roundHalfUp (weighted (FreshnessScore.score f) (MaintainerScore.score m)
                              (LicenseScore.score l))) /\
  0 <= FreshnessScore.score f <= 100 /\
  0 <= MaintainerScore.score m <= 100 /\
  0 <= LicenseScore.score l <= 100 /\
  (FreshnessScore.lastUpdate f = None <-> FreshnessScore.status f = FreshnessScore.unknown) /\
  (FreshnessScore.lastUpdate f = None <-> FreshnessScore.daysSinceUpdate f = None) /\
  (LicenseScore.license l = None <-> LicenseScore.status l = LicenseScore.unknown).







End Spec.

(** ** Sample inputs *)

Definition msPerDay : Z := 1000 * 60 * 60 * 24.

Module Sample.

(** The time value [days] whole days after the epoch. *)
Definition day (days : Z) : Z := days * msPerDay.

Definition someone : Maintainer.t :=
  {| Maintainer.name := "sam"; Maintainer.email := None |}.

Definition metadata (published : option Date) (maintainerCount : nat)
    (license : option string) : PackageMetadata.t :=
  {| PackageMetadata.name := "left-pad";
     PackageMetadata.version := "1.3.0";
     PackageMetadata.lastPublished := published;
     PackageMetadata.maintainers := repeat someone maintainerCount;
     PackageMetadata.license := license;
     PackageMetadata.repositoryUrl := None;
     PackageMetadata.homepage := None;
     PackageMetadata.description := None |}.

(** Every nullable field [null] and no maintainer. *)
Definition bare : PackageMetadata.t := metadata None 0 None.

Definition repo (commit : option Date) (contributors : Z) (archived : bool)
    : GitHubRepoHealth.t :=
  {| GitHubRepoHealth.lastCommitDate := commit;
     GitHubRepoHealth.contributorCount := contributors;
     GitHubRepoHealth.openIssues := 0;
     GitHubRepoHealth.stars := 0;
     GitHubRepoHealth.isArchived := archived |}.

(** Score and status of the freshness of a package published at the epoch,
    with two maintainers and the MIT license, scored [days] days later. *)
Definition freshnessAfter (days : Z) : option (Z * FreshnessScore.Status) :=
  match calculateHealthScore (day days) (metadata (Some (ValidDate 0)) 2 (Some "MIT")) None with
  | Normal hs =>
      Some (FreshnessScore.score (HealthScore.freshness hs),
            FreshnessScore.status (HealthScore.freshness hs))
  | Throw _ => None
  end.

(** Score and status of the license sub-score of a package whose license is
    [license]. *)
Definition licenseOf (license : option string) : option (Z * LicenseScore.Status) :=
  match calculateHealthScore 0 (metadata None 0 license) None with
  | Normal hs =>
      Some (LicenseScore.score (HealthScore.licenseHealth hs),
            LicenseScore.status (HealthScore.licenseHealth hs))
  | Throw _ => None
  end.

(** The days between two valid dates, in doubles as the source computes
    them, and in the integers of the model. *)
Definition daysInDoubles (now last : Z) : number :=
  Math_floor ((toDouble now - toDouble last) / toDouble (1000 * 60 * 60 * 24))%float.

Definition daysInModel (now last : Z) : number :=
  floorDiv (sub (getTime (ValidDate now)) (getTime (ValidDate last))) (1000 * 60 * 60 * 24).

(** A current time (in 2023), and the dates one millisecond before, at and
    after [days] whole days before it. *)
Definition today : Z := 1700000000000.

Definition around (days : Z) : list Z :=
  [ today - day days - 1; today - day days; today - day days + 1 ].

(** A registry that knows one package, and a scan of three dependencies. *)
Definition registry (name : string) : Completion PackageMetadata.t :=
  if String.eqb name "left-pad"
  then Normal (metadata (Some (ValidDate 0)) 5 (Some "MIT"))
  else Throw ("Package not found: " ++ name).

Definition noRepository (url : string) (token : option string)
    : Completion (option GitHubRepoHealth.t) :=
  Normal None.

Definition dependency (name : string) (source : Source) : Dependency.t :=
  {| Dependency.name := name;
     Dependency.version := "1.0.0";
     Dependency.type := direct;
     Dependency.source := source;
     Dependency.isDev := false |}.

Definition dependencies : list Dependency.t :=
  [ dependency "left-pad" npm; dependency "ghost" npm; dependency "gopkg" go ].

(** A registry that knows three packages, which score 100, 61 and 32 ten
    days after the epoch: one of each risk level. *)
Definition registryOfThree (name : string) : Completion PackageMetadata.t :=
  if String.eqb name "left-pad"
  then Normal (metadata (Some (ValidDate 0)) 5 (Some "MIT"))
  else if String.eqb name "moment"
  then Normal (metadata (Some (ValidDate 0)) 1 None)
  else if String.eqb name "colors"
  then Normal (metadata None 0 None)
  else Throw ("Package not found: " ++ name).

Definition scanned : list Dependency.t :=
  [ dependency "moment" npm; dependency "ghost" npm; dependency "left-pad" npm;
    dependency "colors" npm ].

Definition options : Cli.Options.t :=
  {| Cli.Options.githubToken := None; Cli.Options.github := None |}.

End Sample.

(** ** More of the JavaScript library *)

Module Builtins.

(** [String(n)], as in a template literal: an integer prints in decimal (the
    integers the program prints are far below 10^21, where JavaScript turns
    to the exponent notation). *)
Definition numberToString (n : number) : string :=
  match n with
  | Int z => NilZero.string_of_int (Z.to_int z)
  | NaN => "NaN"
  | Infinity negative => if negative then "-Infinity" else "Infinity"
  end.

(** [a === k] for an integer literal [k]. *)
Definition strictEq (a : number) (k : Z) : bool :=
  match a with
  | Int x => x =? k
  | _ => false
  end.

(** [a > k] *)
Definition gt (a : number) (k : Z) : bool :=
  match a with
  | Int x => k <? x
  | NaN => false
  | Infinity negative => negb negative
  end.

(** [a < b] on two numbers. *)
Definition ltNumber (a b : number) : bool :=
  match a, b with
  | NaN, _ | _, NaN => false
  | Int x, Int y => x <? y
  | Int _, Infinity negative => negb negative
  | Infinity negative, Int _ => negative
  | Infinity s, Infinity t => s && negb t
  end.

End Builtins.

Import Builtins.

(** ** analyzer: the label of the days since the last update *)

Definition formatDaysSinceUpdate (days : option number) : string :=
  match days with
  | None => "Unknown"
  | Some days =>
      if lt days 1 then "Today"
      else if strictEq days 1 then "1 day ago"
      else if lt days 30 then numberToString days ++ " days ago"
      else if lt days 60 then "1 month ago"
      else if lt days 365 then numberToString (floorDiv days 30) ++ " months ago"
      else if lt days 730 then "1 year ago"
      else numberToString (floorDiv days 365) ++ " years ago"
  end.

(** ** More of the JavaScript strings *)

Module Text.

(** The longest prefix of [s] whose characters satisfy [p], and what follows
    it: what a greedy class repetition [[...]*] consumes at the head of [s]. *)
Fixpoint span (p : ascii -> bool) (s : string) : string * string :=
  match s with
  | EmptyString => (EmptyString, EmptyString)
  | String c r =>
      if p c then let '(taken, rest) := span p r in (String c taken, rest)
      else (EmptyString, s)
  end.

Definition isEmpty (s : string) : bool :=
  match s with
  | EmptyString => true
  | String _ _ => false
  end.

Definition trimStart (s : string) : string := snd (span isWhiteSpace s).

Fixpoint trimEnd (s : string) : string :=
  match s with
  | EmptyString => EmptyString
  | String c r =>
      let r' := trimEnd r in
      if isWhiteSpace c && isEmpty r' then EmptyString else String c r'
  end.

(** [s.trim()] *)
Definition trim (s : string) : string := trimEnd (trimStart s).

(** [s.startsWith(p)] *)
Definition startsWith (s p : string) : bool := prefix p s.

(** [s.endsWith(p)] *)
Fixpoint endsWith (s p : string) : bool :=
  if String.eqb s p then true
  else match s with
       | EmptyString => false
       | String _ r => endsWith r p
       end.

Definition isUpperCase (c : ascii) : bool :=
  let n := N_of_ascii c in ((65 <=? n) && (n <=? 90))%N.

Definition toLowerCaseChar (c : ascii) : ascii :=
  if isUpperCase c then ascii_of_N (N_of_ascii c + 32) else c.

Fixpoint toLowerCase (s : string) : string :=
  match s with
  | EmptyString => EmptyString
  | String c r => String (toLowerCaseChar c) (toLowerCase r)
  end.

Definition isDigit (c : ascii) : bool :=
  let n := N_of_ascii c in ((48 <=? n) && (n <=? 57))%N.

Definition isLetter (c : ascii) : bool := isLowerCase c || isUpperCase c.

(** The value of a string of decimal digits, after [acc]. *)
Fixpoint digitsValue (acc : Z) (digits : string) : Z :=
  match digits with
  | EmptyString => acc
  | String c r => digitsValue (10 * acc + Z.of_N (N_of_ascii c - 48)) r
  end.

(** [parseInt(s, 10)]: leading white space is skipped, a sign is read, then
    the longest run of digits; [NaN] when there is no digit. *)
Definition parseInt (s : string) : number :=
  let trimmed := trimStart s in
  let '(sign, unsigned) :=
    match trimmed with
    | String "-" r => (-1, r)
    | String "+" r => (1, r)
    | _ => (1, trimmed)
    end in
  let digits := fst (span isDigit unsigned) in
  if isEmpty digits then NaN else Int (sign * digitsValue 0 digits).

(** [a || b] on strings that may be [undefined]. *)
Definition orString (a : option string) (b : string) : string :=
  match a with
  | Some (String c r) => String c r
  | _ => b
  end.

(** What follows [literal] at the head of [s], when [s] begins with it. *)
Fixpoint afterPrefix (literal s : string) : option string :=
  match literal with
  | EmptyString => Some s
  | String a literal' =>
      match s with
      | String b s' => if Ascii.eqb a b then afterPrefix literal' s' else None
      | EmptyString => None
      end
  end.

(** [s.replace(/^literal/, replacement)] *)
Definition replacePrefix (literal replacement s : string) : string :=
  match afterPrefix literal s with
  | Some rest => replacement ++ rest
  | None => s
  end.

(** [s.replace(/literal$/, '')] *)
Fixpoint removeSuffix (literal s : string) : string :=
  if String.eqb s literal then EmptyString
  else match s with
       | EmptyString => EmptyString
       | String c r => String c (removeSuffix literal r)
       end.

(** [s.replace(/literal/, replacement)]: the first occurrence only. *)
Fixpoint replaceFirst (literal replacement s : string) : string :=
  match afterPrefix literal s with
  | Some rest => replacement ++ rest
  | None =>
      match s with
      | EmptyString => EmptyString
      | String c r => String c (replaceFirst literal replacement r)
      end
  end.

(** The index of the first [c] in [s], counted from [from]: [s.indexOf(c)]
    is [-1] when there is none. *)
Fixpoint indexOfChar (c : ascii) (from : nat) (s : string) : option nat :=
  match s with
  | EmptyString => None
  | String d r => if Ascii.eqb d c then Some from else indexOfChar c (S from) r
  end.

(** [s.split('\n')] *)
Fixpoint splitLines (s : string) : list string :=
  match s with
  | EmptyString => [EmptyString]
  | String c r =>
      if Ascii.eqb c "010" then EmptyString :: splitLines r
      else match splitLines r with
           | first :: others => String c first :: others
           | [] => [String c EmptyString]
           end
  end.

End Text.

Import Text.

(** ** parsers/package-json.ts *)

Module PackageJson.

(** The object [JSON.parse] gives, each field by its [Object.entries]: the
    keys that are array indices first, in ascending order, then the other
    keys in the order of the file, a key written twice being listed once. *)
Record t : Type := {
  dependencies : option (list (string * string));
  devDependencies : option (list (string * string))
}.

Definition isVersionPrefix (c : ascii) : bool :=
  (Ascii.eqb c "^" || Ascii.eqb c "~" || Ascii.eqb c ">" || Ascii.eqb c "="
   || Ascii.eqb c "<")%bool.

(** [version.replace(/^[\^~>=<]+/, '').trim()] *)
Definition cleanVersion (version : string) : string :=
  trim (snd (span isVersionPrefix version)).

Definition entry (isDev : bool) (e : string * string) : Dependency.t :=
  {| Dependency.name := fst e;
     Dependency.version := cleanVersion (snd e);
     Dependency.type := direct;
     Dependency.source := npm;
     Dependency.isDev := isDev |}.

(** The two loops of [parsePackageJson], on the parsed object. *)
Definition collect (packageJson : t) : list Dependency.t :=
  let regular :=
    match dependencies packageJson with
    | Some entries => map (entry false) entries
    | None => []
    end in
  let dev :=
    match devDependencies packageJson with
    | Some entries => map (entry true) entries
    | None => []
    end in
  regular ++ dev.

Section Files.

(** The file system, [path.resolve] and [JSON.parse] are the platform's. *)
Variable resolve : string -> string.
Variable existsSync : string -> bool.
Variable readFileSync : string -> string.
Variable JSON_parse : string -> Completion t.

Definition parsePackageJson (filePath : string) : Completion (list Dependency.t) :=
  let absolutePath := resolve filePath in
  if negb (existsSync absolutePath) then Throw ("File not found: " ++ absolutePath)
  else
    let content := readFileSync absolutePath in
    match JSON_parse content with
    | Throw message => Throw ("Invalid JSON in " ++ filePath ++ ": " ++ message)
    | Normal packageJson => Normal (collect packageJson)
    end.

End Files.

End PackageJson.

(** ** cli/index.ts: the selection of the dependencies and the threshold *)

Module Scan.

Inductive FileType : Type := file_npm | file_pypi | file_unknown.

(** [if (!options.dev && fileType === 'npm') dependencies = dependencies.filter((d) => !d.isDev)] *)
Definition selectDependencies (dev : option bool) (fileType : FileType)
    (dependencies : list Dependency.t) : list Dependency.t :=
  match fileType with
  | file_npm =>
      if negb (truthyBoolean dev)
      then filter (fun d => negb (Dependency.isDev d)) dependencies
      else dependencies
  | _ => dependencies
  end.

(** [a.health && a.health.overall < threshold] *)
Definition scoredBelow (threshold : number) (a : DependencyAnalysis.t) : bool :=
  match DependencyAnalysis.health a with
  | Some health => ltNumber (HealthScore.overall health) threshold
  | None => false
  end.

(** The end of [runScan]: true when it calls [process.exit(1)]. *)
Definition exitsWithFailure (thresholdOption : option string)
    (analyses : list DependencyAnalysis.t) : bool :=
  let threshold := parseInt (orString thresholdOption "0") in
  if gt threshold 0 then
    let belowThreshold := filter (scoredBelow threshold) analyses in
    (0 <? List.length belowThreshold)%nat
  else false.

End Scan.

(** ** cli/reporter.ts *)

Module Reporter.

(** The styles of [chalk] the reporter uses. *)
Inductive Style : Type :=
| gray | red | yellow | green | greenBold | yellowBold | redBold.

(** The message [printSummary] ends with. *)
Inductive Recommendation : Type :=
| ActionRequired      (* 'Action Required!' and its second line, in red *)
| CouldUseAttention   (* 'Some dependencies could use attention.', in yellow *)
| AllHealthy.         (* 'All dependencies look healthy!', in green *)

(** [printSummary], after the four counts: whether the line of the failed
    dependencies is printed, and the recommendation. *)
Definition printsFailedLine (summary : ScanSummary.t) : bool :=
  (0 <? ScanSummary.failed summary)%nat.

Definition recommendation (summary : ScanSummary.t) : Recommendation :=
  if (0 <? ScanSummary.critical summary)%nat then ActionRequired
  else if (0 <? ScanSummary.warning summary)%nat then CouldUseAttention
  else AllHealthy.

(** [a.health?.overall ?? 999] *)
Definition sortScore (a : DependencyAnalysis.t) : number :=
  match optionalChain (DependencyAnalysis.health a) HealthScore.overall with
  | Some overall => overall
  | None => Int 999
  end.

(** The comparison function of the sort: [scoreA - scoreB]. *)
Definition compareScores (a b : DependencyAnalysis.t) : number :=
  sub (sortScore a) (sortScore b).

(** [a] is not to come after [b]: the comparison is negative, or zero, or
    [NaN], which [sort] takes for zero. *)
Definition notAfter (a b : DependencyAnalysis.t) : bool :=
  match compareScores a b with
  | Int v => v <=? 0
  | NaN => true
  | Infinity negative => negative
  end.

(** [Array.prototype.sort] is stable: with a comparison function that is
    consistent, its result is that of the insertion, from the last element to
    the first, of each element before the first one it is not to come after. *)
Fixpoint insertSorted (a : DependencyAnalysis.t) (sorted : list DependencyAnalysis.t)
    : list DependencyAnalysis.t :=
  match sorted with
  | [] => [a]
  | b :: rest => if notAfter a b then a :: sorted else b :: insertSorted a rest
  end.

(** [[...result.dependencies].sort((a, b) => scoreA - scoreB)] *)
Definition sortByScore (dependencies : list DependencyAnalysis.t) : list DependencyAnalysis.t :=
  fold_right insertSorted [] dependencies.

Section Console.

(** [chalk] wraps a text in the escape codes of a style; the ellipsis, the
    dash and the four coloured circles are not ASCII. All are taken as they
    come. *)
Variable chalk : Style -> string -> string.
Variable ellipsis : ascii.
Variable dash : string.
Variable greenCircle yellowCircle redCircle whiteCircle : string.

(** [maxLen] is an integer; [substring] takes a negative end for zero. *)
Definition truncate (str : string) (maxLen : Z) : string :=
  if Z.of_nat (String.length str) <=? maxLen then str
  else substring 0 (Z.to_nat (maxLen - 1)) str ++ String ellipsis EmptyString.

Definition formatDependencyRow (dep : DependencyAnalysis.t) (verbose : bool) : list string :=
  let name := Dependency.name (DependencyAnalysis.dependency dep) in
  if truthyString (DependencyAnalysis.error dep) then
    [ chalk gray name; chalk gray dash; chalk gray dash; chalk gray dash;
      chalk gray dash; chalk red "Error" ]
  else
    match DependencyAnalysis.health dep with
    | None =>
        [ chalk gray name; chalk gray dash; chalk gray dash; chalk gray dash;
          chalk gray dash; chalk yellow "Unknown" ]
    | Some health =>
        let score := HealthScore.overall health in
        let risk := getRiskLevel (Some score) in
        let '(scoreStr, statusStr, statusEmoji) :=
          match risk with
          | RiskLevel.healthy =>
              (chalk greenBold (numberToString score), chalk green "Healthy", greenCircle)
          | RiskLevel.warning =>
              (chalk yellowBold (numberToString score), chalk yellow "Warning", yellowCircle)
          | RiskLevel.critical =>
              (chalk redBold (numberToString score), chalk red "Critical", redCircle)
          | RiskLevel.unknown =>
              (chalk gray (numberToString score), chalk gray "Unknown", whiteCircle)
          end in
        let freshness := HealthScore.freshness health in
        let lastUpdate := formatDaysSinceUpdate (FreshnessScore.daysSinceUpdate freshness) in
        let lastUpdateStr :=
          match FreshnessScore.status freshness with
          | FreshnessScore.abandoned => chalk red lastUpdate
          | FreshnessScore.stale => chalk yellow lastUpdate
          | _ => chalk green lastUpdate
          end in
        let maintainerCount := MaintainerScore.count (HealthScore.maintainerHealth health) in
        let maintainerStr :=
          if 3 <=? maintainerCount then chalk green (numberToString (Int maintainerCount))
          else if 2 <=? maintainerCount then chalk yellow (numberToString (Int maintainerCount))
          else chalk red (numberToString (Int maintainerCount)) in
        let license :=
          orString (LicenseScore.license (HealthScore.licenseHealth health)) "Unknown" in
        let licenseStr :=
          match LicenseScore.status (HealthScore.licenseHealth health) with
          | LicenseScore.approved => chalk green (truncate license 13)
          | LicenseScore.deprecated => chalk red (truncate license 13)
          | _ => chalk yellow (truncate license 13)
          end in
        let pkgName :=
          if Dependency.isDev (DependencyAnalysis.dependency dep)
          then chalk gray (name ++ " (dev)")
          else name in
        [ truncate pkgName 28; statusEmoji ++ " " ++ scoreStr; lastUpdateStr;
          maintainerStr; licenseStr; statusStr ]
    end.

(** The rows of the table of [printReport], in the order they are pushed. *)
Definition tableRows (dependencies : list DependencyAnalysis.t) (verbose : bool)
    : list (list string) :=
  map (fun dep => formatDependencyRow dep verbose) (sortByScore dependencies).

(** [date.toISOString()]: a [RangeError] on an invalid date. [isoString] is
    the text of a valid time value. *)
Variable isoString : Z -> string.

Definition toISOString (date : Date) : Completion string :=
  match date with
  | ValidDate t => Normal (isoString t)
  | InvalidDate => Throw "Invalid time value"
  end.

(** [date?.toISOString() || null] *)
Definition isoOrNull (date : option Date) : Completion (option string) :=
  match date with
  | None => Normal None
  | Some d =>
      match toISOString d with
      | Normal text => Normal (if isEmpty text then None else Some text)
      | Throw message => Throw message
      end
  end.

(** An object written with a spread and one field replaced: the object and
    the new value of the field. *)
Definition Replaced (A B : Type) : Type := (A * B)%type.

(** One element of [jsonResult.dependencies]: the analysis, with
    [lastPublished] replaced in its metadata and [lastUpdate] replaced in the
    freshness of its health. *)
Record JsonDependency : Type := {
  analysis : DependencyAnalysis.t;
  jsonMetadata : option (Replaced PackageMetadata.t (option string));
  jsonHealth : option (Replaced HealthScore.t (option string))
}.

Definition jsonDependency (dep : DependencyAnalysis.t) : Completion JsonDependency :=
  Js.bind
    (match DependencyAnalysis.metadata dep with
     | Some metadata =>
         Js.bind (isoOrNull (PackageMetadata.lastPublished metadata))
                 (fun iso => Normal (Some (metadata, iso)))
     | None => Normal None
     end)
    (fun metadata =>
       Js.bind
         (match DependencyAnalysis.health dep with
          | Some health =>
              Js.bind (isoOrNull (FreshnessScore.lastUpdate (HealthScore.freshness health)))
                      (fun iso => Normal (Some (health, iso)))
          | None => Normal None
          end)
         (fun health =>
            Normal {| analysis := dep; jsonMetadata := metadata; jsonHealth := health |})).

(** [result.dependencies.map(...)]: the first element that throws ends it. *)
Fixpoint jsonDependencies (dependencies : list DependencyAnalysis.t)
    : Completion (list JsonDependency) :=
  match dependencies with
  | [] => Normal []
  | dep :: rest =>
      Js.bind (jsonDependency dep)
              (fun first =>
                 Js.bind (jsonDependencies rest) (fun others => Normal (first :: others)))
  end.

(** [printJsonReport]: the object handed to [JSON.stringify], by its
    [scannedAt] and its [dependencies]. *)
Definition printJsonReport (scannedAt : Date) (dependencies : list DependencyAnalysis.t)
    : Completion (string * list JsonDependency) :=
  Js.bind (toISOString scannedAt)
          (fun iso =>
             Js.bind (jsonDependencies dependencies) (fun json => Normal (iso, json))).

End Console.

End Reporter.

(** ** clients/github-client.ts and clients/npm-client.ts: repository URLs *)

Module GitHubUrl.

Record t : Type := { owner : string; repo : string }.

Definition isSlash (c : ascii) : bool := Ascii.eqb c "/".

Definition notSlash (c : ascii) : bool := negb (isSlash c).

(** The class [[^/.\s]] *)
Definition isRepoChar (c : ascii) : bool :=
  negb (isSlash c) && negb (Ascii.eqb c ".") && negb (isWhiteSpace c).

(** The pattern [/github\.com[/:]([^/]+)\/([^/.\s]+)/] at the head of [s].
    The first group is greedy and cannot hold a slash, so it ends at the first
    slash, which has to be there; the second group is the longest run of its
    class after that slash. A shorter first group would not be followed by a
    slash: there is no other way for the pattern to match at this place. *)
Definition matchHere (s : string) : option (string * string) :=
  match afterPrefix "github.com" s with
  | Some (String separator rest) =>
      if isSlash separator || Ascii.eqb separator ":" then
        let '(group1, rest1) := span notSlash rest in
        match group1, rest1 with
        | String _ _, String _ rest2 =>
            let '(group2, _) := span isRepoChar rest2 in
            if isEmpty group2 then None else Some (group1, group2)
        | _, _ => None
        end
      else None
  | _ => None
  end.

(** [url.match(pattern)]: the match at the first place of [url] that has one. *)
Fixpoint firstMatch (url : string) : option (string * string) :=
  match matchHere url with
  | Some groups => Some groups
  | None =>
      match url with
      | EmptyString => None
      | String _ rest => firstMatch rest
      end
  end.

Definition parseGitHubUrl (url : string) : option t :=
  match firstMatch url with
  | Some (group1, group2) =>
      Some {| owner := group1; repo := removeSuffix ".git" group2 |}
  | None => None
  end.

(** [cleanGitUrl] of the npm client. *)
Definition cleanGitUrl (url : string) : string :=
  replaceFirst "git@github.com:" "https://github.com/"
    (removeSuffix ".git"
       (replacePrefix "ssh://git@" "https://"
          (replacePrefix "git://" "https://"
             (replacePrefix "git+" "" url)))).

End GitHubUrl.

(** ** parsers/requirements-txt.ts *)

Module RequirementsTxt.

Record ParsedRequirement : Type := { name : string; version : string }.

(** The class [[a-zA-Z0-9_-]] *)
Definition isNameChar (c : ascii) : bool :=
  isLetter c || isDigit c || Ascii.eqb c "_" || Ascii.eqb c "-".

(** The class [[=~<>!]] *)
Definition isOperatorChar (c : ascii) : bool :=
  Ascii.eqb c "=" || Ascii.eqb c "~" || Ascii.eqb c "<" || Ascii.eqb c ">"
  || Ascii.eqb c "!".

(** The class [[0-9a-zA-Z.*-]] *)
Definition isVersionChar (c : ascii) : bool :=
  isDigit c || isLetter c || Ascii.eqb c "." || Ascii.eqb c "*" || Ascii.eqb c "-".

(** The characters [.] does not match: the line terminators. *)
Definition isLineTerminator (c : ascii) : bool :=
  Ascii.eqb c "010" || Ascii.eqb c "013".

Fixpoint hasLineTerminator (s : string) : bool :=
  match s with
  | EmptyString => false
  | String c r => isLineTerminator c || hasLineTerminator r
  end.

(** [line.substring(0, line.indexOf(c)).trim()] when [c] occurs in [line],
    else [line]. *)
Definition cutAt (c : ascii) (line : string) : string :=
  match indexOfChar c 0 line with
  | Some index => trim (substring 0 index line)
  | None => line
  end.

(** The optional group [(?:\[[^\]]+\])?] at the head of [s]: what follows
    it when it matches (a bracket, one character or more that are not a
    closing bracket, a closing bracket), else [s]. *)
Definition skipExtras (s : string) : string :=
  match s with
  | String "[" r =>
      let '(inside, rest) := span (fun c => negb (Ascii.eqb c "]")) r in
      match inside, rest with
      | String _ _, String _ after => after
      | _, _ => s
      end
  | _ => s
  end.

(** The pattern of a requirement on [line], anchored at both ends: a name
    [[a-zA-Z0-9_-]+] (first group), optional extras in brackets, white space,
    and all the rest, any characters but line terminators (second group). The
    name is the longest run of its class; the second group is what follows the
    extras and the white space, and has to reach the end of the line without a
    line terminator. A shorter name, extras left unread or less white space
    would leave the same line terminator to the second group: when this
    reading fails, none succeeds. *)
Definition matchRequirement (line : string) : option (string * string) :=
  let '(group1, rest) := span isNameChar line in
  if isEmpty group1 then None
  else
    let group2 := trimStart (skipExtras rest) in
    if hasLineTerminator group2 then None else Some (group1, group2).

(** The pattern of a version at the head of [s]: operators [[=~<>!]+],
    white space, then the group, a digit followed by any number of
    [[0-9a-zA-Z.*-]]. Operators and white space are read greedily; fewer of
    either would leave an operator or a white space where the digit is
    expected. *)
Definition matchVersionHere (s : string) : option string :=
  let '(operators, rest) := span isOperatorChar s in
  if isEmpty operators then None
  else
    match trimStart rest with
    | String digit r =>
        if isDigit digit then Some (String digit (fst (span isVersionChar r))) else None
    | EmptyString => None
    end.

(** [specifiers.match(pattern)]: the match at the first place that has one. *)
Fixpoint firstVersion (specifiers : string) : option string :=
  match matchVersionHere specifiers with
  | Some group => Some group
  | None =>
      match specifiers with
      | EmptyString => None
      | String _ rest => firstVersion rest
      end
  end.

Definition parseRequirementLine (line : string) : option ParsedRequirement :=
  let line := cutAt "#" line in
  if isEmpty line then None
  else
    let line := cutAt ";" line in
    match matchRequirement line with
    | None => None
    | Some (group1, group2) =>
        let version :=
          if isEmpty group2 then "*"
          else match firstVersion group2 with
               | Some group => group
               | None => "*"
               end in
        Some {| name := group1; version := version |}
    end.

(** The body of the loop of [parseRequirementsTxt]: what one raw line adds. *)
Definition requirementOfLine (rawLine : string) : list Dependency.t :=
  let line := trim rawLine in
  if isEmpty line || startsWith line "#" then []
  else if startsWith line "-" then []
  else if includes line "://" || startsWith line "git+" then []
  else
    match parseRequirementLine line with
    | Some parsed =>
        [ {| Dependency.name := name parsed;
             Dependency.version := version parsed;
             Dependency.type := direct;
             Dependency.source := pypi;
             Dependency.isDev := false |} ]
    | None => []
    end.

Section Files.

Variable resolve : string -> string.
Variable existsSync : string -> bool.
Variable readFileSync : string -> string.

Definition parseRequirementsTxt (filePath : string) : Completion (list Dependency.t) :=
  let absolutePath := resolve filePath in
  if negb (existsSync absolutePath) then Throw ("File not found: " ++ absolutePath)
  else
    let content := readFileSync absolutePath in
    let lines := splitLines content in
    Normal (flat_map requirementOfLine lines).

End Files.

End RequirementsTxt.

(** ** parsers/index.ts and the head of [runScan] *)

Module Manifest.

Section Files.

(** [path] and [fs] are the platform's. *)
Variable basename : string -> string.
Variable resolve : string -> string.
Variable join : string -> string -> string.
Variable existsSync : string -> bool.
Variable isDirectory : string -> bool.
Variable readFileSync : string -> string.
Variable JSON_parse : string -> Completion PackageJson.t.

Definition detectFileType (filePath : string) : Scan.FileType :=
  let name := toLowerCase (basename filePath) in
  if String.eqb name "package.json" then Scan.file_npm
  else if String.eqb name "requirements.txt" || endsWith name ".txt" then Scan.file_pypi
  else Scan.file_unknown.

Definition parseDependencyFile (filePath : string) : Completion (list Dependency.t) :=
  match detectFileType filePath with
  | Scan.file_npm =>
      PackageJson.parsePackageJson resolve existsSync readFileSync JSON_parse filePath
  | Scan.file_pypi =>
      RequirementsTxt.parseRequirementsTxt resolve existsSync readFileSync filePath
  | Scan.file_unknown => Throw ("Unsupported file type: " ++ basename filePath)
  end.

(** [runScan], from the path it is given to the dependencies it analyses:
    the manifest is located, its type is detected, it is parsed, and the
    development dependencies are left out unless asked for. *)
Definition locateManifest (inputPath : string) : Completion string :=
  let filePath := resolve inputPath in
  Js.bind
    (if existsSync filePath && isDirectory filePath then
       if existsSync (join filePath "package.json")
       then Normal (join filePath "package.json")
       else if existsSync (join filePath "requirements.txt")
            then Normal (join filePath "requirements.txt")
            else Throw "No package.json or requirements.txt found in directory"
     else Normal filePath)
    (fun filePath =>
       if negb (existsSync filePath) then Throw ("File not found: " ++ filePath)
       else Normal filePath).

Definition scannedDependencies (inputPath : string) (dev : option bool)
    : Completion (list Dependency.t) :=
  Js.bind (locateManifest inputPath)
    (fun filePath =>
       let fileType := detectFileType filePath in
       match fileType with
       | Scan.file_unknown => Throw ("Unsupported file type: " ++ basename filePath)
       | _ =>
           Js.bind (parseDependencyFile filePath)
             (fun dependencies =>
                Normal (Scan.selectDependencies dev fileType dependencies))
       end).

End Files.

End Manifest.

(** ** clients/github-client.ts: [fetchGitHubRepoHealth] *)

Module GitHubClient.

Definition GITHUB_API_URL : string := "https://api.github.com".

(** What is read of the data of the repository. *)
Record RepoData : Type := {
  open_issues_count : option Z;
  stargazers_count : option Z;
  archived : option bool
}.

Definition quote : ascii := "034".

(** The text [>; rel="last"] *)
Definition lastRelation : string :=
  ">; rel=" ++ String quote ("last" ++ String quote "").

(** The pattern [/page=(\d+)>; rel="last"/] at the head of [s]: its group.
    The digits are read greedily; fewer of them would leave a digit where [>]
    is expected. *)
Definition matchLastPageHere (s : string) : option string :=
  match afterPrefix "page=" s with
  | Some rest =>
      let '(digits, rest') := span isDigit rest in
      if isEmpty digits then None
      else match afterPrefix lastRelation rest' with
           | Some _ => Some digits
           | None => None
           end
  | None => None
  end.

(** [linkHeader.match(pattern)]: the match at the first place that has one. *)
Fixpoint lastPage (linkHeader : string) : option string :=
  match matchLastPageHere linkHeader with
  | Some digits => Some digits
  | None =>
      match linkHeader with
      | EmptyString => None
      | String _ rest => lastPage rest
      end
  end.

(** [a || b] on a number that may be [undefined], and on a boolean. *)
Definition orZero (a : option Z) : Z := orNumber a 0.

Definition orFalse (a : option bool) : bool := truthyBoolean a.

Section Network.

(** The three requests to the API, by their URL, each with what the code
    reads of its answer: the data of the repository, the committer dates of
    the commits asked for, and the [link] header and number of elements of
    the answer on contributors. A request that fails, or an answer in which
    that reading throws, is a [Throw]. [dateOf] is [new Date(text)]. The
    token only goes into the headers. *)
Variable getRepo : string -> Completion RepoData.
Variable getCommits : string -> Completion (list string).
Variable getContributors : string -> Completion (option string * nat).
Variable dateOf : string -> Date.

Definition contributorsOf (response : option string * nat) : Z :=
  let '(linkHeader, dataLength) := response in
  if truthyString linkHeader then
    match linkHeader with
    | Some header =>
        match lastPage header with
        | Some digits =>
            match parseInt digits with
            | Int pages => pages
            | _ => 0
            end
        | None => 0
        end
    | None => 0
    end
  else Z.of_nat dataLength.

Definition fetchGitHubRepoHealth (repositoryUrl : string) (token : option string)
    : Completion (option GitHubRepoHealth.t) :=
  match GitHubUrl.parseGitHubUrl repositoryUrl with
  | None => Normal None
  | Some parsed =>
      let api :=
        GITHUB_API_URL ++ "/repos/" ++ GitHubUrl.owner parsed ++ "/" ++ GitHubUrl.repo parsed in
      Normal
        (tryCatch
           (Js.bind (getRepo api)
              (fun repoData =>
                 let lastCommitDate :=
                   tryCatch
                     (Js.bind (getCommits (api ++ "/commits"))
                        (fun dates =>
                           Normal match dates with
                                  | first :: _ => Some (dateOf first)
                                  | [] => None
                                  end))
                     (fun _ => None) in
                 let contributorCount :=
                   tryCatch
                     (Js.bind (getContributors (api ++ "/contributors"))
                        (fun response => Normal (contributorsOf response)))
                     (fun _ => 0) in
                 Normal
                   (Some {| GitHubRepoHealth.lastCommitDate := lastCommitDate;
                            GitHubRepoHealth.contributorCount := contributorCount;
                            GitHubRepoHealth.openIssues := orZero (open_issues_count repoData);
                            GitHubRepoHealth.stars := orZero (stargazers_count repoData);
                            GitHubRepoHealth.isArchived := orFalse (archived repoData) |})))
           (fun _ => None))
  end.

End Network.

End GitHubClient.


(** ** clients/npm-client.ts and clients/pypi-client.ts *)

Module Axios.

(** How [axios.get] fails: with an error of axios, which carries the status
    of the response when one came, or with any other error. *)
Inductive Failure : Type :=
| AxiosError (status : option Z) (message : string)
| OtherError (message : string).

Inductive Outcome (A : Type) : Type :=
| Response (data : A)
| Failed (failure : Failure).
Arguments Response {A} data.
Arguments Failed {A} failure.

(** The [catch] block of the two registry clients: the message of the error
    it throws. *)
Definition rethrown (packageName : string) (failure : Failure) : string :=
  match failure with
  | AxiosError status message =>
      if match status with
         | Some code => code =? 404
         | None => false
         end
      then "Package not found: " ++ packageName
      else "Failed to fetch " ++ packageName ++ ": " ++ message
  | OtherError message => message
  end.

(** [object[key]] on an object read from JSON, given by its own properties;
    [key] is not the name of a property that objects inherit. *)
Fixpoint property {A : Type} (key : string) (object : list (string * A)) : option A :=
  match object with
  | [] => None
  | (k, v) :: rest => if String.eqb k key then Some v else property key rest
  end.

(** [a || b] on strings that may be [undefined] or [null]. *)
Definition orElse (a b : option string) : option string :=
  if truthyString a then a else b.

End Axios.

Module NpmClient.

Import Axios.

Definition NPM_REGISTRY_URL : string := "https://registry.npmjs.org".

Record DistTags : Type := { latest : option string }.

Record Repository : Type := { type : option string; url : option string }.

Record NpmPackageResponse : Type := {
  name : string;
  dist_tags : option DistTags;
  time : option (list (string * string));
  maintainers : option (list Maintainer.t);
  license : option string;
  repository : option Repository;
  homepage : option string;
  description : option string
}.

Section Network.

Variable get : string -> Outcome NpmPackageResponse.
Variable encodeURIComponent : string -> string.
Variable dateOf : string -> Date.

Definition metadataOf (packageName : string) (data : NpmPackageResponse)
    : PackageMetadata.t :=
  let latestVersion := orString (nullish (optionalChain (dist_tags data) latest)) "" in
  let lastPublished :=
    match time data with
    | Some times =>
        match orElse (property "modified" times) (property latestVersion times) with
        | Some (String c r) => Some (dateOf (String c r))
        | _ => None
        end
    | None => None
    end in
  let maintainers :=
    map (fun m => {| Maintainer.name := Maintainer.name m;
                     Maintainer.email := Maintainer.email m |})
        (match maintainers data with
         | Some listed => listed
         | None => []
         end) in
  let repositoryUrl :=
    match nullish (optionalChain (repository data) url) with
    | Some (String c r) => Some (GitHubUrl.cleanGitUrl (String c r))
    | _ => None
    end in
  {| PackageMetadata.name := packageName;
     PackageMetadata.version := latestVersion;
     PackageMetadata.lastPublished := lastPublished;
     PackageMetadata.maintainers := maintainers;
     PackageMetadata.license := orElse (license data) None;
     PackageMetadata.repositoryUrl := repositoryUrl;
     PackageMetadata.homepage := orElse (homepage data) None;
     PackageMetadata.description := orElse (description data) None |}.

Definition fetchNpmMetadata (packageName : string) : Completion PackageMetadata.t :=
  match get (NPM_REGISTRY_URL ++ "/" ++ encodeURIComponent packageName) with
  | Response data => Normal (metadataOf packageName data)
  | Failed failure => Throw (rethrown packageName failure)
  end.

End Network.

End NpmClient.

Module PyPIClient.

Import Axios.

Definition PYPI_API_URL : string := "https://pypi.org/pypi".

Record Info : Type := {
  name : string;
  version : string;
  author : option string;
  author_email : option string;
  maintainer : option string;
  maintainer_email : option string;
  license : option string;
  home_page : option string;
  project_url : option string;
  project_urls : option (list (string * string));
  summary : option string
}.

(** The files of a release are given by their [upload_time]. *)
Record PyPIResponse : Type := {
  info : Info;
  releases : option (list (string * list string))
}.

Section Network.

Variable get : string -> Outcome PyPIResponse.
Variable encodeURIComponent : string -> string.
Variable dateOf : string -> Date.

Definition metadataOf (packageName : string) (data : PyPIResponse) : PackageMetadata.t :=
  let info := info data in
  let latestVersion := version info in
  let lastPublished :=
    match releases data with
    | Some listed =>
        match property latestVersion listed with
        | Some (first :: _) => Some (dateOf first)
        | _ => None
        end
    | None => None
    end in
  let maintainers :=
    if truthyString (maintainer info) then
      [ {| Maintainer.name := orString (maintainer info) "";
           Maintainer.email := maintainer_email info |} ]
    else if truthyString (author info) then
      [ {| Maintainer.name := orString (author info) "";
           Maintainer.email := author_email info |} ]
    else [] in
  let repositoryUrl :=
    match project_urls info with
    | Some urls =>
        orElse
          (orElse
             (orElse
                (orElse (orElse (property "Source" urls) (property "Repository" urls))
                        (property "Code" urls))
                (property "GitHub" urls))
             (property "Homepage" urls))
          None
    | None => None
    end in
  {| PackageMetadata.name := packageName;
     PackageMetadata.version := latestVersion;
     PackageMetadata.lastPublished := lastPublished;
     PackageMetadata.maintainers := maintainers;
     PackageMetadata.license := orElse (license info) None;
     PackageMetadata.repositoryUrl := repositoryUrl;
     PackageMetadata.homepage := orElse (home_page info) None;
     PackageMetadata.description := orElse (summary info) None |}.

Definition fetchPyPIMetadata (packageName : string) : Completion PackageMetadata.t :=
  match get (PYPI_API_URL ++ "/" ++ encodeURIComponent packageName ++ "/json") with
  | Response data => Normal (metadataOf packageName data)
  | Failed failure => Throw (rethrown packageName failure)
  end.

End Network.

End PyPIClient.
(** ** Notions used to state the properties *)

Module Stated.

(** The entries of a field of package.json, none when the field is missing. *)
Definition entries (field : option (list (string * string))) : list (string * string) :=
  match field with
  | Some found => found
  | None => []
  end.

(** Every character of [s] satisfies [p]. *)
Definition allChars (p : ascii -> bool) (s : string) : Prop :=
  forall c, In c (list_ascii_of_string s) -> p c = true.

(** [s] is empty or begins with a character that does not satisfy [p]. *)
Definition headNot (p : ascii -> bool) (s : string) : Prop :=
  forall c r, s = String c r -> p c = false.

(** [s] is empty or ends with a character that does not satisfy [p]. *)
Definition lastNot (p : ascii -> bool) (s : string) : Prop :=
  forall r c, s = r ++ String c "" -> p c = false.

(** A letter, a digit, a hyphen or an underscore. *)
Definition isNameChar (c : ascii) : bool :=
  isLetter c || isDigit c || Ascii.eqb c "-" || Ascii.eqb c "_".

(** The forms under which the repository of a package of GitHub is written
    in the npm registry. *)
Definition npmRepositoryUrls (owner repo : string) : list string :=
  [ "git+https://github.com/" ++ owner ++ "/" ++ repo ++ ".git";
    "git://github.com/" ++ owner ++ "/" ++ repo ++ ".git";
    "git+ssh://git@github.com/" ++ owner ++ "/" ++ repo ++ ".git";
    "git@github.com:" ++ owner ++ "/" ++ repo ++ ".git";
    "https://github.com/" ++ owner ++ "/" ++ repo ++ ".git";
    "https://github.com/" ++ owner ++ "/" ++ repo ].

(** A version as the parser of requirements reads one: "*", or a digit
    followed by characters of versions. *)
Definition isVersion (version : string) : Prop :=
  version = "*" \/
  exists digit rest,
    version = String digit rest /\ isDigit digit = true /\
    allChars RequirementsTxt.isVersionChar rest.

(** Optional extras, as written after the name of a requirement. *)
Definition bracketed (extras : option string) : string :=
  match extras with
  | Some inside => "[" ++ inside ++ "]"
  | None => ""
  end.

(** A space or a tab. *)
Definition isBlank (c : ascii) : bool := Ascii.eqb c " " || Ascii.eqb c "009".

(** A character that opens no comment, opens no environment marker and ends
    no line. *)
Definition isPlainChar (c : ascii) : bool :=
  negb (Ascii.eqb c "#") && negb (Ascii.eqb c ";")
  && negb (RequirementsTxt.isLineTerminator c).

Definition notClosingBracket (c : ascii) : bool := negb (Ascii.eqb c "]").

(** Extras that can be written between brackets: not empty, plain, without a
    closing bracket. *)
Definition extrasWritable (extras : option string) : Prop :=
  forall inside, extras = Some inside ->
    inside <> "" /\ allChars isPlainChar inside /\ allChars notClosingBracket inside.

(** The score an analysis is sorted by, when it is an integer. *)
Definition scoreOf (a : DependencyAnalysis.t) : Z :=
  match Reporter.sortScore a with
  | Int z => z
  | _ => 0
  end.

Definition integerScores (analyses : list DependencyAnalysis.t) : Prop :=
  Forall (fun a => exists z, Reporter.sortScore a = Int z) analyses.

(** An analysis as the loop of a scan records it: scored by the scorer, with
    no error, or failed, with an error and no health. *)
Inductive Recorded (dep : Dependency.t) : DependencyAnalysis.t -> Prop :=
| recorded_scored now md gh hs :
    calculateHealthScore now md gh = Normal hs ->
    Recorded dep {| DependencyAnalysis.dependency := dep;
                    DependencyAnalysis.metadata := Some md;
                    DependencyAnalysis.health := Some hs;
                    DependencyAnalysis.error := None |}
| recorded_failed message :
    Recorded dep {| DependencyAnalysis.dependency := dep;
                    DependencyAnalysis.metadata := None;
                    DependencyAnalysis.health := None;
                    DependencyAnalysis.error := Some message |}.

(** An analysis that holds an invalid date, in its metadata or in the
    freshness of its health. *)
Definition hasInvalidDate (a : DependencyAnalysis.t) : Prop :=
  (exists md, DependencyAnalysis.metadata a = Some md /\
              PackageMetadata.lastPublished md = Some InvalidDate) \/
  (exists hs, DependencyAnalysis.health a = Some hs /\
              FreshnessScore.lastUpdate (HealthScore.freshness hs) = Some InvalidDate).

End Stated.

(** ** The scorer returns *)

Lemma calculateFreshnessScore_returns now md gh :
  exists r, calculateFreshnessScore now md gh = Normal r.
Proof.
  unfold calculateFreshnessScore.
  destruct (orObject _ _) as [d|]; simpl.
  - destruct (freshnessThresholds _) as [s st].
    destruct (if truthyBoolean _ then _ else _) as [s' st'].
    eexists; reflexivity.
  - eexists; reflexivity.
Qed.

Lemma calculateLicenseScore_returns md :
  exists r, calculateLicenseScore md = Normal r.
Proof.
  unfold calculateLicenseScore.
  destruct (PackageMetadata.license md) as [[|c s]|];
    cbn [truthyString negb Js.bind dereference]; try (eexists; reflexivity).
  destruct (includesSomeOf _ DEPRECATED_LICENSES); [eexists; reflexivity|].
  destruct (includesSomeOf _ OSI_APPROVED_LICENSES); eexists; reflexivity.
Qed.

Lemma calculateHealthScore_eq now md gh f l :
  calculateFreshnessScore now md gh = Normal f ->
  calculateLicenseScore md = Normal l ->
  calculateHealthScore now md gh =
  Normal {| HealthScore.overall :=
              Math_round (weightedSum (FreshnessScore.score f)
                            (MaintainerScore.score (calculateMaintainerScore md gh))
                            (LicenseScore.score l));
            HealthScore.freshness := f;
            HealthScore.maintainerHealth := calculateMaintainerScore md gh;
            HealthScore.licenseHealth := l |}.
Proof.
  intros Hf Hl. unfold calculateHealthScore. rewrite Hf. simpl. rewrite Hl. reflexivity.
Qed.

(** A property of what [calculateFreshnessScore] returns is a property of the
    [freshness] field of the health score. *)
Lemma freshness_of_health (P : FreshnessScore.t -> Prop) now md gh :
  (exists r, calculateFreshnessScore now md gh = Normal r /\ P r) ->
  exists hs, calculateHealthScore now md gh = Normal hs /\ P (HealthScore.freshness hs).
Proof.
  intros [f [Hf HP]]. destruct (calculateLicenseScore_returns md) as [l Hl].
  eexists. split; [apply (calculateHealthScore_eq _ _ _ _ _ Hf Hl)|exact HP].
Qed.

Lemma license_of_health (P : LicenseScore.t -> Prop) now md gh :
  (exists r, calculateLicenseScore md = Normal r /\ P r) ->
  exists hs, calculateHealthScore now md gh = Normal hs /\ P (HealthScore.licenseHealth hs).
Proof.
  intros [l [Hl HP]]. destruct (calculateFreshnessScore_returns now md gh) as [f Hf].
  eexists. split; [apply (calculateHealthScore_eq _ _ _ _ _ Hf Hl)|exact HP].
Qed.

Lemma maintainer_of_health now md gh :
  exists hs, calculateHealthScore now md gh = Normal hs /\
             HealthScore.maintainerHealth hs = calculateMaintainerScore md gh.
Proof.
  destruct (calculateFreshnessScore_returns now md gh) as [f Hf].
  destruct (calculateLicenseScore_returns md) as [l Hl].
  eexists. split; [apply (calculateHealthScore_eq _ _ _ _ _ Hf Hl)|reflexivity].
Qed.

(** ** Freshness *)

Lemma reference_resolution md gh :
  orObject (nullish (optionalChain gh GitHubRepoHealth.lastCommitDate))
           (PackageMetadata.lastPublished md)
  = Spec.referenceTimestamp md gh.
Proof.
  destruct gh as [h|]; simpl; [|reflexivity].
  destruct (GitHubRepoHealth.lastCommitDate h); reflexivity.
Qed.

Lemma archived_flag gh :
  truthyBoolean (optionalChain gh GitHubRepoHealth.isArchived) = Spec.archived gh.
Proof.
  destruct gh as [h|]; simpl; [|reflexivity].
  destruct (GitHubRepoHealth.isArchived h); reflexivity.
Qed.

Lemma calculateFreshnessScore_unresolved now md gh :
  Spec.referenceTimestamp md gh = None ->
  calculateFreshnessScore now md gh =
  Normal {| FreshnessScore.score := 50;
            FreshnessScore.lastUpdate := None;
            FreshnessScore.daysSinceUpdate := None;
            FreshnessScore.status := FreshnessScore.unknown |}.
Proof.
  intros H. unfold calculateFreshnessScore.
  rewrite reference_resolution, H. reflexivity.
Qed.

Lemma calculateFreshnessScore_resolved now md gh d :
  Spec.referenceTimestamp md gh = Some d ->
  let days := floorDiv (sub (Int now) (getTime d)) msPerDay in
  calculateFreshnessScore now md gh =
  Normal {| FreshnessScore.score :=
              if Spec.archived gh then Z.min (fst (freshnessThresholds days)) 10
              else fst (freshnessThresholds days);
            FreshnessScore.lastUpdate := Some d;
            FreshnessScore.daysSinceUpdate := Some days;
            FreshnessScore.status :=
              if Spec.archived gh then FreshnessScore.abandoned
              else snd (freshnessThresholds days) |}.
Proof.
  intros H days. unfold calculateFreshnessScore.
  rewrite reference_resolution, H, archived_flag.
  cbn [truthyObject negb Js.bind dereference]. fold msPerDay. fold days.
  destruct (freshnessThresholds days) as [s st].
  destruct (Spec.archived gh); reflexivity.
Qed.

Lemma freshnessThresholds_row (z : Z) :
  Spec.thresholdRow z (fst (freshnessThresholds (Int z)))
                      (snd (freshnessThresholds (Int z))).
Proof.
  unfold Spec.thresholdRow, freshnessThresholds, lt.
  destruct (Z.ltb_spec z 180); [simpl; repeat split; intros; lia|].
  destruct (Z.ltb_spec z 365); [simpl; repeat split; intros; lia|].
  destruct (Z.ltb_spec z 730); [simpl; repeat split; intros; lia|].
  destruct (Z.ltb_spec z 1095); simpl; repeat split; intros; lia.
Qed.

Lemma freshnessThresholds_values (days : number) :
  In (fst (freshnessThresholds days)) [100; 75; 40; 20; 5].
Proof.
  unfold freshnessThresholds.
  destruct (lt days 180); [simpl; tauto|].
  destruct (lt days 365); [simpl; tauto|].
  destruct (lt days 730); [simpl; tauto|].
  destruct (lt days 1095); simpl; tauto.
Qed.

Lemma calculateFreshnessScore_values now md gh :
  exists r, calculateFreshnessScore now md gh = Normal r /\
            In (FreshnessScore.score r) [100; 75; 40; 20; 5; 50; 10].
Proof.
  destruct (Spec.referenceTimestamp md gh) as [d|] eqn:E.
  - eexists. split; [apply (calculateFreshnessScore_resolved _ _ _ _ E)|].
    cbn [FreshnessScore.score].
    pose proof (freshnessThresholds_values
                  (floorDiv (sub (Int now) (getTime d)) msPerDay)) as H.
    destruct (Spec.archived gh); simpl in H |- *;
      intuition (match goal with Hx : _ = fst _ |- _ => rewrite <- Hx end; simpl; tauto).
  - eexists. split; [apply (calculateFreshnessScore_unresolved _ _ _ E)|]. simpl. tauto.
Qed.

Example freshness_boundaries :
  map Sample.freshnessAfter [179; 180; 364; 365; 729; 730; 1094; 1095] =
  [ Some (100, FreshnessScore.active); Some (75, FreshnessScore.active);
    Some (75, FreshnessScore.active);  Some (40, FreshnessScore.stale);
    Some (40, FreshnessScore.stale);   Some (20, FreshnessScore.abandoned);
    Some (20, FreshnessScore.abandoned); Some (5, FreshnessScore.abandoned) ].
Proof. vm_compute. reflexivity. Qed.

Example whole_days_in_doubles :
  forallb (fun last =>
             match Sample.daysInDoubles Sample.today last,
                   Sample.daysInModel Sample.today last with
             | Int a, Int b => a =? b
             | _, _ => false
             end)
          (flat_map Sample.around [0; 1; 179; 180; 364; 365; 729; 730; 1094; 1095; 19675])
  = true.
Proof. vm_compute. reflexivity. Qed.

(** A date that does not parse has [NaN] for time value: every comparison of
    the chain fails and the last band applies. *)
Example freshness_invalid_date :
  calculateFreshnessScore (Sample.day 10) (Sample.metadata (Some InvalidDate) 1 None) None
  = Normal {| FreshnessScore.score := 5;
              FreshnessScore.lastUpdate := Some InvalidDate;
              FreshnessScore.daysSinceUpdate := Some NaN;
              FreshnessScore.status := FreshnessScore.abandoned |}.
Proof. reflexivity. Qed.

(** C2. The freshness sub-score takes as reference timestamp the last commit
    date of the repository if present, else the last publication date. With
    no timestamp it is 50 / unknown. With one, the days elapsed are the floor
    of the whole days between the timestamp and now, and they map to
    100 / active below 180, 75 / active below 365, 40 / stale below 730,
    20 / abandoned below 1095 and 5 / abandoned from 1095 on; that is the
    sub-score returned, unless the repository is archived, where the override
    of C5 applies to it. *)
Theorem freshness_reference_and_thresholds now md gh :
  exists hs, calculateHealthScore now md gh = Normal hs /\
    let r := HealthScore.freshness hs in
    FreshnessScore.lastUpdate r = Spec.referenceTimestamp md gh /\
    (Spec.referenceTimestamp md gh = None ->
       FreshnessScore.score r = 50 /\
       FreshnessScore.status r = FreshnessScore.unknown /\
       FreshnessScore.daysSinceUpdate r = None) /\
    (forall t, Spec.referenceTimestamp md gh = Some (ValidDate t) ->
       let days := (now - t) / msPerDay in
       FreshnessScore.daysSinceUpdate r = Some (Int days) /\
       exists score status,
         Spec.thresholdRow days score status /\
         (Spec.archived gh = false ->
            FreshnessScore.score r = score /\ FreshnessScore.status r = status) /\
         (Spec.archived gh = true ->
            FreshnessScore.score r = Z.min score 10 /\
            FreshnessScore.status r = FreshnessScore.abandoned)).
Proof.
  apply (freshness_of_health
           (fun r =>
              FreshnessScore.lastUpdate r = Spec.referenceTimestamp md gh /\
              (Spec.referenceTimestamp md gh = None ->
                 FreshnessScore.score r = 50 /\
                 FreshnessScore.status r = FreshnessScore.unknown /\
                 FreshnessScore.daysSinceUpdate r = None) /\
              (forall t, Spec.referenceTimestamp md gh = Some (ValidDate t) ->
                 FreshnessScore.daysSinceUpdate r = Some (Int ((now - t) / msPerDay)) /\
                 exists score status,
                   Spec.thresholdRow ((now - t) / msPerDay) score status /\
                   (Spec.archived gh = false ->
                      FreshnessScore.score r = score /\ FreshnessScore.status r = status) /\
                   (Spec.archived gh = true ->
                      FreshnessScore.score r = Z.min score 10 /\
                      FreshnessScore.status r = FreshnessScore.abandoned)))).
  destruct (Spec.referenceTimestamp md gh) as [d|] eqn:E.
  - eexists. split; [apply (calculateFreshnessScore_resolved _ _ _ _ E)|].
    cbn [FreshnessScore.lastUpdate FreshnessScore.score FreshnessScore.status
         FreshnessScore.daysSinceUpdate].
    split; [reflexivity|]. split; [discriminate|].
    intros t Ht. injection Ht as ->. simpl getTime. cbn [sub floorDiv].
    split; [reflexivity|].
    exists (fst (freshnessThresholds (Int ((now - t) / msPerDay)))),
           (snd (freshnessThresholds (Int ((now - t) / msPerDay)))).
    split; [apply freshnessThresholds_row|].
    split; intros ->; split; reflexivity.
  - eexists. split; [apply (calculateFreshnessScore_unresolved _ _ _ E)|].
    cbn [FreshnessScore.lastUpdate FreshnessScore.score FreshnessScore.status
         FreshnessScore.daysSinceUpdate].
    split; [reflexivity|]. split; [intros _; repeat split|discriminate].
Qed.

Lemma freshness_reference_and_thresholds_witness :
  exists hs,
    calculateHealthScore (Sample.day 179)
      (Sample.metadata (Some (ValidDate 0)) 2 (Some "MIT")) None = Normal hs /\
    FreshnessScore.score (HealthScore.freshness hs) = 100 /\
    FreshnessScore.status (HealthScore.freshness hs) = FreshnessScore.active.
Proof.
  destruct (freshness_reference_and_thresholds (Sample.day 179)
              (Sample.metadata (Some (ValidDate 0)) 2 (Some "MIT")) None)
    as [hs [H [_ [_ Hv]]]].
  exists hs. split; [exact H|].
  destruct (Hv 0 eq_refl) as [_ [score [status [Hrow [Hreturned _]]]]].
  destruct (Hreturned eq_refl) as [-> ->].
  destruct Hrow as [Hband _].
  apply Hband. vm_compute. reflexivity.
Defined.

(** C5 fails where no timestamp resolves: an archived repository without a
    commit date, for a package without a publication date, gets 50 / unknown. *)
Lemma archived_override_counterexample :
  GitHubRepoHealth.isArchived (Sample.repo None 0 true) = true /\
  (exists hs,
     calculateHealthScore 0 Sample.bare (Some (Sample.repo None 0 true)) = Normal hs /\
     FreshnessScore.score (HealthScore.freshness hs) = 50 /\
     FreshnessScore.status (HealthScore.freshness hs) = FreshnessScore.unknown) /\
  ~ (exists hs,
       calculateHealthScore 0 Sample.bare (Some (Sample.repo None 0 true)) = Normal hs /\
       FreshnessScore.score (HealthScore.freshness hs) <= 10 /\
       FreshnessScore.status (HealthScore.freshness hs) = FreshnessScore.abandoned).
Proof.
  split; [reflexivity|]. split.
  - eexists. split; [vm_compute; reflexivity|]. split; reflexivity.
  - intros [hs [H [Hs _]]]. vm_compute in H. injection H as <-. simpl in Hs. lia.
Qed.

(** C5, amended. For every input whose repository is archived and for which
    a reference timestamp resolves, the freshness score is the minimum of 10
    and the score the thresholds give (the score of the same input with the
    archived flag cleared), hence at most 10, and the status is abandoned. *)
Theorem archived_override now md h :
  GitHubRepoHealth.isArchived h = true ->
  Spec.referenceTimestamp md (Some h) <> None ->
  exists hs hs0,
    calculateHealthScore now md (Some h) = Normal hs /\
    calculateHealthScore now md (Some (Spec.withArchived false h)) = Normal hs0 /\
    FreshnessScore.score (HealthScore.freshness hs)
      = Z.min (FreshnessScore.score (HealthScore.freshness hs0)) 10 /\
    FreshnessScore.score (HealthScore.freshness hs) <= 10 /\
    FreshnessScore.status (HealthScore.freshness hs) = FreshnessScore.abandoned.
Proof.
  intros Ha Hr.
  destruct (Spec.referenceTimestamp md (Some h)) as [d|] eqn:E; [clear Hr|congruence].
  assert (E0 : Spec.referenceTimestamp md (Some (Spec.withArchived false h)) = Some d)
    by exact E.
  pose proof (calculateFreshnessScore_resolved now _ _ _ E) as Hf.
  pose proof (calculateFreshnessScore_resolved now _ _ _ E0) as Hf0.
  cbv zeta in Hf, Hf0. simpl Spec.archived in Hf, Hf0. rewrite Ha in Hf.
  destruct (calculateLicenseScore_returns md) as [l Hl].
  eexists. eexists.
  split; [apply (calculateHealthScore_eq _ _ _ _ _ Hf Hl)|].
  split; [apply (calculateHealthScore_eq _ _ _ _ _ Hf0 Hl)|].
  cbn [HealthScore.freshness FreshnessScore.score FreshnessScore.status].
  split; [reflexivity|]. split; [lia|reflexivity].
Qed.

Lemma archived_override_witness :
  exists hs hs0,
    calculateHealthScore (Sample.day 30) Sample.bare
      (Some (Sample.repo (Some (ValidDate 0)) 7 true)) = Normal hs /\
    calculateHealthScore (Sample.day 30) Sample.bare
      (Some (Spec.withArchived false (Sample.repo (Some (ValidDate 0)) 7 true))) = Normal hs0 /\
    FreshnessScore.score (HealthScore.freshness hs)
      = Z.min (FreshnessScore.score (HealthScore.freshness hs0)) 10 /\
    FreshnessScore.score (HealthScore.freshness hs) <= 10 /\
    FreshnessScore.status (HealthScore.freshness hs) = FreshnessScore.abandoned.
Proof.
  apply (archived_override (Sample.day 30) Sample.bare
           (Sample.repo (Some (ValidDate 0)) 7 true)).
  - reflexivity.
  - simpl. discriminate.
Defined.

(** C10. When the repository is archived but neither a commit date nor a
    publication date is known, the freshness sub-score is 50 / unknown: the
    archived override is not applied. *)
Theorem archived_without_timestamp now md h :
  GitHubRepoHealth.isArchived h = true ->
  GitHubRepoHealth.lastCommitDate h = None ->
  PackageMetadata.lastPublished md = None ->
  exists hs,
    calculateHealthScore now md (Some h) = Normal hs /\
    FreshnessScore.score (HealthScore.freshness hs) = 50 /\
    FreshnessScore.status (HealthScore.freshness hs) = FreshnessScore.unknown.
Proof.
  intros _ Hc Hp.
  apply (freshness_of_health
           (fun r => FreshnessScore.score r = 50 /\
                     FreshnessScore.status r = FreshnessScore.unknown)).
  eexists. split.
  - apply calculateFreshnessScore_unresolved. simpl. rewrite Hc. exact Hp.
  - split; reflexivity.
Qed.

Lemma archived_without_timestamp_witness :
  exists hs,
    calculateHealthScore 0 Sample.bare (Some (Sample.repo None 3 true)) = Normal hs /\
    FreshnessScore.score (HealthScore.freshness hs) = 50 /\
    FreshnessScore.status (HealthScore.freshness hs) = FreshnessScore.unknown.
Proof.
  apply (archived_without_timestamp 0 Sample.bare (Sample.repo None 3 true));
    reflexivity.
Defined.

(** ** Maintainers *)

Lemma calculateMaintainerScore_values md gh :
  In (MaintainerScore.score (calculateMaintainerScore md gh)) [100; 85; 70; 40; 10].
Proof.
  unfold calculateMaintainerScore.
  destruct (5 <=? _); [simpl; tauto|].
  destruct (3 <=? _); [simpl; tauto|].
  destruct (_ =? 2); [simpl; tauto|].
  destruct (_ =? 1); simpl; tauto.
Qed.

Lemma calculateMaintainerScore_count md gh :
  MaintainerScore.count (calculateMaintainerScore md gh) =
  orNumber (optionalChain gh GitHubRepoHealth.contributorCount)
           (Z.of_nat (List.length (PackageMetadata.maintainers md))).
Proof.
  unfold calculateMaintainerScore.
  destruct (if 5 <=? _ then _ else _). reflexivity.
Qed.

Lemma calculateMaintainerScore_bands md gh :
  let r := calculateMaintainerScore md gh in
  let count := MaintainerScore.count r in
  (5 <= count ->
     MaintainerScore.score r = 100 /\ MaintainerScore.status r = MaintainerScore.healthy) /\
  (3 <= count < 5 ->
     MaintainerScore.score r = 85 /\ MaintainerScore.status r = MaintainerScore.healthy) /\
  (count = 2 ->
     MaintainerScore.score r = 70 /\ MaintainerScore.status r = MaintainerScore.warning) /\
  (count = 1 ->
     MaintainerScore.score r = 40 /\ MaintainerScore.status r = MaintainerScore.warning) /\
  (count = 0 ->
     MaintainerScore.score r = 10 /\ MaintainerScore.status r = MaintainerScore.critical).
Proof.
  cbv zeta. rewrite calculateMaintainerScore_count.
  unfold calculateMaintainerScore.
  set (count := orNumber _ _).
  destruct (Z.leb_spec 5 count); [simpl; repeat split; intros; lia|].
  destruct (Z.leb_spec 3 count); [simpl; repeat split; intros; lia|].
  destruct (Z.eqb_spec count 2); [simpl; repeat split; intros; lia|].
  destruct (Z.eqb_spec count 1); simpl; repeat split; intros; lia.
Qed.

(** C4. The maintainer sub-score counts the contributors of the repository
    when its health was fetched and their number is not zero, else the
    maintainers of the registry metadata; 5 or more give 100 / healthy, 3 or 4
    give 85 / healthy, 2 gives 70 / warning, 1 gives 40 / warning and 0 gives
    10 / critical; the [count] field is the count that was resolved. *)
Theorem maintainer_count_and_score now md gh :
  exists hs, calculateHealthScore now md gh = Normal hs /\
    let r := HealthScore.maintainerHealth hs in
    let count := MaintainerScore.count r in
    (forall h, gh = Some h -> GitHubRepoHealth.contributorCount h <> 0 ->
       count = GitHubRepoHealth.contributorCount h) /\
    (gh = None \/ (exists h, gh = Some h /\ GitHubRepoHealth.contributorCount h = 0) ->
       count = Z.of_nat (List.length (PackageMetadata.maintainers md))) /\
    (5 <= count ->
       MaintainerScore.score r = 100 /\ MaintainerScore.status r = MaintainerScore.healthy) /\
    (3 <= count < 5 ->
       MaintainerScore.score r = 85 /\ MaintainerScore.status r = MaintainerScore.healthy) /\
    (count = 2 ->
       MaintainerScore.score r = 70 /\ MaintainerScore.status r = MaintainerScore.warning) /\
    (count = 1 ->
       MaintainerScore.score r = 40 /\ MaintainerScore.status r = MaintainerScore.warning) /\
    (count = 0 ->
       MaintainerScore.score r = 10 /\ MaintainerScore.status r = MaintainerScore.critical).
Proof.
  destruct (maintainer_of_health now md gh) as [hs [H Hm]].
  exists hs. split; [exact H|]. cbv zeta. rewrite Hm.
  split; [|split; [|apply calculateMaintainerScore_bands]].
  - intros h -> Hc. rewrite calculateMaintainerScore_count. simpl.
    destruct (Z.eqb_spec (GitHubRepoHealth.contributorCount h) 0); [contradiction|reflexivity].
  - intros [->|[h [-> Hc]]]; rewrite calculateMaintainerScore_count; simpl.
    + reflexivity.
    + rewrite Hc. reflexivity.
Qed.

Example maintainer_counts :
  map (fun contributors =>
         let r := calculateMaintainerScore Sample.bare (Some (Sample.repo None contributors false)) in
         (MaintainerScore.score r, MaintainerScore.status r))
      [0; 1; 2; 3; 4; 5; 10] =
  [ (10, MaintainerScore.critical); (40, MaintainerScore.warning);
    (70, MaintainerScore.warning);  (85, MaintainerScore.healthy);
    (85, MaintainerScore.healthy);  (100, MaintainerScore.healthy);
    (100, MaintainerScore.healthy) ].
Proof. reflexivity. Qed.

(** ** Risk classification *)

(** C7. [getRiskLevel] maps an absent score to unknown, a score of 80 or more
    to healthy, a score from 50 to 79 to warning and a score below 50 to
    critical; so 80 is healthy, 79 and 50 are warning and 49 is critical. *)
Theorem risk_level_boundaries :
  getRiskLevel None = RiskLevel.unknown /\
  (forall s, 80 <= s -> getRiskLevel (Some (Int s)) = RiskLevel.healthy) /\
  (forall s, 50 <= s < 80 -> getRiskLevel (Some (Int s)) = RiskLevel.warning) /\
  (forall s, s < 50 -> getRiskLevel (Some (Int s)) = RiskLevel.critical) /\
  getRiskLevel (Some (Int 80)) = RiskLevel.healthy /\
  getRiskLevel (Some (Int 79)) = RiskLevel.warning /\
  getRiskLevel (Some (Int 50)) = RiskLevel.warning /\
  getRiskLevel (Some (Int 49)) = RiskLevel.critical.
Proof.
  split; [reflexivity|].
  repeat split; try reflexivity; intros s Hs; unfold getRiskLevel, ge.
  - destruct (Z.leb_spec 80 s); [reflexivity|lia].
  - destruct (Z.leb_spec 80 s); [lia|]. destruct (Z.leb_spec 50 s); [reflexivity|lia].
  - destruct (Z.leb_spec 80 s); [lia|]. destruct (Z.leb_spec 50 s); [lia|reflexivity].
Qed.

(** ** License *)




Lemma calculateLicenseScore_absent md :
  PackageMetadata.license md = None \/ PackageMetadata.license md = Some EmptyString ->
  calculateLicenseScore md =
  Normal {| LicenseScore.score := 30;
            LicenseScore.license := None;
            LicenseScore.status := LicenseScore.unknown |}.
Proof.
  intros [H|H]; unfold calculateLicenseScore; rewrite H; reflexivity.
Qed.

Lemma calculateLicenseScore_present md text :
  PackageMetadata.license md = Some text -> text <> EmptyString ->
  calculateLicenseScore md =
  Normal
    (if includesSomeOf (normalizeLicense text) DEPRECATED_LICENSES then
       {| LicenseScore.score := 50;
          LicenseScore.license := Some text;
          LicenseScore.status := LicenseScore.deprecated |}
     else if includesSomeOf (normalizeLicense text) OSI_APPROVED_LICENSES then
       {| LicenseScore.score := 100;
          LicenseScore.license := Some text;
          LicenseScore.status := LicenseScore.approved |}
     else
       {| LicenseScore.score := 60;
          LicenseScore.license := Some text;
          LicenseScore.status := LicenseScore.warning |}).
Proof.
  intros H Hne. unfold calculateLicenseScore. rewrite H.
  destruct text as [|c text]; [congruence|].
  cbn [truthyString negb Js.bind dereference].
  destruct (includesSomeOf _ DEPRECATED_LICENSES); [reflexivity|].
  destruct (includesSomeOf _ OSI_APPROVED_LICENSES); reflexivity.
Qed.

Lemma calculateLicenseScore_values md :
  exists r, calculateLicenseScore md = Normal r /\
            In (LicenseScore.score r) [30; 50; 100; 60].
Proof.
  destruct (PackageMetadata.license md) as [[|c text]|] eqn:E.
  - eexists. split; [apply calculateLicenseScore_absent; now right|simpl; tauto].
  - eexists. split; [apply (calculateLicenseScore_present _ _ E); discriminate|].
    destruct (includesSomeOf _ DEPRECATED_LICENSES); [simpl; tauto|].
    destruct (includesSomeOf _ OSI_APPROVED_LICENSES); simpl; tauto.
  - eexists. split; [apply calculateLicenseScore_absent; now left|simpl; tauto].
Qed.

Example license_examples :
  map Sample.licenseOf
      [ Some "MIT"; Some "GPL-2.0"; None; Some "Some-Custom-License";
        Some "MIT OR GPL-2.0"; Some "gpl  2.0 or later"; Some "Apache 2.0" ] =
  [ Some (100, LicenseScore.approved); Some (50, LicenseScore.deprecated);
    Some (30, LicenseScore.unknown);   Some (60, LicenseScore.warning);
    Some (50, LicenseScore.deprecated); Some (50, LicenseScore.deprecated);
    Some (100, LicenseScore.approved) ].
Proof. vm_compute. reflexivity. Qed.






(** ** Overall score *)

Ltac each_member H :=
  repeat (destruct H as [<-|H]); [..|destruct H].

(** On the scores the three sub-scorers can give, the sum of the three double
    products is the exact weighted sum, and [Math.round] of it is the exact
    round-half-up. *)
Lemma round_weighted_exact (f m l : Z) :
  In f [100; 75; 40; 20; 5; 50; 10] ->
  In m [100; 85; 70; 40; 10] ->
  In l [30; 50; 100; 60] ->
  Math_round (weightedSum f m l) = Int (Spec.roundHalfUp (Spec.weighted f m l)).
Proof.
  intros Hf Hm Hl.
  each_member Hf; each_member Hm; each_member Hl; vm_compute; reflexivity.
Qed.

(** The exact round-half-up of the weighted sum, as an integer quotient. *)
Lemma roundHalfUp_weighted (f m l : Z) :
  Spec.roundHalfUp (Spec.weighted f m l) = (4 * f + 3 * m + 3 * l + 5) / 10.
Proof.
  unfold Spec.roundHalfUp, Spec.weighted, Qfloor, Qplus, Qmult, inject_Z.
  cbn [Qnum Qden].
  change (Z.pos (100 * 1 * (100 * 1) * (100 * 1) * 2)) with (10 * 200000).
  change (Z.pos (100 * 1)) with 100.
  change (Z.pos (100 * 1 * (100 * 1))) with 10000.
  change (Z.pos (100 * 1 * (100 * 1) * (100 * 1))) with 1000000.
  replace (((40 * f * 100 + 30 * m * 100) * 100 + 30 * l * 10000) * 2 + 1 * 1000000)
    with ((4 * f + 3 * m + 3 * l + 5) * 200000) by ring.
  rewrite Z.div_mul_cancel_r; lia.
Qed.

Lemma roundHalfUp_bounds (f m l : Z) :
  0 <= f <= 100 -> 0 <= m <= 100 -> 0 <= l <= 100 ->
  0 <= Spec.roundHalfUp (Spec.weighted f m l) <= 100.
Proof.
  intros Hf Hm Hl. rewrite roundHalfUp_weighted. split.
  - apply Z.div_pos; lia.
  - apply Z.lt_succ_r. apply Z.div_lt_upper_bound; lia.
Qed.

(** The health score, with the set each sub-score belongs to. *)
Lemma calculateHealthScore_values now md gh :
  exists hs, calculateHealthScore now md gh = Normal hs /\
    HealthScore.overall hs =
      Math_round (weightedSum (FreshnessScore.score (HealthScore.freshness hs))
                    (MaintainerScore.score (HealthScore.maintainerHealth hs))
                    (LicenseScore.score (HealthScore.licenseHealth hs))) /\
    In (FreshnessScore.score (HealthScore.freshness hs)) [100; 75; 40; 20; 5; 50; 10] /\
    In (MaintainerScore.score (HealthScore.maintainerHealth hs)) [100; 85; 70; 40; 10] /\
    In (LicenseScore.score (HealthScore.licenseHealth hs)) [30; 50; 100; 60].
Proof.
  destruct (calculateFreshnessScore_values now md gh) as [f [Hf Vf]].
  destruct (calculateLicenseScore_values md) as [l [Hl Vl]].
  eexists. split; [apply (calculateHealthScore_eq _ _ _ _ _ Hf Hl)|].
  cbn [HealthScore.overall HealthScore.freshness HealthScore.maintainerHealth
       HealthScore.licenseHealth].
  repeat split; try assumption. apply calculateMaintainerScore_values.
Qed.

Example overall_91 :
  exists hs,
    calculateHealthScore (Sample.day 10)
      (Sample.metadata (Some (ValidDate 0)) 2 (Some "MIT")) None = Normal hs /\
    FreshnessScore.score (HealthScore.freshness hs) = 100 /\
    MaintainerScore.score (HealthScore.maintainerHealth hs) = 70 /\
    LicenseScore.score (HealthScore.licenseHealth hs) = 100 /\
    HealthScore.overall hs = Int 91.
Proof. eexists. split; [vm_compute; reflexivity|]. repeat split. Qed.

(** C1. The overall score is the round-half-up, in exact arithmetic, of
    0.40·freshness + 0.30·maintainer + 0.30·license; with the sub-scores 100,
    70 and 100 it is 91. *)
Theorem overall_is_rounded_weighted_sum now md gh :
  exists hs, calculateHealthScore now md gh = Normal hs /\
    let f := FreshnessScore.score (HealthScore.freshness hs) in
    let m := MaintainerScore.score (HealthScore.maintainerHealth hs) in
    let l := LicenseScore.score (HealthScore.licenseHealth hs) in
    HealthScore.overall hs = Int (Spec.roundHalfUp (Spec.weighted f m l)) /\
    (f = 100 -> m = 70 -> l = 100 -> HealthScore.overall hs = Int 91).
Proof.
  destruct (calculateHealthScore_values now md gh) as [hs [H [Ho [Vf [Vm Vl]]]]].
  exists hs. split; [exact H|]. cbv zeta.
  rewrite Ho, (round_weighted_exact _ _ _ Vf Vm Vl).
  split; [reflexivity|].
  intros -> -> ->. vm_compute. reflexivity.
Qed.

Lemma overall_is_rounded_weighted_sum_witness :
  exists hs,
    calculateHealthScore (Sample.day 10)
      (Sample.metadata (Some (ValidDate 0)) 2 (Some "MIT")) None = Normal hs /\
    HealthScore.overall hs = Int 91.
Proof.
  destruct (overall_is_rounded_weighted_sum (Sample.day 10)
              (Sample.metadata (Some (ValidDate 0)) 2 (Some "MIT")) None)
    as [hs [H [_ H91]]].
  exists hs. split; [exact H|].
  vm_compute in H. injection H as <-. apply H91; reflexivity.
Defined.

(** ** Ranges and totality *)

Ltac in_range H := simpl in H; intuition lia.

(** C6. For every metadata, repository health and current time, the overall
    score and the three sub-scores lie between 0 and 100. *)
Theorem scores_in_range now md gh :
  exists hs overall, calculateHealthScore now md gh = Normal hs /\
    HealthScore.overall hs = Int overall /\
    0 <= overall <= 100 /\
    0 <= FreshnessScore.score (HealthScore.freshness hs) <= 100 /\
    0 <= MaintainerScore.score (HealthScore.maintainerHealth hs) <= 100 /\
    0 <= LicenseScore.score (HealthScore.licenseHealth hs) <= 100.
Proof.
  destruct (calculateHealthScore_values now md gh) as [hs [H [Ho [Vf [Vm Vl]]]]].
  exists hs. eexists. split; [exact H|].
  split; [rewrite Ho; apply (round_weighted_exact _ _ _ Vf Vm Vl)|].
  assert (Rf : 0 <= FreshnessScore.score (HealthScore.freshness hs) <= 100) by in_range Vf.
  assert (Rm : 0 <= MaintainerScore.score (HealthScore.maintainerHealth hs) <= 100)
    by in_range Vm.
  assert (Rl : 0 <= LicenseScore.score (HealthScore.licenseHealth hs) <= 100) by in_range Vl.
  split; [apply roundHalfUp_bounds; assumption|]. auto.
Qed.

Lemma freshness_nullable_fields now md gh :
  exists r, calculateFreshnessScore now md gh = Normal r /\
    (FreshnessScore.lastUpdate r = None <-> FreshnessScore.status r = FreshnessScore.unknown) /\
    (FreshnessScore.lastUpdate r = None <-> FreshnessScore.daysSinceUpdate r = None).
Proof.
  destruct (Spec.referenceTimestamp md gh) as [d|] eqn:E.
  - eexists. split; [apply (calculateFreshnessScore_resolved _ _ _ _ E)|].
    cbn [FreshnessScore.lastUpdate FreshnessScore.status FreshnessScore.daysSinceUpdate].
    split; [|split; discriminate].
    split; [discriminate|].
    destruct (Spec.archived gh); [discriminate|].
    unfold freshnessThresholds.
    destruct (lt _ 180); [discriminate|]. destruct (lt _ 365); [discriminate|].
    destruct (lt _ 730); [discriminate|]. destruct (lt _ 1095); discriminate.
  - eexists. split; [apply (calculateFreshnessScore_unresolved _ _ _ E)|].
    simpl. repeat split.
Qed.

Lemma license_nullable_field md :
  exists r, calculateLicenseScore md = Normal r /\
    (LicenseScore.license r = None <-> LicenseScore.status r = LicenseScore.unknown).
Proof.
  destruct (PackageMetadata.license md) as [[|c text]|] eqn:E.
  - eexists. split; [apply calculateLicenseScore_absent; now right|simpl; tauto].
  - eexists. split; [apply (calculateLicenseScore_present _ _ E); discriminate|].
    destruct (includesSomeOf _ DEPRECATED_LICENSES); [simpl; split; discriminate|].
    destruct (includesSomeOf _ OSI_APPROVED_LICENSES); simpl; split; discriminate.
  - eexists. split; [apply calculateLicenseScore_absent; now left|simpl; tauto].
Qed.

Ltac same_result H1 H2 := rewrite H1 in H2; injection H2 as <-.

(** C8. The scorer is total: for every metadata, repository health and
    current time it returns, without throwing, a health score that meets the
    invariants of the data model. Missing data lowers no score to zero: every
    sub-score and the overall score are positive, and metadata whose nullable
    fields are all [null], without maintainers and without repository health,
    scores 50 / unknown, 10 / critical and 30 / unknown, 32 overall. *)
Theorem scorer_is_total now md gh :
  exists hs, calculateHealthScore now md gh = Normal hs /\
    Spec.wellFormed hs /\
    0 < FreshnessScore.score (HealthScore.freshness hs) /\
    0 < MaintainerScore.score (HealthScore.maintainerHealth hs) /\
    0 < LicenseScore.score (HealthScore.licenseHealth hs) /\
    (exists overall, HealthScore.overall hs = Int overall /\ 0 < overall) /\
    (PackageMetadata.lastPublished md = None ->
     PackageMetadata.maintainers md = [] ->
     PackageMetadata.license md = None ->
     gh = None ->
     hs = {| HealthScore.overall := Int 32;
             HealthScore.freshness :=
               {| FreshnessScore.score := 50;
                  FreshnessScore.lastUpdate := None;
                  FreshnessScore.daysSinceUpdate := None;
                  FreshnessScore.status := FreshnessScore.unknown |};
             HealthScore.maintainerHealth :=
               {| MaintainerScore.score := 10;
                  MaintainerScore.count := 0;
                  MaintainerScore.status := MaintainerScore.critical |};
             HealthScore.licenseHealth :=
               {| LicenseScore.score := 30;
                  LicenseScore.license := None;
                  LicenseScore.status := LicenseScore.unknown |} |}).
Proof.
  destruct (calculateFreshnessScore_values now md gh) as [f [Hf Vf]].
  destruct (calculateLicenseScore_values md) as [l [Hl Vl]].
  pose proof (calculateMaintainerScore_values md gh) as Vm.
  destruct (freshness_nullable_fields now md gh) as [f' [Hf' [Nf1 Nf2]]].
  same_result Hf Hf'.
  destruct (license_nullable_field md) as [l' [Hl' Nl]].
  same_result Hl Hl'.
  eexists. split; [apply (calculateHealthScore_eq _ _ _ _ _ Hf Hl)|].
  assert (Rf : 5 <= FreshnessScore.score f <= 100) by in_range Vf.
  assert (Rm : 10 <= MaintainerScore.score (calculateMaintainerScore md gh) <= 100)
    by in_range Vm.
  assert (Rl : 30 <= LicenseScore.score l <= 100) by in_range Vl.
  pose proof (round_weighted_exact _ _ _ Vf Vm Vl) as Ho.
  pose proof (roundHalfUp_weighted (FreshnessScore.score f)
                (MaintainerScore.score (calculateMaintainerScore md gh))
                (LicenseScore.score l)) as Hq.
  unfold Spec.wellFormed.
  cbn [HealthScore.overall HealthScore.freshness HealthScore.maintainerHealth
       HealthScore.licenseHealth].
  repeat match goal with |- _ /\ _ => split end; try assumption; try lia.
  - eexists. split; [exact Ho|]. split; [|reflexivity].
    apply roundHalfUp_bounds; lia.
  - eexists. split; [exact Ho|]. rewrite Hq.
    apply Z.div_str_pos. lia.
  - intros Hp Hm Hn ->.
    assert (E : Spec.referenceTimestamp md None = None) by exact Hp.
    rewrite (calculateFreshnessScore_unresolved _ _ _ E) in Hf. injection Hf as <-.
    rewrite (calculateLicenseScore_absent md (or_introl Hn)) in Hl. injection Hl as <-.
    unfold calculateMaintainerScore. rewrite Hm. vm_compute. reflexivity.
Qed.

Lemma scorer_is_total_witness :
  exists hs, calculateHealthScore 0 Sample.bare None = Normal hs /\
             HealthScore.overall hs = Int 32.
Proof.
  destruct (scorer_is_total 0 Sample.bare None) as [hs [H [_ [_ [_ [_ [_ Hb]]]]]]].
  exists hs. split; [exact H|].
  rewrite (Hb eq_refl eq_refl eq_refl eq_refl). reflexivity.
Defined.

(** ** The scan summary *)

Section Summary.

Import Cli.

Variable fetchNpmMetadata : string -> Completion PackageMetadata.t.
Variable fetchPyPIMetadata : string -> Completion PackageMetadata.t.
Variable fetchGitHubRepoHealth :
  string -> option string -> Completion (option GitHubRepoHealth.t).
Variable clock : nat -> Z.
Variable options : Options.t.


(** One more analysis adds one to the total and to each tally it belongs to. *)
Lemma summarize_cons a analyses :
  summarize (a :: analyses) =
  {| ScanSummary.total := S (ScanSummary.total (summarize analyses));
     ScanSummary.healthy :=
       Nat.b2n (hasRisk RiskLevel.healthy a) + ScanSummary.healthy (summarize analyses);
     ScanSummary.warning :=
       Nat.b2n (hasRisk RiskLevel.warning a) + ScanSummary.warning (summarize analyses);
     ScanSummary.critical :=
       Nat.b2n (hasRisk RiskLevel.critical a) + ScanSummary.critical (summarize analyses);
     ScanSummary.failed :=
       Nat.b2n (hasError a) + ScanSummary.failed (summarize analyses) |}.
Proof.
  unfold summarize. cbn [filter List.length].
  destruct (hasRisk RiskLevel.healthy a), (hasRisk RiskLevel.warning a),
    (hasRisk RiskLevel.critical a), (hasError a); reflexivity.
Qed.

Lemma summarize_insert before a after :
  let s := summarize (before ++ a :: after) in
  let s' := summarize (before ++ after) in
  ScanSummary.total s = S (ScanSummary.total s') /\
  ScanSummary.healthy s = (Nat.b2n (hasRisk RiskLevel.healthy a) + ScanSummary.healthy s')%nat /\
  ScanSummary.warning s = (Nat.b2n (hasRisk RiskLevel.warning a) + ScanSummary.warning s')%nat /\
  ScanSummary.critical s = (Nat.b2n (hasRisk RiskLevel.critical a) + ScanSummary.critical s')%nat /\
  ScanSummary.failed s = (Nat.b2n (hasError a) + ScanSummary.failed s')%nat.
Proof.
  cbv zeta. induction before as [|b before IH].
  - cbn [app]. rewrite summarize_cons. repeat split.
  - cbn [app]. rewrite !(summarize_cons b).
    cbn [ScanSummary.total ScanSummary.healthy ScanSummary.warning
         ScanSummary.critical ScanSummary.failed].
    destruct IH as [-> [-> [-> [-> ->]]]]. repeat split; lia.
Qed.

(** A score that is present has exactly one of the three risk levels. *)
Lemma one_risk_level (score : number) :
  (Nat.b2n (RiskLevel.eqb (getRiskLevel (Some score)) RiskLevel.healthy)
   + Nat.b2n (RiskLevel.eqb (getRiskLevel (Some score)) RiskLevel.warning)
   + Nat.b2n (RiskLevel.eqb (getRiskLevel (Some score)) RiskLevel.critical) = 1)%nat.
Proof.
  unfold getRiskLevel. destruct (ge score 80); [reflexivity|].
  destruct (ge score 50); reflexivity.
Qed.

(** What the loop body pushes: a metadata and a health without error, or an
    error without metadata nor health. *)
Lemma analyzeDependency_shape now dep :
  (exists md hs,
     analyzeDependency fetchNpmMetadata fetchPyPIMetadata fetchGitHubRepoHealth options now dep =
     {| DependencyAnalysis.dependency := dep;
        DependencyAnalysis.metadata := Some md;
        DependencyAnalysis.health := Some hs;
        DependencyAnalysis.error := None |}) \/
  (exists message,
     analyzeDependency fetchNpmMetadata fetchPyPIMetadata fetchGitHubRepoHealth options now dep =
     {| DependencyAnalysis.dependency := dep;
        DependencyAnalysis.metadata := None;
        DependencyAnalysis.health := None;
        DependencyAnalysis.error := Some message |}).
Proof.
  unfold analyzeDependency.
  destruct (fetchMetadata _ _ dep) as [md|m]; [|right; exists m; reflexivity].
  cbn [Js.bind].
  match goal with
  | |- context [Js.bind ?fetched _] => destruct fetched as [gh|m]
  end; [|right; exists m; reflexivity].
  cbn [Js.bind].
  destruct (calculateHealthScore_values now md gh) as [hs [H _]]. rewrite H.
  left. exists md, hs. reflexivity.
Qed.

Lemma analyzeDependency_fetch_throws now dep message :
  fetchMetadata fetchNpmMetadata fetchPyPIMetadata dep = Throw message ->
  analyzeDependency fetchNpmMetadata fetchPyPIMetadata fetchGitHubRepoHealth options now dep =
  {| DependencyAnalysis.dependency := dep;
     DependencyAnalysis.metadata := None;
     DependencyAnalysis.health := None;
     DependencyAnalysis.error := Some message |}.
Proof.
  unfold analyzeDependency. intros ->. reflexivity.
Qed.

Lemma analyzeFrom_partition i dependencies :
  let s := summarize
             (analyzeFrom fetchNpmMetadata fetchPyPIMetadata fetchGitHubRepoHealth
                clock options i dependencies) in
  ScanSummary.total s = List.length dependencies /\
  (ScanSummary.healthy s + ScanSummary.warning s + ScanSummary.critical s
   + ScanSummary.failed s = ScanSummary.total s)%nat.
Proof.
  cbv zeta. revert i. induction dependencies as [|dep rest IH]; intros i.
  - split; reflexivity.
  - cbn [analyzeFrom]. rewrite summarize_cons.
    destruct (IH (S i)) as [Ht Hp].
    cbn [ScanSummary.total ScanSummary.healthy ScanSummary.warning
         ScanSummary.critical ScanSummary.failed List.length].
    split; [now rewrite Ht|].
    destruct (analyzeDependency_shape (clock i) dep) as [[md [hs ->]]|[m ->]].
    + unfold hasRisk, hasError, overallOrNull. cbn [DependencyAnalysis.health
        DependencyAnalysis.error optionalChain Nat.b2n].
      pose proof (one_risk_level (HealthScore.overall hs)). lia.
    + unfold hasRisk, hasError, overallOrNull.
      cbn [DependencyAnalysis.health DependencyAnalysis.error optionalChain
           getRiskLevel RiskLevel.eqb Nat.b2n].
      lia.
Qed.

End Summary.

(** C9. In the summary of any list of analyses, [failed] counts exactly the
    analyses with a recorded error: an analysis with an error and no health
    adds one to [failed] and nothing to the healthy, warning and critical
    tallies, and an analysis without error adds nothing to [failed]. The
    healthy, warning and critical tallies count by the risk level of the
    overall score: each is the number of analyses with a health whose
    overall score [getRiskLevel] puts at that level, and an analysis with a
    health adds one to the tally of the level of its overall score (healthy
    from 80, warning from 50 to 79, critical below 50) and nothing to the
    two others.
    A dependency whose registry fetch throws is recorded with the error and
    without health, so it is counted in [failed] only; over a whole scan
    every dependency is counted in exactly one of the four tallies. *)
Theorem summary_counts_failures
    (fetchNpmMetadata fetchPyPIMetadata : string -> Completion PackageMetadata.t)
    (fetchGitHubRepoHealth : string -> option string -> Completion (option GitHubRepoHealth.t))
    (clock : nat -> Z) (options : Cli.Options.t) :
  (forall analyses,
     ScanSummary.failed (Cli.summarize analyses)
     = List.length (filter (fun a => match DependencyAnalysis.error a with
                                     | Some _ => true
                                     | None => false
                                     end) analyses)) /\
  (forall analyses,
     let counted level :=
       List.length
         (filter (fun a => match DependencyAnalysis.health a with
                           | Some hs =>
                               RiskLevel.eqb (getRiskLevel (Some (HealthScore.overall hs)))
                                 level
                           | None => false
                           end) analyses) in
     ScanSummary.healthy (Cli.summarize analyses) = counted RiskLevel.healthy /\
     ScanSummary.warning (Cli.summarize analyses) = counted RiskLevel.warning /\
     ScanSummary.critical (Cli.summarize analyses) = counted RiskLevel.critical) /\
  (forall before a after,
     let s := Cli.summarize (before ++ a :: after) in
     let s' := Cli.summarize (before ++ after) in
     (DependencyAnalysis.error a = None ->
        ScanSummary.failed s = ScanSummary.failed s') /\
     (DependencyAnalysis.error a <> None ->
        ScanSummary.failed s = S (ScanSummary.failed s')) /\
     (DependencyAnalysis.health a = None ->
        ScanSummary.healthy s = ScanSummary.healthy s' /\
        ScanSummary.warning s = ScanSummary.warning s' /\
        ScanSummary.critical s = ScanSummary.critical s')) /\
  (forall before a after hs,
     DependencyAnalysis.health a = Some hs ->
     let s := Cli.summarize (before ++ a :: after) in
     let s' := Cli.summarize (before ++ after) in
     let level := getRiskLevel (Some (HealthScore.overall hs)) in
     (level = RiskLevel.healthy ->
        ScanSummary.healthy s = S (ScanSummary.healthy s') /\
        ScanSummary.warning s = ScanSummary.warning s' /\
        ScanSummary.critical s = ScanSummary.critical s') /\
     (level = RiskLevel.warning ->
        ScanSummary.healthy s = ScanSummary.healthy s' /\
        ScanSummary.warning s = S (ScanSummary.warning s') /\
        ScanSummary.critical s = ScanSummary.critical s') /\
     (level = RiskLevel.critical ->
        ScanSummary.healthy s = ScanSummary.healthy s' /\
        ScanSummary.warning s = ScanSummary.warning s' /\
        ScanSummary.critical s = S (ScanSummary.critical s')) /\
     (forall score, HealthScore.overall hs = Int score ->
        (80 <= score -> level = RiskLevel.healthy) /\
        (50 <= score < 80 -> level = RiskLevel.warning) /\
        (score < 50 -> level = RiskLevel.critical))) /\
  (forall now dep message,
     Cli.fetchMetadata fetchNpmMetadata fetchPyPIMetadata dep = Throw message ->
     let a := Cli.analyzeDependency fetchNpmMetadata fetchPyPIMetadata
                fetchGitHubRepoHealth options now dep in
     DependencyAnalysis.health a = None /\
     DependencyAnalysis.error a = Some message) /\
  (forall dependencies,
     let s := Cli.summarize
                (Cli.analyzeAll fetchNpmMetadata fetchPyPIMetadata fetchGitHubRepoHealth
                   clock options dependencies) in
     ScanSummary.total s = List.length dependencies /\
     (ScanSummary.healthy s + ScanSummary.warning s + ScanSummary.critical s
      + ScanSummary.failed s = ScanSummary.total s)%nat).
Proof.
  split; [reflexivity|]. split; [|split; [|split; [|split]]].
  - intros analyses. cbv zeta. unfold Cli.summarize.
    cbn [ScanSummary.healthy ScanSummary.warning ScanSummary.critical].
    repeat split; f_equal; apply filter_ext; intros a;
      unfold Cli.hasRisk, Cli.overallOrNull;
      destruct (DependencyAnalysis.health a); reflexivity.
  - intros before a after. cbv zeta.
    destruct (summarize_insert before a after) as [_ [Hh [Hw [Hc Hf]]]].
    rewrite Hh, Hw, Hc, Hf. unfold Cli.hasRisk, Cli.hasError, Cli.overallOrNull.
    split; [|split].
    + intros ->. reflexivity.
    + destruct (DependencyAnalysis.error a); [reflexivity|congruence].
    + intros ->. repeat split.
  - intros before a after hs Hhs. cbv zeta.
    destruct (summarize_insert before a after) as [_ [Hh [Hw [Hc _]]]].
    rewrite Hh, Hw, Hc. unfold Cli.hasRisk, Cli.overallOrNull. rewrite Hhs.
    cbn [optionalChain].
    split; [|split; [|split]].
    + intros ->. repeat split.
    + intros ->. repeat split.
    + intros ->. repeat split.
    + intros score ->. unfold getRiskLevel, ge.
      destruct (Z.leb_spec 80 score); [repeat split; intros; (reflexivity || lia)|].
      destruct (Z.leb_spec 50 score); repeat split; intros; (reflexivity || lia).
  - intros now dep message H. cbv zeta.
    rewrite (analyzeDependency_fetch_throws _ _ fetchGitHubRepoHealth options now dep message H).
    split; reflexivity.
  - intros dependencies. apply analyzeFrom_partition.
Qed.

Lemma summary_counts_failures_witness :
  map Cli.overallOrNull
    (Cli.analyzeAll Sample.registryOfThree Sample.registryOfThree Sample.noRepository
       (fun _ => Sample.day 10) Sample.options Sample.scanned)
  = [ Some (Int 61); None; Some (Int 100); Some (Int 32) ] /\
  Cli.summarize
    (Cli.analyzeAll Sample.registryOfThree Sample.registryOfThree Sample.noRepository
       (fun _ => Sample.day 10) Sample.options Sample.scanned)
  = {| ScanSummary.total := 4;
       ScanSummary.healthy := 1;
       ScanSummary.warning := 1;
       ScanSummary.critical := 1;
       ScanSummary.failed := 1 |} /\
  ScanSummary.warning
    (Cli.summarize
       ([] ++ Cli.analyzeDependency Sample.registryOfThree Sample.registryOfThree
                Sample.noRepository Sample.options (Sample.day 10)
                (Sample.dependency "moment" npm)
           :: Cli.analyzeAll Sample.registryOfThree Sample.registryOfThree
                Sample.noRepository (fun _ => Sample.day 10) Sample.options
                (tl Sample.scanned)))
  = S (ScanSummary.warning
         (Cli.summarize
            ([] ++ Cli.analyzeAll Sample.registryOfThree Sample.registryOfThree
                     Sample.noRepository (fun _ => Sample.day 10) Sample.options
                     (tl Sample.scanned)))) /\
  DependencyAnalysis.health
    (Cli.analyzeDependency Sample.registryOfThree Sample.registryOfThree
       Sample.noRepository Sample.options (Sample.day 10) (Sample.dependency "ghost" npm))
  = None /\
  DependencyAnalysis.error
    (Cli.analyzeDependency Sample.registryOfThree Sample.registryOfThree
       Sample.noRepository Sample.options (Sample.day 10) (Sample.dependency "ghost" npm))
  = Some "Package not found: ghost".
Proof.
  destruct (summary_counts_failures Sample.registryOfThree Sample.registryOfThree
              Sample.noRepository (fun _ => Sample.day 10) Sample.options)
    as [_ [_ [_ [Hlevel [Hthrow _]]]]].
  split; [vm_compute; reflexivity|].
  split; [vm_compute; reflexivity|].
  split.
  - assert (Hmoment : exists hs,
              DependencyAnalysis.health
                (Cli.analyzeDependency Sample.registryOfThree Sample.registryOfThree
                   Sample.noRepository Sample.options (Sample.day 10)
                   (Sample.dependency "moment" npm)) = Some hs /\
              getRiskLevel (Some (HealthScore.overall hs)) = RiskLevel.warning)
      by (eexists; split; vm_compute; reflexivity).
    destruct Hmoment as [hs [Hhs Hwarning]].
    destruct (Hlevel [] _ (Cli.analyzeAll Sample.registryOfThree Sample.registryOfThree
                             Sample.noRepository (fun _ => Sample.day 10) Sample.options
                             (tl Sample.scanned)) hs Hhs) as [_ [Hw _]].
    exact (proj1 (proj2 (Hw Hwarning))).
  - apply (Hthrow (Sample.day 10) (Sample.dependency "ghost" npm)
             "Package not found: ghost").
    reflexivity.
Defined.

(** ** The label of the days since the last update *)

Example formatDaysSinceUpdate_samples :
  map formatDaysSinceUpdate
      [ None; Some (Int (-3)); Some (Int 0); Some (Int 1); Some (Int 29); Some (Int 30);
        Some (Int 59); Some (Int 60); Some (Int 364); Some (Int 365); Some (Int 729);
        Some (Int 730); Some (Int 4000); Some NaN ] =
  [ "Unknown"; "Today"; "Today"; "1 day ago"; "29 days ago"; "1 month ago";
    "1 month ago"; "2 months ago"; "12 months ago"; "1 year ago"; "1 year ago";
    "2 years ago"; "10 years ago"; "NaN years ago" ].
Proof. vm_compute. reflexivity. Qed.

(** The counts of months and years, computed in doubles as the source does,
    are the exact quotients, up to the largest number of days that doubles
    hold exactly. *)
Example label_counts_in_doubles :
  forallb (fun days =>
             match Math_floor (toDouble days / toDouble 30)%float,
                   Math_floor (toDouble days / toDouble 365)%float with
             | Int months, Int years => (months =? days / 30) && (years =? days / 365)
             | _, _ => false
             end)
          [ 60; 89; 90; 364; 729; 730; 1094; 1095; 19675; 30 * 2 ^ 48 - 1;
            365 * 2 ^ 44 - 1; 2 ^ 53 - 2; 2 ^ 53 - 1; 2 ^ 53 ]
  = true.
Proof. vm_compute. reflexivity. Qed.

(** X1. The label of an integer number of days, of magnitude at most 2^53
    (the scorer stores the floor of a number of days, an integer far below
    that, or [NaN]): "Today" below 1, "1 day ago" for 1, the number of days
    from 2 to 29, "1 month ago" from 30 to 59, the number of whole 30-day
    months, between 2 and 12, from 60 to 364, "1 year ago" from 365 to 729,
    and the number of whole 365-day years, at least 2, from 730 on. So on
    such a number of days a label in the plural always carries a count of at
    least two. *)
Theorem plural_labels_count_at_least_two (days : Z) :
  - 2 ^ 53 <= days <= 2 ^ 53 ->
  let label := formatDaysSinceUpdate (Some (Int days)) in
  (days < 1 -> label = "Today") /\
  (days = 1 -> label = "1 day ago") /\
  (2 <= days < 30 -> label = numberToString (Int days) ++ " days ago") /\
  (30 <= days < 60 -> label = "1 month ago") /\
  (60 <= days < 365 ->
     label = numberToString (Int (days / 30)) ++ " months ago" /\ 2 <= days / 30 <= 12) /\
  (365 <= days < 730 -> label = "1 year ago") /\
  (730 <= days ->
     label = numberToString (Int (days / 365)) ++ " years ago" /\ 2 <= days / 365).
Proof.
  intros _. cbv zeta. unfold formatDaysSinceUpdate, lt, strictEq, floorDiv.
  destruct (Z.ltb_spec days 1); [repeat split; intros; (reflexivity || lia)|].
  destruct (Z.eqb_spec days 1); [repeat split; intros; (reflexivity || lia)|].
  destruct (Z.ltb_spec days 30); [repeat split; intros; (reflexivity || lia)|].
  destruct (Z.ltb_spec days 60); [repeat split; intros; (reflexivity || lia)|].
  destruct (Z.ltb_spec days 365).
  { repeat split; intros; try reflexivity; try lia.
    - apply Z.div_le_lower_bound; lia.
    - apply Z.lt_succ_r. apply Z.div_lt_upper_bound; lia. }
  destruct (Z.ltb_spec days 730); [repeat split; intros; (reflexivity || lia)|].
  repeat split; intros; try reflexivity; try lia.
  apply Z.div_le_lower_bound; lia.
Qed.

Lemma plural_labels_count_at_least_two_witness :
  formatDaysSinceUpdate (Some (Int 364)) = "12 months ago" /\ 2 <= 364 / 30 <= 12.
Proof.
  destruct (plural_labels_count_at_least_two 364) as [_ [_ [_ [_ [Hmonths _]]]]]; [lia|].
  destruct Hmonths as [Hlabel Hcount]; [lia|].
  split; [rewrite Hlabel; reflexivity|exact Hcount].
Defined.

(** X2. The label shown for the freshness a score carries: a stale package
    is always "1 year ago", a package without any timestamp is "Unknown", and
    a package whose reference timestamp is an invalid date is
    "NaN years ago" (with 5 for score: the date is taken as older than any
    threshold). *)
Theorem freshness_labels now md gh :
  exists hs, calculateHealthScore now md gh = Normal hs /\
    let r := HealthScore.freshness hs in
    let label := formatDaysSinceUpdate (FreshnessScore.daysSinceUpdate r) in
    (FreshnessScore.status r = FreshnessScore.stale -> label = "1 year ago") /\
    (FreshnessScore.status r = FreshnessScore.unknown -> label = "Unknown") /\
    (Spec.referenceTimestamp md gh = Some InvalidDate ->
       label = "NaN years ago" /\ FreshnessScore.score r = 5).
Proof.
  apply (freshness_of_health
           (fun r =>
              (FreshnessScore.status r = FreshnessScore.stale ->
                 formatDaysSinceUpdate (FreshnessScore.daysSinceUpdate r) = "1 year ago") /\
              (FreshnessScore.status r = FreshnessScore.unknown ->
                 formatDaysSinceUpdate (FreshnessScore.daysSinceUpdate r) = "Unknown") /\
              (Spec.referenceTimestamp md gh = Some InvalidDate ->
                 formatDaysSinceUpdate (FreshnessScore.daysSinceUpdate r) = "NaN years ago" /\
                 FreshnessScore.score r = 5))).
  destruct (Spec.referenceTimestamp md gh) as [d|] eqn:E.
  - eexists. split; [apply (calculateFreshnessScore_resolved _ _ _ _ E)|].
    cbn [FreshnessScore.score FreshnessScore.status FreshnessScore.daysSinceUpdate].
    set (days := floorDiv (sub (Int now) (getTime d)) msPerDay).
    split; [|split].
    + destruct (Spec.archived gh); [discriminate|].
      unfold freshnessThresholds, formatDaysSinceUpdate.
      destruct (lt days 180) eqn:L1; [discriminate|].
      destruct (lt days 365) eqn:L2; [discriminate|].
      destruct (lt days 730) eqn:L3; [|destruct (lt days 1095); discriminate].
      intros _. destruct days as [z| |[|]]; try discriminate.
      unfold lt in L2, L3. apply Z.ltb_ge in L2. apply Z.ltb_lt in L3.
      unfold lt, strictEq.
      destruct (Z.ltb_spec z 1); [lia|]. destruct (Z.eqb_spec z 1); [lia|].
      destruct (Z.ltb_spec z 30); [lia|]. destruct (Z.ltb_spec z 60); [lia|].
      destruct (Z.ltb_spec z 365); [lia|].
      destruct (Z.ltb_spec z 730); [reflexivity|lia].
    + destruct (Spec.archived gh); [discriminate|].
      unfold freshnessThresholds.
      destruct (lt days 180); [discriminate|]. destruct (lt days 365); [discriminate|].
      destruct (lt days 730); [discriminate|]. destruct (lt days 1095); discriminate.
    + intros Hd. injection Hd as ->. subst days. simpl.
      split; [reflexivity|]. destruct (Spec.archived gh); reflexivity.
  - eexists. split; [apply (calculateFreshnessScore_unresolved _ _ _ E)|].
    cbn [FreshnessScore.score FreshnessScore.status FreshnessScore.daysSinceUpdate].
    split; [discriminate|]. split; [reflexivity|discriminate].
Qed.

Lemma freshness_labels_witness :
  exists hs,
    calculateHealthScore (Sample.day 10) (Sample.metadata (Some InvalidDate) 1 None) None
      = Normal hs /\
    formatDaysSinceUpdate (FreshnessScore.daysSinceUpdate (HealthScore.freshness hs))
      = "NaN years ago".
Proof.
  destruct (freshness_labels (Sample.day 10) (Sample.metadata (Some InvalidDate) 1 None) None)
    as [hs [H [_ [_ Hinvalid]]]].
  exists hs. split; [exact H|]. apply Hinvalid. reflexivity.
Defined.

(** ** package.json: versions and the selection of the dependencies *)

Lemma span_append (p : ascii -> bool) (taken rest : string) :
  (forall c, In c (list_ascii_of_string taken) -> p c = true) ->
  (forall c r, rest = String c r -> p c = false) ->
  span p (taken ++ rest) = (taken, rest).
Proof.
  intros Ht Hr. induction taken as [|a taken IH].
  - destruct rest as [|c r]; [reflexivity|].
    simpl. now rewrite (Hr c r eq_refl).
  - cbn [append span]. rewrite (Ht a) by (simpl; now left).
    rewrite IH; [reflexivity|]. intros c Hc. apply Ht. simpl. now right.
Qed.

Lemma span_rest_head (p : ascii -> bool) (s : string) (c : ascii) (r : string) :
  snd (span p s) = String c r -> p c = false.
Proof.
  induction s as [|a s IH]; simpl; [discriminate|].
  destruct (p a) eqn:E.
  - destruct (span p s) as [taken rest]. exact IH.
  - simpl. intros H. injection H as <- _. exact E.
Qed.

Lemma trimStart_fixed (s : string) :
  (forall c r, s = String c r -> isWhiteSpace c = false) -> trimStart s = s.
Proof.
  intros H. unfold trimStart. destruct s as [|c r]; [reflexivity|].
  simpl. now rewrite (H c r eq_refl).
Qed.

Lemma trimEnd_head (s : string) (c : ascii) (r : string) :
  trimEnd s = String c r -> exists r', s = String c r'.
Proof.
  destruct s as [|a s]; simpl; [discriminate|].
  destruct (isWhiteSpace a && isEmpty (trimEnd s)); [discriminate|].
  intros H. injection H as <- _. now exists s.
Qed.

Lemma trimEnd_idempotent (s : string) : trimEnd (trimEnd s) = trimEnd s.
Proof.
  induction s as [|a s IH]; [reflexivity|].
  cbn [trimEnd]. destruct (isWhiteSpace a && isEmpty (trimEnd s)) eqn:E; [reflexivity|].
  cbn [trimEnd]. rewrite IH, E. reflexivity.
Qed.

Lemma trim_idempotent (s : string) : trim (trim s) = trim s.
Proof.
  unfold trim. rewrite (trimStart_fixed (trimEnd (trimStart s))).
  - apply trimEnd_idempotent.
  - intros c r H. destruct (trimEnd_head _ _ _ H) as [r' H'].
    unfold trimStart in H'. exact (span_rest_head _ _ _ _ H').
Qed.

Lemma trimEnd_blank (gap : string) :
  Stated.allChars isWhiteSpace gap -> trimEnd gap = "".
Proof.
  induction gap as [|c gap IH]; intros H; [reflexivity|].
  cbn [trimEnd]. rewrite IH by (intros d Hd; apply H; simpl; now right).
  rewrite (H c) by (simpl; now left). reflexivity.
Qed.

Lemma lastNot_tail (p : ascii -> bool) (c : ascii) (s : string) :
  Stated.lastNot p (String c s) -> Stated.lastNot p s.
Proof.
  intros H r d E. apply (H (String c r) d). simpl. now rewrite E.
Qed.

Lemma lastNot_single (p : ascii -> bool) (c : ascii) :
  p c = false -> Stated.lastNot p (String c "").
Proof.
  intros H r x E. destruct r as [|y r]; cbn [append] in E.
  - now injection E as <-.
  - injection E as _ E. destruct r; discriminate E.
Qed.

Lemma lastNot_cons (p : ascii -> bool) (c d : ascii) (s : string) :
  Stated.lastNot p (String d s) -> Stated.lastNot p (String c (String d s)).
Proof.
  intros H r x E. destruct r as [|y r]; cbn [append] in E.
  - discriminate E.
  - injection E as _ E. exact (H r x E).
Qed.

Lemma lastNot_append (p : ascii -> bool) (a b : string) :
  Stated.lastNot p a -> Stated.lastNot p b -> Stated.lastNot p (a ++ b).
Proof.
  intros Ha Hb. induction a as [|x a IH]; [exact Hb|].
  intros r c E. destruct r as [|y r]; cbn [append] in E.
  - injection E as -> E. destruct a; [|discriminate E].
    exact (Ha "" c eq_refl).
  - injection E as _ E. exact (IH (lastNot_tail _ _ _ Ha) r c E).
Qed.

Lemma allChars_lastNot (q p : ascii -> bool) (s : string) :
  (forall c, q c = true -> p c = false) ->
  Stated.allChars q s -> Stated.lastNot p s.
Proof.
  intros Hqp Hs r c E. apply Hqp. apply Hs. rewrite E. clear.
  induction r as [|x r IH]; simpl; [now left|now right].
Qed.

Lemma trimEnd_append (text gap : string) :
  Stated.lastNot isWhiteSpace text -> Stated.allChars isWhiteSpace gap ->
  trimEnd (text ++ gap) = text.
Proof.
  intros Ht Hg. induction text as [|c text IH]; [now apply trimEnd_blank|].
  cbn [append trimEnd]. rewrite IH by exact (lastNot_tail _ _ _ Ht).
  destruct text as [|d text].
  - rewrite (Ht "" c eq_refl). reflexivity.
  - cbn [isEmpty]. rewrite andb_false_r. reflexivity.
Qed.

Lemma trimStart_blank (gap rest : string) :
  Stated.allChars isWhiteSpace gap -> trimStart (gap ++ rest) = trimStart rest.
Proof.
  intros H. induction gap as [|c gap IH]; [reflexivity|].
  unfold trimStart in *. cbn [append span].
  rewrite (H c) by (simpl; now left).
  rewrite <- IH by (intros d Hd; apply H; simpl; now right).
  destruct (span isWhiteSpace (gap ++ rest)). reflexivity.
Qed.

(** [trim] removes the white space around a text that neither begins nor ends
    with white space. *)
Lemma trim_between (gap1 text gap2 : string) :
  Stated.allChars isWhiteSpace gap1 -> Stated.allChars isWhiteSpace gap2 ->
  Stated.headNot isWhiteSpace text -> Stated.lastNot isWhiteSpace text ->
  trim (gap1 ++ text ++ gap2) = text.
Proof.
  intros H1 H2 Hh Hl. unfold trim. rewrite (trimStart_blank _ _ H1).
  destruct text as [|c text].
  - cbn [append]. replace gap2 with (gap2 ++ "") at 1
      by (clear; induction gap2; simpl; congruence).
    rewrite (trimStart_blank _ _ H2). reflexivity.
  - rewrite trimStart_fixed.
    + now apply trimEnd_append.
    + intros d r E. cbn [append] in E. injection E as <- _. exact (Hh c text eq_refl).
Qed.

(** What [trim] returns neither begins nor ends with white space. *)
Lemma trimEnd_lastNot (s : string) : Stated.lastNot isWhiteSpace (trimEnd s).
Proof.
  induction s as [|c s IH]; intros r d E.
  - destruct r; discriminate E.
  - cbn [trimEnd] in E.
    destruct (isWhiteSpace c && isEmpty (trimEnd s)) eqn:B; [destruct r; discriminate E|].
    destruct r as [|e r]; cbn [append] in E.
    + injection E as <- E. rewrite E in B. cbn [isEmpty] in B.
      now rewrite andb_true_r in B.
    + injection E as _ E. exact (IH r d E).
Qed.

Lemma trim_headNot (s : string) : Stated.headNot isWhiteSpace (trim s).
Proof.
  intros c r H. unfold trim in H. destruct (trimEnd_head _ _ _ H) as [r' H'].
  unfold trimStart in H'. exact (span_rest_head _ _ _ _ H').
Qed.

Lemma versionPrefix_not_blank (c : ascii) :
  PackageJson.isVersionPrefix c = true -> isWhiteSpace c = false.
Proof.
  unfold PackageJson.isVersionPrefix.
  intros H. repeat (apply orb_true_iff in H; destruct H as [H|H]);
    apply Ascii.eqb_eq in H; subst c; reflexivity.
Qed.

(** X3. [cleanVersion] removes the run of [^], [~], [>], [=], [<] a version
    starts with and the white space around what follows: operators, white
    space, a version that begins with none of these characters and neither
    begins nor ends with white space, and white space again, give the
    version. The run is removed only at the very start: after leading white
    space the operators are kept. In every case the result neither begins
    nor ends with white space. *)
Theorem cleanVersion_strips_the_range_prefix (operators gap1 version gap2 : string) :
  Stated.allChars PackageJson.isVersionPrefix operators ->
  Stated.allChars isWhiteSpace gap1 -> Stated.allChars isWhiteSpace gap2 ->
  Stated.headNot PackageJson.isVersionPrefix version ->
  Stated.headNot isWhiteSpace version -> Stated.lastNot isWhiteSpace version ->
  PackageJson.cleanVersion (operators ++ gap1 ++ version ++ gap2) = version /\
  (gap1 <> "" ->
     PackageJson.cleanVersion (gap1 ++ operators ++ version ++ gap2)
     = operators ++ version) /\
  (forall any,
     Stated.headNot isWhiteSpace (PackageJson.cleanVersion any) /\
     Stated.lastNot isWhiteSpace (PackageJson.cleanVersion any)).
Proof.
  intros Ho H1 H2 Hp Hh Hl.
  assert (Hblank : forall c, isWhiteSpace c = true -> PackageJson.isVersionPrefix c = false).
  { intros c Hc. destruct (PackageJson.isVersionPrefix c) eqn:E; [|reflexivity].
    rewrite (versionPrefix_not_blank c E) in Hc. discriminate Hc. }
  unfold PackageJson.cleanVersion. split; [|split].
  - rewrite (span_append _ operators (gap1 ++ version ++ gap2) Ho).
    + now apply trim_between.
    + intros c r E. destruct gap1 as [|g gap1]; cbn [append] in E.
      * destruct version as [|v version]; cbn [append] in E.
        -- apply Hblank. apply H2. rewrite E. simpl. now left.
        -- injection E as <- _. exact (Hp v version eq_refl).
      * injection E as <- _. apply Hblank. apply H1. simpl. now left.
  - intros Hne. destruct gap1 as [|g gap1]; [congruence|].
    cbn [append span]. rewrite (Hblank g) by (apply H1; simpl; now left).
    cbn [snd]. change (String g (gap1 ++ operators ++ version ++ gap2))
      with (String g gap1 ++ operators ++ version ++ gap2).
    replace (operators ++ version ++ gap2) with ((operators ++ version) ++ gap2)
      by (clear; induction operators; simpl; congruence).
    apply trim_between; try assumption.
    + intros c r E. destruct operators as [|o operators]; cbn [append] in E.
      * exact (Hh c r E).
      * injection E as <- _. apply versionPrefix_not_blank. apply Ho. simpl. now left.
    + apply lastNot_append; [|exact Hl].
      exact (allChars_lastNot _ _ _ versionPrefix_not_blank Ho).
  - intros any. split; [apply trim_headNot|apply trimEnd_lastNot].
Qed.

Lemma cleanVersion_strips_the_range_prefix_witness :
  PackageJson.cleanVersion ">= 1.2.3-beta  " = "1.2.3-beta" /\
  PackageJson.cleanVersion " >=1.2.3-beta  " = ">=1.2.3-beta".
Proof.
  assert (Hblank : forall gap, gap = " " \/ gap = "  " -> Stated.allChars isWhiteSpace gap).
  { intros gap [->| ->] c H; simpl in H; intuition (subst; reflexivity). }
  destruct (cleanVersion_strips_the_range_prefix ">=" " " "1.2.3-beta" "  ")
    as [Hclean [Hkept _]].
  - intros c [<-|[<-|[]]]; reflexivity.
  - apply Hblank. now left.
  - apply Hblank. now right.
  - intros c r H. injection H as <- _. reflexivity.
  - intros c r H. injection H as <- _. reflexivity.
  - repeat apply lastNot_cons. now apply lastNot_single.
  - split; [exact Hclean|]. apply Hkept. discriminate.
Defined.

Lemma filter_map_entry (isDev : bool) (entries : list (string * string)) :
  filter (fun d => negb (Dependency.isDev d)) (map (PackageJson.entry isDev) entries)
  = if isDev then [] else map (PackageJson.entry false) entries.
Proof.
  induction entries as [|e entries IH]; destruct isDev; simpl in *; congruence.
Qed.

Lemma collect_eq (packageJson : PackageJson.t) :
  PackageJson.collect packageJson
  = (map (PackageJson.entry false) (Stated.entries (PackageJson.dependencies packageJson))
     ++ map (PackageJson.entry true)
          (Stated.entries (PackageJson.devDependencies packageJson)))%list.
Proof.
  unfold PackageJson.collect.
  destruct (PackageJson.dependencies packageJson),
    (PackageJson.devDependencies packageJson); reflexivity.
Qed.

Lemma map_isDev_entry (isDev : bool) (entries : list (string * string)) :
  map Dependency.isDev (map (PackageJson.entry isDev) entries)
  = repeat isDev (List.length entries).
Proof. induction entries; simpl; congruence. Qed.

(** X4. The dependencies of a package.json come out as [Object.entries]
    lists the two fields (which is not always the order of the file), those
    of [dependencies] before those of [devDependencies], all of them direct
    npm dependencies. Without the [--dev] option a scan keeps exactly the
    entries of [dependencies]; with it, it keeps them all. *)
Theorem package_json_dependencies (packageJson : PackageJson.t) :
  let regular := Stated.entries (PackageJson.dependencies packageJson) in
  let dev := Stated.entries (PackageJson.devDependencies packageJson) in
  let all := PackageJson.collect packageJson in
  map Dependency.name all = (map fst regular ++ map fst dev)%list /\
  map Dependency.isDev all
    = (repeat false (List.length regular) ++ repeat true (List.length dev))%list /\
  Forall (fun d => Dependency.source d = npm /\ Dependency.type d = direct) all /\
  (forall dev_option, dev_option = None \/ dev_option = Some false ->
     Scan.selectDependencies dev_option Scan.file_npm all
     = map (PackageJson.entry false) regular) /\
  Scan.selectDependencies (Some true) Scan.file_npm all = all.
Proof.
  cbv zeta. rewrite collect_eq.
  set (regular := Stated.entries (PackageJson.dependencies packageJson)).
  set (dev := Stated.entries (PackageJson.devDependencies packageJson)).
  split; [|split; [|split; [|split]]].
  - rewrite map_app, !map_map. reflexivity.
  - rewrite map_app, !map_isDev_entry. reflexivity.
  - apply Forall_app. split; apply Forall_forall; intros d Hd;
      apply in_map_iff in Hd; destruct Hd as [e [<- _]]; split; reflexivity.
  - intros dev_option [->| ->]; cbn [Scan.selectDependencies truthyBoolean negb];
      rewrite filter_app, !filter_map_entry, app_nil_r; reflexivity.
  - reflexivity.
Qed.

Lemma package_json_dependencies_witness :
  Scan.selectDependencies None Scan.file_npm
    (PackageJson.collect
       {| PackageJson.dependencies := Some [("express", "^4.18.2")];
          PackageJson.devDependencies := Some [("jest", "~29.0.0")] |})
  = [ {| Dependency.name := "express"; Dependency.version := "4.18.2";
         Dependency.type := direct; Dependency.source := npm;
         Dependency.isDev := false |} ].
Proof.
  destruct (package_json_dependencies
              {| PackageJson.dependencies := Some [("express", "^4.18.2")];
                 PackageJson.devDependencies := Some [("jest", "~29.0.0")] |})
    as [_ [_ [_ [Hselect _]]]].
  rewrite (Hselect None (or_introl eq_refl)). reflexivity.
Defined.

(** ** The report: truncation and order *)

Lemma length_append (s t : string) :
  String.length (s ++ t) = (String.length s + String.length t)%nat.
Proof. induction s; simpl; congruence. Qed.

Lemma length_substring (n : nat) (s : string) :
  String.length (substring 0 n s) = Nat.min n (String.length s).
Proof.
  revert s. induction n as [|n IH]; intros [|c s]; simpl; try reflexivity.
  now rewrite IH.
Qed.

Lemma substring_prefix (n : nat) (s : string) :
  exists rest, s = substring 0 n s ++ rest.
Proof.
  revert s. induction n as [|n IH]; intros [|c s]; simpl.
  - now exists EmptyString.
  - now exists (String c s).
  - now exists EmptyString.
  - destruct (IH s) as [rest H]. exists rest. now rewrite <- H.
Qed.

(** X5. [truncate] fits a text in [maxLen] characters when [maxLen] is at
    least 1: a text that fits is returned as it is; a longer one is cut to its
    first [maxLen - 1] characters followed by the ellipsis, [maxLen]
    characters in all. *)
Theorem truncate_fits (ellipsis : ascii) (str : string) (maxLen : Z) :
  1 <= maxLen ->
  let shown := Reporter.truncate ellipsis str maxLen in
  Z.of_nat (String.length shown) <= maxLen /\
  (Z.of_nat (String.length str) <= maxLen -> shown = str) /\
  (maxLen < Z.of_nat (String.length str) ->
     Z.of_nat (String.length shown) = maxLen /\
     exists kept dropped,
       str = kept ++ dropped /\
       Z.of_nat (String.length kept) = maxLen - 1 /\
       shown = kept ++ String ellipsis "").
Proof.
  intros Hmax. cbv zeta. unfold Reporter.truncate.
  destruct (Z.leb_spec (Z.of_nat (String.length str)) maxLen) as [Hfit|Hlong].
  - split; [exact Hfit|]. split; [reflexivity|lia].
  - assert (Hlen : String.length (substring 0 (Z.to_nat (maxLen - 1)) str)
                   = Z.to_nat (maxLen - 1))
      by (rewrite length_substring; lia).
    rewrite length_append, Hlen. cbn [String.length].
    split; [lia|]. split; [lia|]. intros _. split; [lia|].
    destruct (substring_prefix (Z.to_nat (maxLen - 1)) str) as [dropped Hd].
    exists (substring 0 (Z.to_nat (maxLen - 1)) str), dropped.
    split; [exact Hd|]. split; [rewrite Hlen; lia|reflexivity].
Qed.

Lemma truncate_fits_witness :
  Reporter.truncate "~" "GPL-3.0-or-later" 13 = "GPL-3.0-or-l~" /\
  Z.of_nat (String.length (Reporter.truncate "~" "GPL-3.0-or-later" 13)) <= 13.
Proof.
  split; [reflexivity|].
  apply (truncate_fits "~" "GPL-3.0-or-later" 13). lia.
Defined.

(** A text of one character is longer than a [maxLen] of zero: below 1 the
    bound does not hold. *)
Example truncate_below_one : Reporter.truncate "~" "MIT" 0 = "~".
Proof. reflexivity. Qed.

Lemma insertSorted_permutation a l :
  Permutation (a :: l) (Reporter.insertSorted a l).
Proof.
  induction l as [|b l IH]; simpl; [reflexivity|].
  destruct (Reporter.notAfter a b); [reflexivity|].
  rewrite perm_swap. now apply perm_skip.
Qed.

Lemma sortByScore_permutation l : Permutation l (Reporter.sortByScore l).
Proof.
  induction l as [|a l IH]; simpl; [reflexivity|].
  rewrite <- insertSorted_permutation. now apply perm_skip.
Qed.

Lemma notAfter_integer a b x y :
  Reporter.sortScore a = Int x -> Reporter.sortScore b = Int y ->
  Reporter.notAfter a b = (x <=? y).
Proof.
  intros Ha Hb. unfold Reporter.notAfter, Reporter.compareScores.
  rewrite Ha, Hb. simpl.
  destruct (Z.leb_spec (x - y) 0), (Z.leb_spec x y); try reflexivity; lia.
Qed.

Lemma notAfter_scoreOf a b :
  (exists x, Reporter.sortScore a = Int x) ->
  (exists y, Reporter.sortScore b = Int y) ->
  Reporter.notAfter a b = (Stated.scoreOf a <=? Stated.scoreOf b).
Proof.
  intros [x Ha] [y Hb]. unfold Stated.scoreOf. rewrite Ha, Hb.
  apply (notAfter_integer _ _ _ _ Ha Hb).
Qed.

Lemma integerScores_sorted l :
  Stated.integerScores l -> Stated.integerScores (Reporter.sortByScore l).
Proof.
  unfold Stated.integerScores. intros H.
  exact (Permutation_Forall (sortByScore_permutation l) H).
Qed.

Lemma insertSorted_sorted a l :
  (exists x, Reporter.sortScore a = Int x) ->
  Stated.integerScores l ->
  StronglySorted (fun a b => Stated.scoreOf a <= Stated.scoreOf b) l ->
  StronglySorted (fun a b => Stated.scoreOf a <= Stated.scoreOf b)
                 (Reporter.insertSorted a l).
Proof.
  intros Ha Hl Hs. induction Hs as [|b l Hs IH Hb]; simpl.
  - constructor; constructor.
  - inversion Hl as [|b' l' Hbi Hli]; subst.
    rewrite (notAfter_scoreOf a b Ha Hbi).
    destruct (Z.leb_spec (Stated.scoreOf a) (Stated.scoreOf b)) as [Hle|Hgt].
    + constructor; [now constructor|].
      constructor; [exact Hle|].
      eapply Forall_impl; [|exact Hb]. simpl. intros c Hc. lia.
    + constructor; [now apply IH|].
      apply (Permutation_Forall (insertSorted_permutation a l)).
      constructor; [lia|exact Hb].
Qed.

Lemma insertSorted_filter a l score :
  (exists x, Reporter.sortScore a = Int x) ->
  Stated.integerScores l ->
  filter (fun c => Stated.scoreOf c =? score) (Reporter.insertSorted a l)
  = filter (fun c => Stated.scoreOf c =? score) (a :: l).
Proof.
  intros Ha Hl. induction Hl as [|b l Hb Hl IH]; [reflexivity|].
  cbn [Reporter.insertSorted]. rewrite (notAfter_scoreOf a b Ha Hb).
  destruct (Z.leb_spec (Stated.scoreOf a) (Stated.scoreOf b)) as [Hle|Hgt];
    [reflexivity|].
  cbn [filter] in IH |- *. rewrite IH.
  destruct (Z.eqb_spec (Stated.scoreOf a) score), (Z.eqb_spec (Stated.scoreOf b) score);
    try reflexivity; lia.
Qed.

(** X6. The sort of the report, on analyses whose scores are integers (what
    a scan produces): the result is a permutation of the analyses, in
    non-decreasing order of score, and stable: the analyses of one score keep
    the order they had. *)
Theorem report_sorted_by_score (dependencies : list DependencyAnalysis.t) :
  Stated.integerScores dependencies ->
  let sorted := Reporter.sortByScore dependencies in
  Permutation dependencies sorted /\
  StronglySorted (fun a b => Stated.scoreOf a <= Stated.scoreOf b) sorted /\
  (forall score,
     filter (fun a => Stated.scoreOf a =? score) sorted
     = filter (fun a => Stated.scoreOf a =? score) dependencies).
Proof.
  intros H. cbv zeta. split; [apply sortByScore_permutation|].
  induction H as [|a l Ha Hl [IHs IHf]]; [split; [constructor|reflexivity]|].
  cbn [Reporter.sortByScore fold_right]. fold (Reporter.sortByScore l). split.
  - apply insertSorted_sorted; [exact Ha|now apply integerScores_sorted|exact IHs].
  - intros score.
    rewrite (insertSorted_filter a _ score Ha (integerScores_sorted l Hl)).
    cbn [filter]. now rewrite IHf.
Qed.

Lemma report_sorted_by_score_witness :
  StronglySorted (fun a b => Stated.scoreOf a <= Stated.scoreOf b)
    (Reporter.sortByScore
       (Cli.analyzeAll Sample.registry Sample.registry Sample.noRepository
          (fun _ => Sample.day 10) Sample.options Sample.dependencies)).
Proof.
  apply (report_sorted_by_score
           (Cli.analyzeAll Sample.registry Sample.registry Sample.noRepository
              (fun _ => Sample.day 10) Sample.options Sample.dependencies)).
  repeat constructor; eexists; vm_compute; reflexivity.
Defined.

(** ** What a scan hands to the report *)

Lemma health_overall_range now md gh hs :
  calculateHealthScore now md gh = Normal hs ->
  exists overall, HealthScore.overall hs = Int overall /\ 0 <= overall <= 100.
Proof.
  intros H. destruct (calculateHealthScore_values now md gh) as [hs' [H' [Ho [Vf [Vm Vl]]]]].
  rewrite H in H'. injection H' as <-.
  eexists. split; [rewrite Ho; apply (round_weighted_exact _ _ _ Vf Vm Vl)|].
  apply roundHalfUp_bounds; [in_range Vf|in_range Vm|in_range Vl].
Qed.

Section ScanOutput.

Variable fetchNpmMetadata : string -> Completion PackageMetadata.t.
Variable fetchPyPIMetadata : string -> Completion PackageMetadata.t.
Variable fetchGitHubRepoHealth :
  string -> option string -> Completion (option GitHubRepoHealth.t).
Variable clock : nat -> Z.
Variable options : Cli.Options.t.

Lemma analyzeDependency_recorded now dep :
  Stated.Recorded dep
    (Cli.analyzeDependency fetchNpmMetadata fetchPyPIMetadata fetchGitHubRepoHealth
       options now dep).
Proof.
  unfold Cli.analyzeDependency.
  destruct (Cli.fetchMetadata _ _ dep) as [md|m]; [|apply Stated.recorded_failed].
  cbn [Js.bind].
  match goal with
  | |- context [Js.bind ?fetched _] => destruct fetched as [gh|m]
  end; [|apply Stated.recorded_failed].
  cbn [Js.bind].
  destruct (calculateHealthScore_values now md gh) as [hs [H _]]. rewrite H.
  apply (Stated.recorded_scored dep now md gh hs H).
Qed.

Lemma analyzeFrom_recorded i dependencies :
  Forall (fun a => Stated.Recorded (DependencyAnalysis.dependency a) a)
    (Cli.analyzeFrom fetchNpmMetadata fetchPyPIMetadata fetchGitHubRepoHealth clock
       options i dependencies).
Proof.
  revert i. induction dependencies as [|dep rest IH]; intros i; cbn [Cli.analyzeFrom].
  - constructor.
  - constructor; [|apply IH].
    pose proof (analyzeDependency_recorded (clock i) dep) as H.
    destruct H; exact (ltac:(econstructor; eassumption)).
Qed.

End ScanOutput.

Lemma recorded_score dep a :
  Stated.Recorded dep a ->
  (Cli.hasError a = false /\ DependencyAnalysis.health a <> None /\
   exists z, Reporter.sortScore a = Int z /\ 0 <= z <= 100) \/
  (Cli.hasError a = true /\ DependencyAnalysis.health a = None /\
   Reporter.sortScore a = Int 999).
Proof.
  intros [now md gh hs H|message].
  - left. split; [reflexivity|]. split; [discriminate|].
    destruct (health_overall_range _ _ _ _ H) as [o [Ho Hr]].
    exists o. split; [exact Ho|exact Hr].
  - right. repeat split.
Qed.

Lemma insertSorted_before_tail a front tail :
  (forall f, In f tail -> Reporter.notAfter a f = true) ->
  Reporter.insertSorted a (front ++ tail) = (Reporter.insertSorted a front ++ tail)%list.
Proof.
  intros H. induction front as [|s front IH]; cbn [app Reporter.insertSorted].
  - destruct tail as [|f tail]; [reflexivity|].
    cbn [Reporter.insertSorted]. now rewrite (H f (or_introl eq_refl)).
  - destruct (Reporter.notAfter a s); [reflexivity|]. now rewrite IH.
Qed.

Lemma insertSorted_after_front a front tail :
  (forall s, In s front -> Reporter.notAfter a s = false) ->
  Reporter.insertSorted a (front ++ tail) = (front ++ Reporter.insertSorted a tail)%list.
Proof.
  intros H. induction front as [|s front IH]; [reflexivity|].
  cbn [app Reporter.insertSorted]. rewrite (H s (or_introl eq_refl)).
  rewrite IH; [reflexivity|]. intros s' Hs'. apply H. now right.
Qed.

Lemma sortByScore_failures_last (analyses : list DependencyAnalysis.t) :
  Forall (fun a => Stated.Recorded (DependencyAnalysis.dependency a) a) analyses ->
  Reporter.sortByScore analyses
  = (Reporter.sortByScore (filter (fun a => negb (Cli.hasError a)) analyses)
     ++ filter Cli.hasError analyses)%list.
Proof.
  intros H. induction H as [|a l Ha Hl IH]; [reflexivity|].
  cbn [Reporter.sortByScore fold_right filter].
  fold (Reporter.sortByScore l). rewrite IH.
  assert (Hfailed : forall f, In f (filter Cli.hasError l) ->
                               Reporter.sortScore f = Int 999).
  { intros f Hf. apply filter_In in Hf. destruct Hf as [Hin He].
    rewrite Forall_forall in Hl.
    destruct (recorded_score _ _ (Hl f Hin)) as [[He' _]|[_ [_ Hs]]]; [congruence|exact Hs]. }
  assert (Hscored : forall s,
            In s (Reporter.sortByScore (filter (fun a => negb (Cli.hasError a)) l)) ->
            exists z, Reporter.sortScore s = Int z /\ 0 <= z <= 100).
  { intros s Hs.
    apply (Permutation_in _ (Permutation_sym (sortByScore_permutation _))) in Hs.
    apply filter_In in Hs. destruct Hs as [Hin He].
    rewrite Forall_forall in Hl.
    destruct (recorded_score _ _ (Hl s Hin)) as [[_ [_ Hz]]|[He' _]]; [exact Hz|].
    rewrite He' in He. discriminate. }
  destruct (recorded_score _ _ Ha) as [[He [_ [z [Hz Hr]]]]|[He [_ Hs]]]; rewrite He;
    cbn [negb].
  - cbn [Reporter.sortByScore fold_right].
    fold (Reporter.sortByScore (filter (fun a => negb (Cli.hasError a)) l)).
    apply insertSorted_before_tail. intros f Hf.
    rewrite (notAfter_integer _ _ _ _ Hz (Hfailed f Hf)). apply Z.leb_le. lia.
  - rewrite insertSorted_after_front.
    + f_equal. destruct (filter Cli.hasError l) as [|f tail] eqn:E; [reflexivity|].
      cbn [Reporter.insertSorted].
      rewrite (notAfter_integer _ _ _ _ Hs (Hfailed f (or_introl eq_refl))).
      reflexivity.
    + intros s Hin. destruct (Hscored s Hin) as [z [Hz Hr]].
      rewrite (notAfter_integer _ _ _ _ Hs Hz). apply Z.leb_gt. lia.
Qed.

(** X7. In the table of a scan the dependencies that were scored come first,
    sorted by score, and those that failed come last, in the order in which
    they were analysed. *)
Theorem report_lists_failures_last
    (fetchNpmMetadata fetchPyPIMetadata : string -> Completion PackageMetadata.t)
    (fetchGitHubRepoHealth : string -> option string -> Completion (option GitHubRepoHealth.t))
    (clock : nat -> Z) (options : Cli.Options.t) (dependencies : list Dependency.t) :
  let analyses := Cli.analyzeAll fetchNpmMetadata fetchPyPIMetadata fetchGitHubRepoHealth
                    clock options dependencies in
  Reporter.sortByScore analyses
  = (Reporter.sortByScore (filter (fun a => negb (Cli.hasError a)) analyses)
     ++ filter Cli.hasError analyses)%list /\
  Stated.integerScores analyses.
Proof.
  cbv zeta. unfold Cli.analyzeAll.
  pose proof (analyzeFrom_recorded fetchNpmMetadata fetchPyPIMetadata fetchGitHubRepoHealth
                clock options 0%nat dependencies) as H.
  split; [apply (sortByScore_failures_last _ H)|].
  unfold Stated.integerScores. eapply Forall_impl; [|exact H].
  intros a Ha. simpl in Ha.
  destruct (recorded_score _ _ Ha) as [[_ [_ [z [Hz _]]]]|[_ [_ Hs]]]; eauto.
Qed.

Example report_order :
  map (fun a => Dependency.name (DependencyAnalysis.dependency a))
      (Reporter.sortByScore
         (Cli.analyzeAll Sample.registry Sample.registry Sample.noRepository
            (fun _ => Sample.day 10) Sample.options
            [ Sample.dependency "ghost" npm; Sample.dependency "left-pad" npm;
              Sample.dependency "gopkg" go ]))
  = [ "left-pad"; "ghost"; "gopkg" ].
Proof. vm_compute. reflexivity. Qed.

(** ** The summary, the threshold and the rows *)

Lemma filter_nonempty {A : Type} (p : A -> bool) (l : list A) :
  (0 <? List.length (filter p l))%nat = true <-> exists a, In a l /\ p a = true.
Proof.
  rewrite Nat.ltb_lt. split.
  - destruct (filter p l) as [|a rest] eqn:E; [simpl; lia|]. intros _.
    exists a. apply filter_In. rewrite E. now left.
  - intros [a Ha]. apply filter_In in Ha.
    destruct (filter p l); [destruct Ha|simpl; lia].
Qed.

Lemma hasRisk_scored (level : RiskLevel.t) (a : DependencyAnalysis.t) :
  level <> RiskLevel.unknown ->
  Cli.hasRisk level a = true <->
  exists hs, DependencyAnalysis.health a = Some hs /\
             getRiskLevel (Some (HealthScore.overall hs)) = level.
Proof.
  intros Hl. unfold Cli.hasRisk, Cli.overallOrNull.
  destruct (DependencyAnalysis.health a) as [hs|]; cbn [optionalChain].
  - split.
    + intros H. exists hs. split; [reflexivity|].
      destruct (getRiskLevel _), level; simpl in H; congruence.
    + intros [hs' [E <-]]. injection E as <-.
      destruct (getRiskLevel _); reflexivity.
  - split.
    + simpl. destruct level; simpl; congruence.
    + intros [hs [E _]]. discriminate.
Qed.

(** X8. The recommendation under the summary looks at the scored
    dependencies only: it is 'Action Required!' exactly when one of them is
    critical, and 'All dependencies look healthy!' exactly when every one of
    them is healthy, which is the case when none was scored at all. *)
Theorem recommendation_of_summary (analyses : list DependencyAnalysis.t) :
  let summary := Cli.summarize analyses in
  (Reporter.recommendation summary = Reporter.ActionRequired <->
     exists a hs, In a analyses /\ DependencyAnalysis.health a = Some hs /\
                  getRiskLevel (Some (HealthScore.overall hs)) = RiskLevel.critical) /\
  (Reporter.recommendation summary = Reporter.AllHealthy <->
     forall a hs, In a analyses -> DependencyAnalysis.health a = Some hs ->
                  getRiskLevel (Some (HealthScore.overall hs)) = RiskLevel.healthy) /\
  ((forall a, In a analyses -> DependencyAnalysis.health a = None) ->
     Reporter.recommendation summary = Reporter.AllHealthy /\
     ScanSummary.healthy summary = 0%nat).
Proof.
  cbv zeta. unfold Reporter.recommendation, Cli.summarize.
  cbn [ScanSummary.critical ScanSummary.warning ScanSummary.healthy].
  assert (Hcritical :
            (exists a, In a analyses /\ Cli.hasRisk RiskLevel.critical a = true) <->
            exists a hs, In a analyses /\ DependencyAnalysis.health a = Some hs /\
                         getRiskLevel (Some (HealthScore.overall hs)) = RiskLevel.critical).
  { split.
    - intros [a [Hin H]]. apply hasRisk_scored in H; [|discriminate].
      destruct H as [hs [E R]]. now exists a, hs.
    - intros [a [hs [Hin [E R]]]]. exists a. split; [exact Hin|].
      apply hasRisk_scored; [discriminate|]. now exists hs. }
  assert (Hhealthy :
            ((0 <? List.length (filter (Cli.hasRisk RiskLevel.critical) analyses))%nat = false /\
             (0 <? List.length (filter (Cli.hasRisk RiskLevel.warning) analyses))%nat = false) <->
            forall a hs, In a analyses -> DependencyAnalysis.health a = Some hs ->
                         getRiskLevel (Some (HealthScore.overall hs)) = RiskLevel.healthy).
  { split.
    - intros [Nc Nw] a hs Hin E.
      destruct (getRiskLevel (Some (HealthScore.overall hs))) eqn:R; try reflexivity.
      + assert (X : (0 <? List.length (filter (Cli.hasRisk RiskLevel.warning) analyses))%nat
                    = true).
        { apply filter_nonempty. exists a. split; [exact Hin|].
          apply hasRisk_scored; [discriminate|]. now exists hs. }
        congruence.
      + assert (X : (0 <? List.length (filter (Cli.hasRisk RiskLevel.critical) analyses))%nat
                    = true).
        { apply filter_nonempty. exists a. split; [exact Hin|].
          apply hasRisk_scored; [discriminate|]. now exists hs. }
        congruence.
      + unfold getRiskLevel in R. destruct (ge _ 80); [discriminate|].
        destruct (ge _ 50); discriminate.
    - intros H. split.
      + destruct (0 <? _)%nat eqn:X; [|reflexivity].
        apply filter_nonempty in X. destruct X as [a [Hin X]].
        apply hasRisk_scored in X; [|discriminate]. destruct X as [hs [E R]].
        rewrite (H a hs Hin E) in R. discriminate.
      + destruct (0 <? List.length (filter (Cli.hasRisk RiskLevel.warning) analyses))%nat
          eqn:X; [|reflexivity].
        apply filter_nonempty in X. destruct X as [a [Hin X]].
        apply hasRisk_scored in X; [|discriminate]. destruct X as [hs [E R]].
        rewrite (H a hs Hin E) in R. discriminate. }
  assert (Hall :
            (if (0 <? List.length (filter (Cli.hasRisk RiskLevel.critical) analyses))%nat
             then Reporter.ActionRequired
             else if (0 <? List.length (filter (Cli.hasRisk RiskLevel.warning) analyses))%nat
                  then Reporter.CouldUseAttention else Reporter.AllHealthy)
            = Reporter.AllHealthy <->
            forall a hs, In a analyses -> DependencyAnalysis.health a = Some hs ->
                         getRiskLevel (Some (HealthScore.overall hs)) = RiskLevel.healthy).
  { rewrite <- Hhealthy.
    destruct (0 <? List.length (filter (Cli.hasRisk RiskLevel.critical) analyses))%nat;
      destruct (0 <? List.length (filter (Cli.hasRisk RiskLevel.warning) analyses))%nat;
      split; try discriminate; try tauto; intros [? ?]; discriminate. }
  split; [|split].
  - rewrite <- Hcritical, <- filter_nonempty.
    destruct (0 <? List.length (filter (Cli.hasRisk RiskLevel.critical) analyses))%nat;
      [tauto|].
    destruct (0 <? _)%nat; split; discriminate.
  - exact Hall.
  - intros Hnone. split.
    + apply Hall. intros a hs Hin E. rewrite (Hnone a Hin) in E. discriminate.
    + destruct (filter (Cli.hasRisk RiskLevel.healthy) analyses) as [|a rest] eqn:E;
        [reflexivity|].
      assert (Ha : In a (filter (Cli.hasRisk RiskLevel.healthy) analyses))
        by (rewrite E; now left).
      apply filter_In in Ha. destruct Ha as [Hin Hr].
      apply hasRisk_scored in Hr; [|discriminate]. destruct Hr as [hs [Eh _]].
      rewrite (Hnone a Hin) in Eh. discriminate.
Qed.

Lemma recommendation_of_summary_witness :
  Reporter.recommendation
    (Cli.summarize
       (Cli.analyzeAll Sample.registry Sample.registry Sample.noRepository
          (fun _ => Sample.day 10) Sample.options
          [ Sample.dependency "ghost" npm; Sample.dependency "gopkg" go ]))
  = Reporter.AllHealthy.
Proof.
  apply (recommendation_of_summary
           (Cli.analyzeAll Sample.registry Sample.registry Sample.noRepository
              (fun _ => Sample.day 10) Sample.options
              [ Sample.dependency "ghost" npm; Sample.dependency "gopkg" go ])).
  intros a [<-|[<-|[]]]; reflexivity.
Defined.

Lemma exitsWithFailure_iff (thresholdOption : option string)
    (analyses : list DependencyAnalysis.t) (n : Z) :
  parseInt (orString thresholdOption "0") = Int n -> 0 < n ->
  (Scan.exitsWithFailure thresholdOption analyses = true <->
   exists a hs, In a analyses /\ DependencyAnalysis.health a = Some hs /\
                ltNumber (HealthScore.overall hs) (Int n) = true).
Proof.
  intros Hn Hpos. unfold Scan.exitsWithFailure. rewrite Hn.
  cbn [gt]. destruct (Z.ltb_spec 0 n); [|lia].
  rewrite filter_nonempty. unfold Scan.scoredBelow. split.
  - intros [a [Hin X]]. destruct (DependencyAnalysis.health a) as [hs|] eqn:E;
      [|discriminate]. now exists a, hs.
  - intros [a [hs [Hin [E X]]]]. exists a. rewrite E. now split.
Qed.

(** X9. The threshold of a scan: without the option, or with an empty one or
    "0", the scan never exits with a failure; dependencies that could not be
    analysed never make it fail, whatever the threshold; and with a threshold
    that reads as a positive integer it fails exactly when one scored
    dependency has an overall score below it. *)
Theorem threshold_check (thresholdOption : option string)
    (analyses : list DependencyAnalysis.t) :
  (thresholdOption = None \/ thresholdOption = Some "" \/ thresholdOption = Some "0" ->
     Scan.exitsWithFailure thresholdOption analyses = false) /\
  ((forall a, In a analyses -> DependencyAnalysis.health a = None) ->
     Scan.exitsWithFailure thresholdOption analyses = false) /\
  (forall n, parseInt (orString thresholdOption "0") = Int n -> 0 < n ->
     (Scan.exitsWithFailure thresholdOption analyses = true <->
      exists a hs, In a analyses /\ DependencyAnalysis.health a = Some hs /\
                   ltNumber (HealthScore.overall hs) (Int n) = true)).
Proof.
  split; [|split].
  - intros [->|[->| ->]]; reflexivity.
  - intros Hnone. unfold Scan.exitsWithFailure.
    destruct (gt _ 0); [|reflexivity].
    destruct (0 <? _)%nat eqn:X; [|reflexivity].
    apply filter_nonempty in X. destruct X as [a [Hin X]].
    unfold Scan.scoredBelow in X. rewrite (Hnone a Hin) in X. discriminate.
  - intros n Hn Hpos. apply (exitsWithFailure_iff _ _ _ Hn Hpos).
Qed.

Lemma threshold_check_witness :
  Scan.exitsWithFailure (Some "101")
    (Cli.analyzeAll Sample.registry Sample.registry Sample.noRepository
       (fun _ => Sample.day 10) Sample.options Sample.dependencies) = true.
Proof.
  destruct (threshold_check (Some "101")
              (Cli.analyzeAll Sample.registry Sample.registry Sample.noRepository
                 (fun _ => Sample.day 10) Sample.options Sample.dependencies))
    as [_ [_ H]].
  apply (H 101); [reflexivity|lia|].
  eexists. eexists. split; [left; reflexivity|]. split; reflexivity.
Defined.

Example parseInt_samples :
  map parseInt [ "50"; "  50"; "+50"; "-5"; "50abc"; "5.9"; "abc"; ""; "0x10"; "007" ]
  = [ Int 50; Int 50; Int 50; Int (-5); Int 50; Int 5; NaN; NaN; Int 0; Int 7 ].
Proof. vm_compute. reflexivity. Qed.

(** X10. A threshold above 100 makes a scan fail as soon as one dependency
    was scored, since no overall score exceeds 100; a scan none of whose
    dependencies could be analysed passes every threshold. *)
Theorem threshold_above_every_score
    (fetchNpmMetadata fetchPyPIMetadata : string -> Completion PackageMetadata.t)
    (fetchGitHubRepoHealth : string -> option string -> Completion (option GitHubRepoHealth.t))
    (clock : nat -> Z) (options : Cli.Options.t) (dependencies : list Dependency.t)
    (thresholdOption : option string) (n : Z) :
  parseInt (orString thresholdOption "0") = Int n ->
  100 < n ->
  let analyses := Cli.analyzeAll fetchNpmMetadata fetchPyPIMetadata fetchGitHubRepoHealth
                    clock options dependencies in
  Scan.exitsWithFailure thresholdOption analyses = true <->
  exists a, In a analyses /\ Cli.hasError a = false.
Proof.
  intros Hn Hbig. cbv zeta.
  rewrite (exitsWithFailure_iff _ _ _ Hn) by lia.
  pose proof (analyzeFrom_recorded fetchNpmMetadata fetchPyPIMetadata fetchGitHubRepoHealth
                clock options 0%nat dependencies) as H.
  rewrite Forall_forall in H. unfold Cli.analyzeAll. split.
  - intros [a [hs [Hin [E _]]]]. exists a. split; [exact Hin|].
    destruct (recorded_score _ _ (H a Hin)) as [[He _]|[_ [Hh _]]]; [exact He|congruence].
  - intros [a [Hin He]]. pose proof (H a Hin) as Hr.
    inversion Hr as [now md gh hs Hs Ea|message Ea]; [|rewrite <- Ea in He; discriminate].
    destruct (health_overall_range _ _ _ _ Hs) as [o [Ho Hrange]].
    exists a, hs. split; [exact Hin|]. split; [rewrite <- Ea; reflexivity|].
    rewrite Ho. cbn [ltNumber]. apply Z.ltb_lt. lia.
Qed.

Lemma threshold_above_every_score_witness :
  Scan.exitsWithFailure (Some "200")
    (Cli.analyzeAll Sample.registry Sample.registry Sample.noRepository
       (fun _ => Sample.day 10) Sample.options Sample.dependencies) = true.
Proof.
  apply (threshold_above_every_score Sample.registry Sample.registry Sample.noRepository
           (fun _ => Sample.day 10) Sample.options Sample.dependencies (Some "200") 200).
  - reflexivity.
  - lia.
  - eexists. split; [left; reflexivity|reflexivity].
Defined.

(** ** The rows of the table and the JSON report *)

Section Rows.

Variable chalk : Reporter.Style -> string -> string.
Variable ellipsis : ascii.
Variable dash : string.
Variable greenCircle yellowCircle redCircle whiteCircle : string.

Lemma license_unknown_is_null md l :
  calculateLicenseScore md = Normal l ->
  LicenseScore.status l = LicenseScore.unknown -> LicenseScore.license l = None.
Proof.
  intros H Hs. destruct (license_nullable_field md) as [l' [H' Hn]].
  rewrite H in H'. injection H' as <-. now apply Hn.
Qed.

Lemma health_parts now md gh hs :
  calculateHealthScore now md gh = Normal hs ->
  HealthScore.maintainerHealth hs = calculateMaintainerScore md gh /\
  calculateLicenseScore md = Normal (HealthScore.licenseHealth hs).
Proof.
  intros H.
  destruct (calculateFreshnessScore_returns now md gh) as [f Hf].
  destruct (calculateLicenseScore_returns md) as [l Hl].
  rewrite (calculateHealthScore_eq _ _ _ _ _ Hf Hl) in H. injection H as <-.
  split; [reflexivity|exact Hl].
Qed.

Lemma calculateMaintainerScore_status md gh :
  let m := calculateMaintainerScore md gh in
  (MaintainerScore.status m = MaintainerScore.healthy <-> 3 <= MaintainerScore.count m) /\
  (MaintainerScore.status m = MaintainerScore.warning <->
     MaintainerScore.count m = 1 \/ MaintainerScore.count m = 2) /\
  (MaintainerScore.status m = MaintainerScore.critical <-> MaintainerScore.count m <= 0).
Proof.
  cbv zeta. rewrite calculateMaintainerScore_count. unfold calculateMaintainerScore.
  set (count := orNumber _ _).
  destruct (Z.leb_spec 5 count); [simpl; repeat split; intros; try lia; discriminate|].
  destruct (Z.leb_spec 3 count); [simpl; repeat split; intros; try lia; discriminate|].
  destruct (Z.eqb_spec count 2); [simpl; repeat split; intros; try lia; discriminate|].
  destruct (Z.eqb_spec count 1); simpl; repeat split; intros; try lia; discriminate.
Qed.

Lemma maintainers_cell md gh :
  let m := calculateMaintainerScore md gh in
  let count := MaintainerScore.count m in
  let cell :=
    if 3 <=? count then chalk Reporter.green (numberToString (Int count))
    else if 2 <=? count then chalk Reporter.yellow (numberToString (Int count))
    else chalk Reporter.red (numberToString (Int count)) in
  (MaintainerScore.status m = MaintainerScore.healthy ->
     cell = chalk Reporter.green (numberToString (Int count))) /\
  (count = 2 -> cell = chalk Reporter.yellow "2") /\
  (count = 1 ->
     cell = chalk Reporter.red "1" /\ MaintainerScore.status m = MaintainerScore.warning) /\
  (MaintainerScore.status m = MaintainerScore.critical ->
     cell = chalk Reporter.red (numberToString (Int count))).
Proof.
  cbv zeta. destruct (calculateMaintainerScore_status md gh) as [Hh [Hw Hc]].
  set (count := MaintainerScore.count (calculateMaintainerScore md gh)) in *.
  split; [|split; [|split]].
  - intros E. apply Hh in E. destruct (Z.leb_spec 3 count); [reflexivity|lia].
  - intros ->. reflexivity.
  - intros E. split; [rewrite E; reflexivity|]. apply Hw. now left.
  - intros E. apply Hc in E.
    destruct (Z.leb_spec 3 count); [lia|]. destruct (Z.leb_spec 2 count); [lia|reflexivity].
Qed.

(** X11. The row of a dependency that was scored. Its status cell is
    'Healthy', 'Warning' or 'Critical' by the overall score (the gray
    'Unknown' of the default case never shows). Its maintainers cell is green
    exactly under the healthy status, yellow for two maintainers and red
    below, so that a single maintainer is shown in red although the status is
    a warning. A license of unknown status is shown as 'Unknown'. *)
Theorem row_of_a_scored_dependency now md gh hs dep verbose :
  calculateHealthScore now md gh = Normal hs ->
  let a := {| DependencyAnalysis.dependency := dep;
              DependencyAnalysis.metadata := Some md;
              DependencyAnalysis.health := Some hs;
              DependencyAnalysis.error := None |} in
  let maintainerHealth := HealthScore.maintainerHealth hs in
  let count := MaintainerScore.count maintainerHealth in
  exists overall package score lastUpdate maintainers license status,
    HealthScore.overall hs = Int overall /\
    Reporter.formatDependencyRow chalk ellipsis dash greenCircle yellowCircle redCircle
      whiteCircle a verbose
    = [ package; score; lastUpdate; maintainers; license; status ] /\
    (80 <= overall -> status = chalk Reporter.green "Healthy") /\
    (50 <= overall < 80 -> status = chalk Reporter.yellow "Warning") /\
    (overall < 50 -> status = chalk Reporter.red "Critical") /\
    (MaintainerScore.status maintainerHealth = MaintainerScore.healthy ->
       maintainers = chalk Reporter.green (numberToString (Int count))) /\
    (count = 2 -> maintainers = chalk Reporter.yellow "2") /\
    (count = 1 ->
       maintainers = chalk Reporter.red "1" /\
       MaintainerScore.status maintainerHealth = MaintainerScore.warning) /\
    (MaintainerScore.status maintainerHealth = MaintainerScore.critical ->
       maintainers = chalk Reporter.red (numberToString (Int count))) /\
    (LicenseScore.status (HealthScore.licenseHealth hs) = LicenseScore.unknown ->
       license = chalk Reporter.yellow "Unknown").
Proof.
  intros H. cbv zeta.
  destruct (health_overall_range _ _ _ _ H) as [o [Ho Hr]].
  destruct (health_parts _ _ _ _ H) as [Hm Hl].
  pose proof (maintainers_cell md gh) as Hcell. cbv zeta in Hcell. rewrite <- Hm in Hcell.
  assert (Hlicense :
            LicenseScore.status (HealthScore.licenseHealth hs) = LicenseScore.unknown ->
            match LicenseScore.status (HealthScore.licenseHealth hs) with
            | LicenseScore.approved =>
                chalk Reporter.green
                  (Reporter.truncate ellipsis
                     (orString (LicenseScore.license (HealthScore.licenseHealth hs))
                        "Unknown") 13)
            | LicenseScore.deprecated =>
                chalk Reporter.red
                  (Reporter.truncate ellipsis
                     (orString (LicenseScore.license (HealthScore.licenseHealth hs))
                        "Unknown") 13)
            | _ =>
                chalk Reporter.yellow
                  (Reporter.truncate ellipsis
                     (orString (LicenseScore.license (HealthScore.licenseHealth hs))
                        "Unknown") 13)
            end = chalk Reporter.yellow "Unknown").
  { intros Hu. rewrite Hu, (license_unknown_is_null _ _ Hl Hu). reflexivity. }
  exists o. unfold Reporter.formatDependencyRow.
  cbn [DependencyAnalysis.error DependencyAnalysis.health truthyString].
  rewrite Ho. unfold getRiskLevel, ge.
  destruct (Z.leb_spec 80 o); [|destruct (Z.leb_spec 50 o)];
    do 6 eexists; (split; [reflexivity|]); (split; [reflexivity|]);
    (split; [intros; try reflexivity; lia|]);
    (split; [intros; try reflexivity; lia|]);
    (split; [intros; try reflexivity; lia|]);
    (split; [apply Hcell|]); (split; [apply Hcell|]); (split; [apply Hcell|]);
    (split; [apply Hcell|exact Hlicense]).
Qed.

End Rows.

Lemma row_of_a_scored_dependency_witness :
  Reporter.formatDependencyRow (fun _ text => text) "~" "-" "G" "Y" "R" "W"
    {| DependencyAnalysis.dependency := Sample.dependency "left-pad" npm;
       DependencyAnalysis.metadata := Some (Sample.metadata (Some (ValidDate 0)) 1 None);
       DependencyAnalysis.health :=
         Some {| HealthScore.overall := Int 61;
                 HealthScore.freshness :=
                   {| FreshnessScore.score := 100;
                      FreshnessScore.lastUpdate := Some (ValidDate 0);
                      FreshnessScore.daysSinceUpdate := Some (Int 10);
                      FreshnessScore.status := FreshnessScore.active |};
                 HealthScore.maintainerHealth :=
                   {| MaintainerScore.score := 40;
                      MaintainerScore.count := 1;
                      MaintainerScore.status := MaintainerScore.warning |};
                 HealthScore.licenseHealth :=
                   {| LicenseScore.score := 30;
                      LicenseScore.license := None;
                      LicenseScore.status := LicenseScore.unknown |} |};
       DependencyAnalysis.error := None |} false
  = [ "left-pad"; "Y 61"; "10 days ago"; "1"; "Unknown"; "Warning" ].
Proof.
  destruct (row_of_a_scored_dependency (fun _ text => text) "~" "-" "G" "Y" "R" "W"
              (Sample.day 10) (Sample.metadata (Some (ValidDate 0)) 1 None) None _
              (Sample.dependency "left-pad" npm) false eq_refl)
    as [o [package [score [lastUpdate [maintainers [license [status [_ [Hrow _]]]]]]]]].
  vm_compute in Hrow |- *. reflexivity.
Defined.

Section JsonReport.

Variable isoString : Z -> string.

Lemma isoOrNull_cases (date : option Date) :
  (date = Some InvalidDate /\
   Reporter.isoOrNull isoString date = Throw "Invalid time value") \/
  (date <> Some InvalidDate /\ exists iso, Reporter.isoOrNull isoString date = Normal iso).
Proof.
  destruct date as [[t|]|].
  - right. split; [discriminate|]. simpl. eexists; reflexivity.
  - left. split; reflexivity.
  - right. split; [discriminate|]. simpl. eexists; reflexivity.
Qed.

Lemma jsonDependency_cases (a : DependencyAnalysis.t) :
  (Stated.hasInvalidDate a /\
   Reporter.jsonDependency isoString a = Throw "Invalid time value") \/
  (~ Stated.hasInvalidDate a /\
   exists json, Reporter.jsonDependency isoString a = Normal json /\
                Reporter.analysis json = a).
Proof.
  unfold Reporter.jsonDependency, Stated.hasInvalidDate.
  destruct (DependencyAnalysis.metadata a) as [md|].
  - destruct (isoOrNull_cases (PackageMetadata.lastPublished md)) as [[E ->]|[N [iso ->]]].
    + left. split; [|reflexivity]. left. now exists md.
    + cbn [Js.bind]. destruct (DependencyAnalysis.health a) as [hs|].
      * destruct (isoOrNull_cases (FreshnessScore.lastUpdate (HealthScore.freshness hs)))
          as [[E ->]|[N' [iso' ->]]].
        -- left. split; [|reflexivity]. right. now exists hs.
        -- right. split; [|eexists; split; reflexivity].
           intros [[md' [Em Ed]]|[hs' [Eh Ed]]].
           ++ injection Em as <-. contradiction.
           ++ injection Eh as <-. contradiction.
      * right. split; [|eexists; split; reflexivity].
        intros [[md' [Em Ed]]|[hs' [Eh Ed]]]; [|discriminate].
        injection Em as <-. contradiction.
  - cbn [Js.bind]. destruct (DependencyAnalysis.health a) as [hs|].
    + destruct (isoOrNull_cases (FreshnessScore.lastUpdate (HealthScore.freshness hs)))
        as [[E ->]|[N' [iso' ->]]].
      * left. split; [|reflexivity]. right. now exists hs.
      * right. split; [|eexists; split; reflexivity].
        intros [[md' [Em Ed]]|[hs' [Eh Ed]]]; [discriminate|].
        injection Eh as <-. contradiction.
    + right. split; [|eexists; split; reflexivity].
      intros [[md' [Em Ed]]|[hs' [Eh Ed]]]; discriminate.
Qed.

Lemma jsonDependencies_cases (dependencies : list DependencyAnalysis.t) :
  (Exists Stated.hasInvalidDate dependencies /\
   Reporter.jsonDependencies isoString dependencies = Throw "Invalid time value") \/
  (~ Exists Stated.hasInvalidDate dependencies /\
   exists json, Reporter.jsonDependencies isoString dependencies = Normal json /\
                map Reporter.analysis json = dependencies).
Proof.
  induction dependencies as [|a rest IH].
  - right. split; [intros H; inversion H|]. exists []. split; reflexivity.
  - cbn [Reporter.jsonDependencies].
    destruct (jsonDependency_cases a) as [[Ha ->]|[Na [json [-> Ea]]]].
    + left. split; [now left|reflexivity].
    + cbn [Js.bind]. destruct IH as [[Hr ->]|[Nr [others [-> Eo]]]].
      * left. split; [now right|reflexivity].
      * right. split.
        -- intros H. inversion H; contradiction.
        -- exists (json :: others). split; [reflexivity|]. simpl. now rewrite Ea, Eo.
Qed.


End JsonReport.

(** X13. A package whose registry metadata carries an invalid publication
    date is scored all the same, whatever the repository health, and the
    analysis that holds its metadata makes the JSON report throw. *)
Theorem invalid_publication_date_breaks_json (isoString : Z -> string)
    (now scannedAt : Z) (md : PackageMetadata.t) (gh : option GitHubRepoHealth.t)
    (dep : Dependency.t) (before after : list DependencyAnalysis.t) :
  PackageMetadata.lastPublished md = Some InvalidDate ->
  exists hs,
    calculateHealthScore now md gh = Normal hs /\
    Reporter.printJsonReport isoString (ValidDate scannedAt)
      (before ++ {| DependencyAnalysis.dependency := dep;
                    DependencyAnalysis.metadata := Some md;
                    DependencyAnalysis.health := Some hs;
                    DependencyAnalysis.error := None |} :: after)
    = Throw "Invalid time value".
Proof.
  intros Hd. destruct (calculateHealthScore_values now md gh) as [hs [H _]].
  exists hs. split; [exact H|].
  unfold Reporter.printJsonReport. cbn [Reporter.toISOString Js.bind].
  match goal with
  | |- context [Reporter.jsonDependencies isoString ?l] =>
      destruct (jsonDependencies_cases isoString l) as [[_ ->]|[Ne _]]
  end; [reflexivity|].
  exfalso. apply Ne. apply Exists_exists. eexists. split.
  - apply in_elt.
  - left. eexists. split; [reflexivity|exact Hd].
Qed.

Lemma invalid_publication_date_breaks_json_witness :
  exists hs,
    calculateHealthScore (Sample.day 10) (Sample.metadata (Some InvalidDate) 1 None) None
      = Normal hs /\
    Reporter.printJsonReport (fun _ => "2023-11-14T22:13:20.000Z")
      (ValidDate Sample.today)
      ([] ++ {| DependencyAnalysis.dependency := Sample.dependency "left-pad" npm;
                DependencyAnalysis.metadata := Some (Sample.metadata (Some InvalidDate) 1 None);
                DependencyAnalysis.health := Some hs;
                DependencyAnalysis.error := None |} :: [])
    = Throw "Invalid time value".
Proof.
  apply (invalid_publication_date_breaks_json (fun _ => "2023-11-14T22:13:20.000Z")
           (Sample.day 10) Sample.today (Sample.metadata (Some InvalidDate) 1 None) None
           (Sample.dependency "left-pad" npm) [] []).
  reflexivity.
Defined.

(** ** Repository URLs *)

Lemma append_empty (s : string) : s ++ "" = s.
Proof. induction s; simpl; congruence. Qed.

Lemma append_assoc (s t u : string) : (s ++ t) ++ u = s ++ (t ++ u).
Proof. induction s; simpl; congruence. Qed.

Lemma span_all (p : ascii -> bool) (s : string) :
  Stated.allChars p s -> span p s = (s, "").
Proof.
  intros H. rewrite <- (append_empty s) at 1.
  apply span_append; [exact H|]. intros c r E. discriminate.
Qed.

Lemma span_spec (p : ascii -> bool) (s : string) :
  s = fst (span p s) ++ snd (span p s) /\
  Stated.allChars p (fst (span p s)) /\
  Stated.headNot p (snd (span p s)).
Proof.
  induction s as [|c s [IH1 [IH2 IH3]]].
  - repeat split; intros c; simpl; try tauto. intros r E. discriminate.
  - simpl. destruct (p c) eqn:E.
    + destruct (span p s) as [taken rest]. simpl in *. split; [congruence|]. split.
      * intros d [<-|Hd]; [exact E|now apply IH2].
      * exact IH3.
    + simpl. split; [reflexivity|]. split.
      * intros d [].
      * intros d r H. injection H as <- _. exact E.
Qed.

Lemma afterPrefix_some (literal s rest : string) :
  afterPrefix literal s = Some rest <-> s = literal ++ rest.
Proof.
  revert s. induction literal as [|a literal IH]; intros s; simpl.
  - split; congruence.
  - destruct s as [|b s]; [split; discriminate|].
    destruct (Ascii.eqb_spec a b) as [->|N].
    + rewrite IH. split; congruence.
    + split; [discriminate|]. intros H. injection H as <- _. contradiction.
Qed.

Lemma removeSuffix_repo (s : string) :
  Stated.allChars GitHubUrl.isRepoChar s -> removeSuffix ".git" s = s.
Proof.
  induction s as [|c s IH]; intros H; [reflexivity|].
  cbn [removeSuffix].
  assert (Hc : GitHubUrl.isRepoChar c = true) by (apply H; simpl; now left).
  assert (E : String.eqb (String c s) ".git" = false).
  { simpl. unfold GitHubUrl.isRepoChar in Hc.
    destruct (Ascii.eqb c "."); [|reflexivity].
    rewrite andb_false_r in Hc. discriminate. }
  rewrite E, IH; [reflexivity|]. intros d Hd. apply H. simpl. now right.
Qed.

Lemma removeSuffix_append (literal s : string) :
  literal <> "" -> removeSuffix literal (s ++ literal) = s.
Proof.
  intros Hl. induction s as [|c s IH].
  - simpl. destruct literal as [|a l]; [contradiction|].
    cbn [removeSuffix]. now rewrite String.eqb_refl.
  - cbn [append removeSuffix].
    destruct (String.eqb_spec (String c (s ++ literal)) literal) as [E|_].
    + exfalso. apply (f_equal String.length) in E. simpl in E.
      rewrite length_append in E. lia.
    + now rewrite IH.
Qed.

Lemma replaceFirst_absent (literal replacement s : string) (marker : ascii) :
  In marker (list_ascii_of_string literal) ->
  ~ In marker (list_ascii_of_string s) ->
  replaceFirst literal replacement s = s.
Proof.
  intros Hm. induction s as [|c s IH]; intros Hs.
  - simpl. destruct (afterPrefix literal "") as [rest|] eqn:E; [|reflexivity].
    apply afterPrefix_some in E. destruct literal; [destruct Hm|discriminate].
  - cbn [replaceFirst]. destruct (afterPrefix literal (String c s)) as [rest|] eqn:E.
    + exfalso. apply afterPrefix_some in E. apply Hs. rewrite E.
      clear - Hm. induction literal as [|a l IH]; [destruct Hm|].
      simpl in *. destruct Hm as [->|Hm]; [now left|right; now apply IH].
    + rewrite IH; [reflexivity|]. intros H. apply Hs. simpl. now right.
Qed.

Lemma matchHere_spec (s group1 group2 : string) :
  GitHubUrl.matchHere s = Some (group1, group2) ->
  exists separator after,
    s = "github.com" ++ String separator (group1 ++ "/" ++ group2 ++ after) /\
    (separator = "/"%char \/ separator = ":"%char) /\
    group1 <> "" /\ Stated.allChars GitHubUrl.notSlash group1 /\
    group2 <> "" /\ Stated.allChars GitHubUrl.isRepoChar group2 /\
    Stated.headNot GitHubUrl.isRepoChar after.
Proof.
  unfold GitHubUrl.matchHere.
  destruct (afterPrefix "github.com" s) as [[|separator rest]|] eqn:E; try discriminate.
  apply afterPrefix_some in E.
  destruct (GitHubUrl.isSlash separator || Ascii.eqb separator ":") eqn:Hsep;
    [|discriminate].
  destruct (span_spec GitHubUrl.notSlash rest) as [D1 [A1 N1]].
  destruct (span GitHubUrl.notSlash rest) as [g1 rest1]. simpl in D1, A1, N1.
  destruct g1 as [|c1 g1]; [discriminate|].
  destruct rest1 as [|slash rest2]; [discriminate|].
  destruct (span_spec GitHubUrl.isRepoChar rest2) as [D2 [A2 N2]].
  destruct (span GitHubUrl.isRepoChar rest2) as [g2 after]. simpl in D2, A2, N2.
  destruct g2 as [|c2 g2]; [discriminate|].
  intros H. injection H as <- <-.
  assert (Hslash : slash = "/"%char).
  { pose proof (N1 slash rest2 eq_refl) as X. unfold GitHubUrl.notSlash, GitHubUrl.isSlash in X.
    destruct (Ascii.eqb_spec slash "/"); [assumption|discriminate]. }
  exists separator, after. split.
  - rewrite E, D1, D2, Hslash. reflexivity.
  - split.
    + apply orb_true_iff in Hsep. unfold GitHubUrl.isSlash in Hsep.
      destruct Hsep as [X|X]; apply Ascii.eqb_eq in X; tauto.
    + repeat split; try discriminate; assumption.
Qed.

Lemma firstMatch_spec (url group1 group2 : string) :
  GitHubUrl.firstMatch url = Some (group1, group2) ->
  exists before s, url = before ++ s /\ GitHubUrl.matchHere s = Some (group1, group2).
Proof.
  induction url as [|c url IH]; cbn [GitHubUrl.firstMatch].
  - destruct (GitHubUrl.matchHere "") as [g|] eqn:E; [|discriminate].
    intros H. injection H as ->. now exists "", "".
  - destruct (GitHubUrl.matchHere (String c url)) as [g|] eqn:E.
    + intros H. injection H as ->. now exists "", (String c url).
    + intros H. destruct (IH H) as [before [s [-> Hs]]].
      now exists (String c before), s.
Qed.

(** X14. What [parseGitHubUrl] returns was read in the URL after
    "github.com/" or "github.com:", as owner, slash and repository. The owner
    is not empty and holds no slash. The repository is not empty and holds no
    slash, no dot and no white space: it ends at the first dot, so that the
    removal of a final ".git" never changes it and a repository name with a
    dot is cut at the dot. *)
Theorem parsed_repository_url (url : string) (parsed : GitHubUrl.t) :
  GitHubUrl.parseGitHubUrl url = Some parsed ->
  let owner := GitHubUrl.owner parsed in
  let repo := GitHubUrl.repo parsed in
  (exists before separator after,
     url = before ++ "github.com" ++ String separator (owner ++ "/" ++ repo ++ after) /\
     (separator = "/"%char \/ separator = ":"%char) /\
     Stated.headNot GitHubUrl.isRepoChar after) /\
  owner <> "" /\ Stated.allChars GitHubUrl.notSlash owner /\
  repo <> "" /\ Stated.allChars GitHubUrl.isRepoChar repo.
Proof.
  unfold GitHubUrl.parseGitHubUrl.
  destruct (GitHubUrl.firstMatch url) as [[g1 g2]|] eqn:E; [|discriminate].
  intros H. injection H as <-. cbv zeta. cbn [GitHubUrl.owner GitHubUrl.repo].
  destruct (firstMatch_spec _ _ _ E) as [before [s [-> Hs]]].
  destruct (matchHere_spec _ _ _ Hs) as [separator [after [-> [Hsep [N1 [A1 [N2 [A2 Ha]]]]]]]].
  rewrite (removeSuffix_repo _ A2).
  split; [|repeat split; assumption].
  exists before, separator, after. repeat split; assumption.
Qed.

Lemma parsed_repository_url_witness :
  GitHubUrl.parseGitHubUrl "https://github.com/socketio/socket.io.git"
    = Some {| GitHubUrl.owner := "socketio"; GitHubUrl.repo := "socket" |} /\
  Stated.allChars GitHubUrl.isRepoChar "socket".
Proof.
  split; [reflexivity|].
  apply (parsed_repository_url "https://github.com/socketio/socket.io.git"
           {| GitHubUrl.owner := "socketio"; GitHubUrl.repo := "socket" |} eq_refl).
Defined.

Lemma matchHere_found (separator : ascii) (owner repo after : string) :
  separator = "/"%char \/ separator = ":"%char ->
  owner <> "" -> Stated.allChars GitHubUrl.notSlash owner ->
  repo <> "" -> Stated.allChars GitHubUrl.isRepoChar repo ->
  Stated.headNot GitHubUrl.isRepoChar after ->
  GitHubUrl.matchHere ("github.com" ++ String separator (owner ++ "/" ++ repo ++ after))
  = Some (owner, repo).
Proof.
  intros Hsep No Ao Nr Ar Ha. unfold GitHubUrl.matchHere.
  assert (E : afterPrefix "github.com"
                ("github.com" ++ String separator (owner ++ "/" ++ repo ++ after))
              = Some (String separator (owner ++ "/" ++ repo ++ after)))
    by (now apply afterPrefix_some).
  rewrite E.
  assert (S : GitHubUrl.isSlash separator || Ascii.eqb separator ":" = true)
    by (destruct Hsep as [->| ->]; reflexivity).
  rewrite S.
  rewrite (span_append GitHubUrl.notSlash owner ("/" ++ repo ++ after) Ao)
    by (intros c r X; injection X as <- _; reflexivity).
  destruct owner as [|o owner]; [contradiction|].
  cbn [append].
  rewrite (span_append GitHubUrl.isRepoChar repo after Ar Ha).
  destruct repo as [|r repo]; [contradiction|]. reflexivity.
Qed.

(** X15. A URL "https://github.com/<owner>/<repo>", followed by nothing or
    by something that begins with a slash, a dot or a white space (a path, a
    ".git"), parses to its owner and repository, when the owner is not empty
    and holds no slash and the repository is not empty and holds no slash, dot
    or white space. *)
Theorem parseGitHubUrl_https (owner repo after : string) :
  owner <> "" -> Stated.allChars GitHubUrl.notSlash owner ->
  repo <> "" -> Stated.allChars GitHubUrl.isRepoChar repo ->
  Stated.headNot GitHubUrl.isRepoChar after ->
  GitHubUrl.parseGitHubUrl ("https://github.com/" ++ owner ++ "/" ++ repo ++ after)
  = Some {| GitHubUrl.owner := owner; GitHubUrl.repo := repo |}.
Proof.
  intros No Ao Nr Ar Ha. unfold GitHubUrl.parseGitHubUrl.
  assert (E : GitHubUrl.firstMatch ("https://github.com/" ++ owner ++ "/" ++ repo ++ after)
              = Some (owner, repo)).
  { change ("https://github.com/" ++ owner ++ "/" ++ repo ++ after)
      with ("https://" ++ ("github.com" ++ String "/" (owner ++ "/" ++ repo ++ after))).
    pose proof (matchHere_found "/" owner repo after (or_introl eq_refl) No Ao Nr Ar Ha) as M.
    set (s := "github.com" ++ String "/" (owner ++ "/" ++ repo ++ after)) in *.
    cbn [append GitHubUrl.firstMatch GitHubUrl.matchHere afterPrefix Ascii.eqb Bool.eqb].
    destruct s; [discriminate M|].
    cbn [GitHubUrl.firstMatch]. now rewrite M. }
  rewrite E, (removeSuffix_repo _ Ar). reflexivity.
Qed.

Lemma parseGitHubUrl_https_witness :
  GitHubUrl.parseGitHubUrl ("https://github.com/" ++ "expressjs" ++ "/" ++ "express" ++ "/issues")
  = Some {| GitHubUrl.owner := "expressjs"; GitHubUrl.repo := "express" |}.
Proof.
  apply (parseGitHubUrl_https "expressjs" "express" "/issues").
  - discriminate.
  - intros c H. simpl in H.
    repeat (destruct H as [<-|H]; [reflexivity|]). destruct H.
  - discriminate.
  - intros c H. simpl in H.
    repeat (destruct H as [<-|H]; [reflexivity|]). destruct H.
  - intros c r H. injection H as <- _. reflexivity.
Defined.

Lemma nameChar_classes (c : ascii) :
  Stated.isNameChar c = true ->
  GitHubUrl.notSlash c = true /\ GitHubUrl.isRepoChar c = true /\ c <> "@"%char.
Proof.
  destruct c as [[|] [|] [|] [|] [|] [|] [|] [|]]; vm_compute; intros H;
    try discriminate H; repeat split; discriminate.
Qed.

Lemma in_append_chars (c : ascii) (s t : string) :
  In c (list_ascii_of_string (s ++ t)) <->
  In c (list_ascii_of_string s) \/ In c (list_ascii_of_string t).
Proof.
  induction s as [|a s IH]; simpl; [tauto|]. rewrite IH. tauto.
Qed.

Lemma cleaned_url_has_no_at (owner repo : string) :
  Stated.allChars Stated.isNameChar owner ->
  Stated.allChars Stated.isNameChar repo ->
  ~ In "@"%char (list_ascii_of_string ("https://github.com/" ++ owner ++ "/" ++ repo)).
Proof.
  intros Ao Ar H.
  apply in_append_chars in H. destruct H as [H|H].
  - simpl in H. repeat (destruct H as [H|H]; [discriminate H|]). destruct H.
  - apply in_append_chars in H. destruct H as [H|H].
    + now destruct (nameChar_classes _ (Ao _ H)) as [_ [_ N]].
    + simpl in H. destruct H as [H|H]; [discriminate H|].
      now destruct (nameChar_classes _ (Ar _ H)) as [_ [_ N]].
Qed.

Lemma removeSuffix_cons (c : ascii) (s : string) :
  String.eqb (String c s) ".git" = false ->
  removeSuffix ".git" (String c s) = String c (removeSuffix ".git" s).
Proof. intros E. cbn [removeSuffix]. now rewrite E. Qed.

Lemma removeSuffix_without_dot (s : string) :
  ~ In "."%char (list_ascii_of_string s) -> removeSuffix ".git" s = s.
Proof.
  induction s as [|c s IH]; intros H; [reflexivity|].
  rewrite removeSuffix_cons.
  - rewrite IH; [reflexivity|]. intros X. apply H. simpl. now right.
  - simpl. destruct (Ascii.eqb_spec c "."); [|reflexivity].
    exfalso. apply H. simpl. now left.
Qed.

Lemma cleanGitUrl_forms (owner repo url : string) :
  Stated.allChars Stated.isNameChar owner ->
  Stated.allChars Stated.isNameChar repo ->
  In url (Stated.npmRepositoryUrls owner repo) ->
  GitHubUrl.cleanGitUrl url = "https://github.com/" ++ owner ++ "/" ++ repo.
Proof.
  intros Ao Ar Hin.
  pose proof (cleaned_url_has_no_at owner repo Ao Ar) as Hat.
  assert (Hclean : replaceFirst "git@github.com:" "https://github.com/"
                     ("https://github.com/" ++ owner ++ "/" ++ repo)
                   = "https://github.com/" ++ owner ++ "/" ++ repo).
  { apply (replaceFirst_absent _ _ _ "@"%char); [|exact Hat].
    simpl. tauto. }
  assert (Hsuffix : forall front,
            removeSuffix ".git" (front ++ owner ++ "/" ++ repo ++ ".git")
            = front ++ owner ++ "/" ++ repo).
  { intros front.
    replace (front ++ owner ++ "/" ++ repo ++ ".git")
      with ((front ++ owner ++ "/" ++ repo) ++ ".git")
      by (rewrite !append_assoc; reflexivity).
    apply removeSuffix_append. discriminate. }
  assert (Hplain : removeSuffix ".git" ("https://github.com/" ++ owner ++ "/" ++ repo)
                   = "https://github.com/" ++ owner ++ "/" ++ repo).
  { cbn [append].
    repeat (rewrite removeSuffix_cons by reflexivity).
    rewrite removeSuffix_without_dot; [reflexivity|].
    intros H. apply in_append_chars in H. destruct H as [H|H].
    - pose proof (Ao _ H) as X. discriminate X.
    - simpl in H. destruct H as [H|H]; [discriminate H|].
      pose proof (Ar _ H) as X. discriminate X. }
  unfold Stated.npmRepositoryUrls in Hin.
  destruct Hin as [<-|[<-|[<-|[<-|[<-|[<-|[]]]]]]]; unfold GitHubUrl.cleanGitUrl.
  - change (replacePrefix "git+" "" ("git+https://github.com/" ++ owner ++ "/" ++ repo ++ ".git"))
      with ("https://github.com/" ++ owner ++ "/" ++ repo ++ ".git").
    change (replacePrefix "git://" "https://"
              ("https://github.com/" ++ owner ++ "/" ++ repo ++ ".git"))
      with ("https://github.com/" ++ owner ++ "/" ++ repo ++ ".git").
    change (replacePrefix "ssh://git@" "https://"
              ("https://github.com/" ++ owner ++ "/" ++ repo ++ ".git"))
      with ("https://github.com/" ++ owner ++ "/" ++ repo ++ ".git").
    now rewrite Hsuffix.
  - change (replacePrefix "git+" "" ("git://github.com/" ++ owner ++ "/" ++ repo ++ ".git"))
      with ("git://github.com/" ++ owner ++ "/" ++ repo ++ ".git").
    change (replacePrefix "git://" "https://"
              ("git://github.com/" ++ owner ++ "/" ++ repo ++ ".git"))
      with ("https://github.com/" ++ owner ++ "/" ++ repo ++ ".git").
    change (replacePrefix "ssh://git@" "https://"
              ("https://github.com/" ++ owner ++ "/" ++ repo ++ ".git"))
      with ("https://github.com/" ++ owner ++ "/" ++ repo ++ ".git").
    now rewrite Hsuffix.
  - change (replacePrefix "git+" ""
              ("git+ssh://git@github.com/" ++ owner ++ "/" ++ repo ++ ".git"))
      with ("ssh://git@github.com/" ++ owner ++ "/" ++ repo ++ ".git").
    change (replacePrefix "git://" "https://"
              ("ssh://git@github.com/" ++ owner ++ "/" ++ repo ++ ".git"))
      with ("ssh://git@github.com/" ++ owner ++ "/" ++ repo ++ ".git").
    change (replacePrefix "ssh://git@" "https://"
              ("ssh://git@github.com/" ++ owner ++ "/" ++ repo ++ ".git"))
      with ("https://github.com/" ++ owner ++ "/" ++ repo ++ ".git").
    now rewrite Hsuffix.
  - change (replacePrefix "git+" "" ("git@github.com:" ++ owner ++ "/" ++ repo ++ ".git"))
      with ("git@github.com:" ++ owner ++ "/" ++ repo ++ ".git").
    change (replacePrefix "git://" "https://"
              ("git@github.com:" ++ owner ++ "/" ++ repo ++ ".git"))
      with ("git@github.com:" ++ owner ++ "/" ++ repo ++ ".git").
    change (replacePrefix "ssh://git@" "https://"
              ("git@github.com:" ++ owner ++ "/" ++ repo ++ ".git"))
      with ("git@github.com:" ++ owner ++ "/" ++ repo ++ ".git").
    rewrite Hsuffix.
    destruct owner; reflexivity.
  - change (replacePrefix "git+" "" ("https://github.com/" ++ owner ++ "/" ++ repo ++ ".git"))
      with ("https://github.com/" ++ owner ++ "/" ++ repo ++ ".git").
    change (replacePrefix "git://" "https://"
              ("https://github.com/" ++ owner ++ "/" ++ repo ++ ".git"))
      with ("https://github.com/" ++ owner ++ "/" ++ repo ++ ".git").
    change (replacePrefix "ssh://git@" "https://"
              ("https://github.com/" ++ owner ++ "/" ++ repo ++ ".git"))
      with ("https://github.com/" ++ owner ++ "/" ++ repo ++ ".git").
    now rewrite Hsuffix.
  - change (replacePrefix "git+" "" ("https://github.com/" ++ owner ++ "/" ++ repo))
      with ("https://github.com/" ++ owner ++ "/" ++ repo).
    change (replacePrefix "git://" "https://" ("https://github.com/" ++ owner ++ "/" ++ repo))
      with ("https://github.com/" ++ owner ++ "/" ++ repo).
    change (replacePrefix "ssh://git@" "https://"
              ("https://github.com/" ++ owner ++ "/" ++ repo))
      with ("https://github.com/" ++ owner ++ "/" ++ repo).
    now rewrite Hplain.
Qed.

Lemma nameChars_not_slash (s : string) :
  Stated.allChars Stated.isNameChar s -> Stated.allChars GitHubUrl.notSlash s.
Proof. intros H c Hc. now destruct (nameChar_classes _ (H c Hc)). Qed.

Lemma nameChars_repo (s : string) :
  Stated.allChars Stated.isNameChar s -> Stated.allChars GitHubUrl.isRepoChar s.
Proof. intros H c Hc. now destruct (nameChar_classes _ (H c Hc)) as [_ [X _]]. Qed.

(** X16. The forms under which the npm registry writes the repository of a
    package of GitHub (git+https, git, git+ssh, the scp-like git@github.com:
    form, https with or without ".git") are all cleaned to
    "https://github.com/<owner>/<repo>", which parses to that owner and that
    repository, for an owner and a repository made of letters, digits,
    hyphens and underscores. *)
Theorem npm_repository_urls (owner repo url : string) :
  owner <> "" -> Stated.allChars Stated.isNameChar owner ->
  repo <> "" -> Stated.allChars Stated.isNameChar repo ->
  In url (Stated.npmRepositoryUrls owner repo) ->
  GitHubUrl.cleanGitUrl url = "https://github.com/" ++ owner ++ "/" ++ repo /\
  GitHubUrl.parseGitHubUrl (GitHubUrl.cleanGitUrl url)
  = Some {| GitHubUrl.owner := owner; GitHubUrl.repo := repo |}.
Proof.
  intros No Ao Nr Ar Hin.
  rewrite (cleanGitUrl_forms owner repo url Ao Ar Hin). split; [reflexivity|].
  rewrite <- (append_empty repo) at 1.
  pose proof (matchHere_found "/" owner repo "" (or_introl eq_refl) No
                (nameChars_not_slash _ Ao) Nr (nameChars_repo _ Ar)) as M.
  assert (Hend : Stated.headNot GitHubUrl.isRepoChar "") by (intros c r X; discriminate X).
  specialize (M Hend).
  unfold GitHubUrl.parseGitHubUrl.
  assert (E : GitHubUrl.firstMatch ("https://github.com/" ++ owner ++ "/" ++ repo ++ "")
              = Some (owner, repo)).
  { change ("https://github.com/" ++ owner ++ "/" ++ repo ++ "")
      with ("https://" ++ ("github.com" ++ String "/" (owner ++ "/" ++ repo ++ ""))).
    set (s := "github.com" ++ String "/" (owner ++ "/" ++ repo ++ "")) in *.
    cbn [append GitHubUrl.firstMatch GitHubUrl.matchHere afterPrefix Ascii.eqb Bool.eqb].
    destruct s; [discriminate M|].
    cbn [GitHubUrl.firstMatch]. now rewrite M. }
  rewrite E, (removeSuffix_repo _ (nameChars_repo _ Ar)). reflexivity.
Qed.

Lemma npm_repository_urls_witness :
  GitHubUrl.cleanGitUrl "git+ssh://git@github.com/lodash/lodash.git"
    = "https://github.com/lodash/lodash" /\
  GitHubUrl.parseGitHubUrl (GitHubUrl.cleanGitUrl "git+ssh://git@github.com/lodash/lodash.git")
    = Some {| GitHubUrl.owner := "lodash"; GitHubUrl.repo := "lodash" |}.
Proof.
  apply (npm_repository_urls "lodash" "lodash" "git+ssh://git@github.com/lodash/lodash.git").
  - discriminate.
  - intros c H. simpl in H. repeat (destruct H as [<-|H]; [reflexivity|]). destruct H.
  - discriminate.
  - intros c H. simpl in H. repeat (destruct H as [<-|H]; [reflexivity|]). destruct H.
  - simpl. tauto.
Defined.

(** ** requirements.txt *)

Example requirement_lines :
  map RequirementsTxt.parseRequirementLine
      [ "requests"; "requests==2.31.0"; "django>=4.0,<5.0"; "uvicorn[standard]==0.23.2";
        "flask~=2.3.0  # web"; "numpy>=1.20; python_version >= '3.8'"; "zope.interface==5.0";
        "black == 23.1.0"; "# only a comment"; "?"; "pkg @ file.whl" ]
  = [ Some {| RequirementsTxt.name := "requests"; RequirementsTxt.version := "*" |};
      Some {| RequirementsTxt.name := "requests"; RequirementsTxt.version := "2.31.0" |};
      Some {| RequirementsTxt.name := "django"; RequirementsTxt.version := "4.0" |};
      Some {| RequirementsTxt.name := "uvicorn"; RequirementsTxt.version := "0.23.2" |};
      Some {| RequirementsTxt.name := "flask"; RequirementsTxt.version := "2.3.0" |};
      Some {| RequirementsTxt.name := "numpy"; RequirementsTxt.version := "1.20" |};
      Some {| RequirementsTxt.name := "zope"; RequirementsTxt.version := "5.0" |};
      Some {| RequirementsTxt.name := "black"; RequirementsTxt.version := "23.1.0" |};
      None; None;
      Some {| RequirementsTxt.name := "pkg"; RequirementsTxt.version := "*" |} ].
Proof. vm_compute. reflexivity. Qed.

Lemma isEmpty_false (s : string) : isEmpty s = false <-> s <> "".
Proof. destruct s; simpl; split; congruence. Qed.

Lemma matchRequirement_spec (line group1 group2 : string) :
  RequirementsTxt.matchRequirement line = Some (group1, group2) ->
  group1 <> "" /\ Stated.allChars RequirementsTxt.isNameChar group1 /\
  exists rest, line = group1 ++ rest /\ Stated.headNot RequirementsTxt.isNameChar rest.
Proof.
  unfold RequirementsTxt.matchRequirement.
  destruct (span_spec RequirementsTxt.isNameChar line) as [D [A N]].
  destruct (span RequirementsTxt.isNameChar line) as [g1 rest]. simpl in D, A, N.
  destruct (isEmpty g1) eqn:E; [discriminate|].
  destruct (RequirementsTxt.hasLineTerminator _); [discriminate|].
  intros H. injection H as <- <-.
  split; [now apply isEmpty_false|]. split; [exact A|]. now exists rest.
Qed.

Lemma matchVersionHere_spec (s version : string) :
  RequirementsTxt.matchVersionHere s = Some version ->
  exists digit rest,
    version = String digit rest /\ isDigit digit = true /\
    Stated.allChars RequirementsTxt.isVersionChar rest.
Proof.
  unfold RequirementsTxt.matchVersionHere.
  destruct (span RequirementsTxt.isOperatorChar s) as [operators rest].
  destruct (isEmpty operators); [discriminate|].
  destruct (trimStart rest) as [|digit r]; [discriminate|].
  destruct (isDigit digit) eqn:E; [|discriminate].
  intros H. injection H as <-.
  exists digit, (fst (span RequirementsTxt.isVersionChar r)).
  split; [reflexivity|]. split; [exact E|].
  now destruct (span_spec RequirementsTxt.isVersionChar r) as [_ [A _]].
Qed.

Lemma firstVersion_spec (s version : string) :
  RequirementsTxt.firstVersion s = Some version ->
  exists digit rest,
    version = String digit rest /\ isDigit digit = true /\
    Stated.allChars RequirementsTxt.isVersionChar rest.
Proof.
  induction s as [|c s IH]; cbn [RequirementsTxt.firstVersion].
  - destruct (RequirementsTxt.matchVersionHere "") eqn:E; [|discriminate].
    intros H. injection H as <-. now apply matchVersionHere_spec in E.
  - destruct (RequirementsTxt.matchVersionHere (String c s)) eqn:E.
    + intros H. injection H as <-. now apply matchVersionHere_spec in E.
    + exact IH.
Qed.

Lemma parseRequirementLine_spec (line : string) (parsed : RequirementsTxt.ParsedRequirement) :
  RequirementsTxt.parseRequirementLine line = Some parsed ->
  RequirementsTxt.name parsed <> "" /\
  Stated.allChars RequirementsTxt.isNameChar (RequirementsTxt.name parsed) /\
  Stated.isVersion (RequirementsTxt.version parsed) /\
  exists rest,
    RequirementsTxt.cutAt ";" (RequirementsTxt.cutAt "#" line)
      = RequirementsTxt.name parsed ++ rest /\
    Stated.headNot RequirementsTxt.isNameChar rest.
Proof.
  unfold RequirementsTxt.parseRequirementLine.
  destruct (isEmpty (RequirementsTxt.cutAt "#" line)); [discriminate|].
  destruct (RequirementsTxt.matchRequirement _) as [[g1 g2]|] eqn:M; [|discriminate].
  intros H. injection H as <-. cbn [RequirementsTxt.name RequirementsTxt.version].
  destruct (matchRequirement_spec _ _ _ M) as [N [A R]].
  split; [exact N|]. split; [exact A|]. split; [|exact R].
  destruct (isEmpty g2); [now left|].
  destruct (RequirementsTxt.firstVersion g2) as [v|] eqn:V; [|now left].
  right. exact (firstVersion_spec _ _ V).
Qed.

(** X17. What the parser of a requirement line returns: a name that is not
    empty and is the longest run of letters, digits, hyphens and underscores
    at the head of the line (once its comment and its environment marker are
    cut), so that a name with a dot is cut at the dot; and for version "*"
    or a digit followed by characters of versions. *)
Theorem parsed_requirement (line : string) (parsed : RequirementsTxt.ParsedRequirement) :
  RequirementsTxt.parseRequirementLine line = Some parsed ->
  let name := RequirementsTxt.name parsed in
  name <> "" /\
  Stated.allChars RequirementsTxt.isNameChar name /\
  Stated.isVersion (RequirementsTxt.version parsed) /\
  exists rest,
    RequirementsTxt.cutAt ";" (RequirementsTxt.cutAt "#" line) = name ++ rest /\
    Stated.headNot RequirementsTxt.isNameChar rest.
Proof. intros H. cbv zeta. exact (parseRequirementLine_spec line parsed H). Qed.

Lemma parsed_requirement_witness :
  RequirementsTxt.parseRequirementLine "zope.interface>=5.0  # typed"
    = Some {| RequirementsTxt.name := "zope"; RequirementsTxt.version := "5.0" |} /\
  Stated.isVersion "5.0".
Proof.
  split; [reflexivity|].
  apply (parsed_requirement "zope.interface>=5.0  # typed"
           {| RequirementsTxt.name := "zope"; RequirementsTxt.version := "5.0" |} eq_refl).
Defined.

Section RequirementsFile.

Variable resolve : string -> string.
Variable existsSync : string -> bool.
Variable readFileSync : string -> string.

Lemma requirementOfLine_spec (rawLine : string) :
  (List.length (RequirementsTxt.requirementOfLine rawLine) <= 1)%nat /\
  Forall (fun d =>
            Dependency.name d <> "" /\
            Stated.allChars RequirementsTxt.isNameChar (Dependency.name d) /\
            Stated.isVersion (Dependency.version d) /\
            Dependency.source d = pypi /\ Dependency.isDev d = false /\
            Dependency.type d = direct)
         (RequirementsTxt.requirementOfLine rawLine).
Proof.
  unfold RequirementsTxt.requirementOfLine.
  destruct (isEmpty (trim rawLine) || startsWith (trim rawLine) "#");
    [split; [simpl; lia|constructor]|].
  destruct (startsWith (trim rawLine) "-"); [split; [simpl; lia|constructor]|].
  destruct (includes (trim rawLine) "://" || startsWith (trim rawLine) "git+");
    [split; [simpl; lia|constructor]|].
  destruct (RequirementsTxt.parseRequirementLine (trim rawLine)) as [parsed|] eqn:P;
    [|split; [simpl; lia|constructor]].
  split; [simpl; lia|]. constructor; [|constructor].
  destruct (parseRequirementLine_spec _ _ P) as [N [A [V _]]].
  cbn [Dependency.name Dependency.version Dependency.source Dependency.isDev Dependency.type].
  repeat split; assumption.
Qed.

(** X18. [parseRequirementsTxt] throws "File not found" for a file that
    does not exist. Otherwise it returns at most one dependency for each line
    of the file, each a direct PyPI dependency that is not a development one,
    with a name that is not empty and made of letters, digits, hyphens and
    underscores, and with "*" or a digit-led version; the [--dev] option
    changes nothing to such a list. *)
Theorem requirements_file_dependencies (filePath : string) :
  let parsed := RequirementsTxt.parseRequirementsTxt resolve existsSync readFileSync filePath in
  (existsSync (resolve filePath) = false ->
     parsed = Throw ("File not found: " ++ resolve filePath)) /\
  (existsSync (resolve filePath) = true ->
     exists dependencies,
       parsed = Normal dependencies /\
       (List.length dependencies
        <= List.length (splitLines (readFileSync (resolve filePath))))%nat /\
       Forall (fun d =>
                 Dependency.name d <> "" /\
                 Stated.allChars RequirementsTxt.isNameChar (Dependency.name d) /\
                 Stated.isVersion (Dependency.version d) /\
                 Dependency.source d = pypi /\ Dependency.isDev d = false /\
                 Dependency.type d = direct)
              dependencies /\
       forall dev, Scan.selectDependencies dev Scan.file_pypi dependencies = dependencies).
Proof.
  cbv zeta. unfold RequirementsTxt.parseRequirementsTxt. split; intros ->; [reflexivity|].
  cbn [negb]. eexists. split; [reflexivity|].
  split; [|split; [|reflexivity]].
  - induction (splitLines (readFileSync (resolve filePath))) as [|l ls IH]; [simpl; lia|].
    cbn [flat_map]. rewrite length_app.
    destruct (requirementOfLine_spec l) as [H _]. simpl List.length at 3. lia.
  - induction (splitLines (readFileSync (resolve filePath))) as [|l ls IH]; [constructor|].
    cbn [flat_map]. apply Forall_app. split; [|exact IH].
    now destruct (requirementOfLine_spec l).
Qed.

End RequirementsFile.

Lemma requirements_file_dependencies_witness :
  RequirementsTxt.parseRequirementsTxt (fun p => p) (fun _ => true)
    (fun _ => "# pinned
requests==2.31.0
-r base.txt

git+https://github.com/psf/black
uvicorn[standard]>=0.23") "requirements.txt"
  = Normal
      [ {| Dependency.name := "requests"; Dependency.version := "2.31.0";
           Dependency.type := direct; Dependency.source := pypi; Dependency.isDev := false |};
        {| Dependency.name := "uvicorn"; Dependency.version := "0.23";
           Dependency.type := direct; Dependency.source := pypi; Dependency.isDev := false |} ].
Proof.
  destruct (requirements_file_dependencies (fun p => p) (fun _ => true)
              (fun _ => "# pinned
requests==2.31.0
-r base.txt

git+https://github.com/psf/black
uvicorn[standard]>=0.23") "requirements.txt") as [_ H].
  destruct (H eq_refl) as [dependencies [E _]].
  rewrite E. vm_compute in E. injection E as <-. reflexivity.
Defined.

Lemma allChars_append (p : ascii -> bool) (s t : string) :
  Stated.allChars p s -> Stated.allChars p t -> Stated.allChars p (s ++ t).
Proof.
  intros Hs Ht c Hc. apply in_append_chars in Hc. destruct Hc; [now apply Hs|now apply Ht].
Qed.

Lemma allChars_implies (p q : ascii -> bool) (s : string) :
  (forall c, p c = true -> q c = true) -> Stated.allChars p s -> Stated.allChars q s.
Proof. intros H Hs c Hc. apply H. now apply Hs. Qed.

Ltac by_cases_on_char c :=
  destruct c as [[|] [|] [|] [|] [|] [|] [|] [|]]; vm_compute; intros;
  try discriminate; repeat split; try reflexivity; try discriminate.

Lemma name_char_classes (c : ascii) :
  RequirementsTxt.isNameChar c = true -> Stated.isPlainChar c = true.
Proof. by_cases_on_char c. Qed.

Lemma operator_classes (c : ascii) :
  RequirementsTxt.isOperatorChar c = true ->
  Stated.isPlainChar c = true /\ RequirementsTxt.isNameChar c = false /\
  isWhiteSpace c = false /\ c <> "["%char.
Proof. by_cases_on_char c. Qed.

Lemma blank_classes (c : ascii) :
  Stated.isBlank c = true ->
  Stated.isPlainChar c = true /\ RequirementsTxt.isNameChar c = false /\
  isWhiteSpace c = true /\ RequirementsTxt.isOperatorChar c = false /\ c <> "["%char.
Proof. by_cases_on_char c. Qed.

Lemma digit_classes (c : ascii) :
  isDigit c = true ->
  Stated.isPlainChar c = true /\ RequirementsTxt.isOperatorChar c = false /\
  isWhiteSpace c = false /\ RequirementsTxt.isVersionChar c = true.
Proof. by_cases_on_char c. Qed.

Lemma version_char_classes (c : ascii) :
  RequirementsTxt.isVersionChar c = true -> Stated.isPlainChar c = true.
Proof. by_cases_on_char c. Qed.

Lemma plain_indexOf (marker : ascii) (s : string) (from : nat) :
  marker = "#"%char \/ marker = ";"%char ->
  Stated.allChars Stated.isPlainChar s -> indexOfChar marker from s = None.
Proof.
  intros Hm. revert from. induction s as [|c s IH]; intros from H; [reflexivity|].
  cbn [indexOfChar].
  assert (Hc : Stated.isPlainChar c = true) by (apply H; simpl; now left).
  assert (E : Ascii.eqb c marker = false).
  { destruct (Ascii.eqb_spec c marker) as [->|]; [|reflexivity].
    destruct Hm as [->| ->]; discriminate Hc. }
  rewrite E. apply IH. intros d Hd. apply H. simpl. now right.
Qed.

Lemma plain_no_terminator (s : string) :
  Stated.allChars Stated.isPlainChar s -> RequirementsTxt.hasLineTerminator s = false.
Proof.
  induction s as [|c s IH]; intros H; [reflexivity|].
  cbn [RequirementsTxt.hasLineTerminator].
  assert (Hc : Stated.isPlainChar c = true) by (apply H; simpl; now left).
  unfold Stated.isPlainChar in Hc.
  destruct (RequirementsTxt.isLineTerminator c);
    [rewrite andb_false_r in Hc; discriminate|].
  apply IH. intros d Hd. apply H. simpl. now right.
Qed.

Lemma firstVersion_head (s : string) (version : string) :
  RequirementsTxt.matchVersionHere s = Some version ->
  RequirementsTxt.firstVersion s = Some version.
Proof. intros H. destruct s; cbn [RequirementsTxt.firstVersion]; now rewrite H. Qed.

(** X19. A requirement written as a name, optional extras in brackets, an
    operator and a version, with or without blanks around the operator, and
    followed by anything that cannot continue the version (another
    specifier after a comma, say), reads back as that name and that version:
    the first specifier gives the version. *)
Theorem requirement_reads_back
    (name : string) (extras : option string) (gap1 operators gap2 : string)
    (digit : ascii) (digits after : string) :
  name <> "" -> Stated.allChars RequirementsTxt.isNameChar name ->
  Stated.extrasWritable extras ->
  Stated.allChars Stated.isBlank gap1 ->
  operators <> "" -> Stated.allChars RequirementsTxt.isOperatorChar operators ->
  Stated.allChars Stated.isBlank gap2 ->
  isDigit digit = true -> Stated.allChars RequirementsTxt.isVersionChar digits ->
  Stated.headNot RequirementsTxt.isVersionChar after ->
  Stated.allChars Stated.isPlainChar after ->
  RequirementsTxt.parseRequirementLine
    (name ++ Stated.bracketed extras ++ gap1 ++ operators ++ gap2
     ++ String digit digits ++ after)
  = Some {| RequirementsTxt.name := name;
            RequirementsTxt.version := String digit digits |}.
Proof.
  intros Nn An He Ag1 No Ao Ag2 Hd Av Ha Pa.
  set (version := String digit digits).
  set (specifiers := operators ++ gap2 ++ version ++ after).
  set (tail := Stated.bracketed extras ++ gap1 ++ specifiers).
  assert (Pversion : Stated.allChars Stated.isPlainChar version).
  { intros c [<-|Hc]; [now destruct (digit_classes _ Hd)|].
    apply version_char_classes. now apply Av. }
  assert (Pspec : Stated.allChars Stated.isPlainChar specifiers).
  { apply allChars_append;
      [apply (allChars_implies _ _ _ (fun c H => proj1 (operator_classes c H)) Ao)|].
    apply allChars_append;
      [apply (allChars_implies _ _ _ (fun c H => proj1 (blank_classes c H)) Ag2)|].
    now apply allChars_append. }
  assert (Pbracket : Stated.allChars Stated.isPlainChar (Stated.bracketed extras)).
  { destruct extras as [inside|]; [|intros c []].
    destruct (He inside eq_refl) as [_ [Pi _]].
    intros c Hc. simpl in Hc. destruct Hc as [<-|Hc]; [reflexivity|].
    apply in_append_chars in Hc. destruct Hc as [Hc|Hc]; [now apply Pi|].
    simpl in Hc. destruct Hc as [<-|[]]. reflexivity. }
  assert (Ptail : Stated.allChars Stated.isPlainChar tail).
  { apply allChars_append; [exact Pbracket|]. apply allChars_append; [|exact Pspec].
    apply (allChars_implies _ _ _ (fun c H => proj1 (blank_classes c H)) Ag1). }
  assert (Pline : Stated.allChars Stated.isPlainChar (name ++ tail)).
  { apply allChars_append; [|exact Ptail].
    apply (allChars_implies _ _ _ name_char_classes An). }
  assert (Hspec_head : exists o rest, specifiers = String o rest /\
                                      RequirementsTxt.isOperatorChar o = true).
  { unfold specifiers. destruct operators as [|o operators]; [contradiction|].
    exists o. eexists. split; [reflexivity|]. apply Ao. simpl. now left. }
  assert (Hgap_spec : forall gap, Stated.allChars Stated.isBlank gap ->
            Stated.headNot RequirementsTxt.isNameChar (gap ++ specifiers) /\
            (forall r, gap ++ specifiers <> String "[" r) /\
            trimStart (gap ++ specifiers) = specifiers).
  { intros gap Hg. destruct Hspec_head as [o [rest [Es Ho]]].
    destruct (operator_classes _ Ho) as [_ [On [Ow Ob]]].
    split; [|split].
    - destruct gap as [|g gap]; intros c r E; simpl in E.
      + rewrite Es in E. injection E as <- _. exact On.
      + injection E as <- _. apply (blank_classes g). apply Hg. simpl. now left.
    - destruct gap as [|g gap]; intros r E; simpl in E.
      + rewrite Es in E. injection E as -> _. now apply Ob.
      + injection E as -> _.
        assert (X : Stated.isBlank "[" = true) by (apply Hg; simpl; now left).
        discriminate X.
    - unfold trimStart. rewrite (span_append isWhiteSpace gap specifiers); [reflexivity| |].
      + intros c Hc. apply (blank_classes c). now apply Hg.
      + intros c r E. rewrite Es in E. injection E as <- _. exact Ow. }
  change (name ++ Stated.bracketed extras ++ gap1 ++ operators ++ gap2
          ++ String digit digits ++ after) with (name ++ tail).
  unfold RequirementsTxt.parseRequirementLine, RequirementsTxt.cutAt.
  rewrite (plain_indexOf "#" _ 0 (or_introl eq_refl) Pline).
  assert (Eline : isEmpty (name ++ tail) = false) by (destruct name; [contradiction|reflexivity]).
  rewrite Eline.
  rewrite (plain_indexOf ";" _ 0 (or_intror eq_refl) Pline).
  assert (Hgroup2 : trimStart (RequirementsTxt.skipExtras tail) = specifiers).
  { unfold tail. destruct extras as [inside|].
    - destruct (He inside eq_refl) as [Ni [_ Bi]].
      cbn [Stated.bracketed append RequirementsTxt.skipExtras].
      rewrite append_assoc.
      rewrite (span_append (fun c => negb (Ascii.eqb c "]")) inside
                 ("]" ++ gap1 ++ specifiers) Bi)
        by (intros c r E; injection E as <- _; reflexivity).
      destruct inside as [|i inside]; [contradiction|].
      cbn [append]. now apply Hgap_spec.
    - cbn [Stated.bracketed append].
      destruct (Hgap_spec gap1 Ag1) as [_ [Nb T]].
      assert (S : RequirementsTxt.skipExtras (gap1 ++ specifiers) = gap1 ++ specifiers).
      { destruct (gap1 ++ specifiers) as [|c r] eqn:E; [reflexivity|].
        unfold RequirementsTxt.skipExtras.
        destruct (Ascii.eqb_spec c "[") as [->|N]; [exfalso; now apply (Nb r)|].
        destruct c as [[|] [|] [|] [|] [|] [|] [|] [|]]; try reflexivity.
        contradiction N. reflexivity. }
      now rewrite S. }
  assert (Hmatch : RequirementsTxt.matchRequirement (name ++ tail) = Some (name, specifiers)).
  { unfold RequirementsTxt.matchRequirement.
    assert (Htail_head : Stated.headNot RequirementsTxt.isNameChar tail).
    { unfold tail. destruct extras as [inside|].
      - intros c r E. injection E as <- _. reflexivity.
      - cbn [Stated.bracketed append]. now apply Hgap_spec. }
    rewrite (span_append _ name tail An Htail_head).
    assert (En : isEmpty name = false) by (now apply isEmpty_false).
    rewrite En, Hgroup2, (plain_no_terminator _ Pspec). reflexivity. }
  rewrite Hmatch.
  assert (Es : isEmpty specifiers = false).
  { destruct Hspec_head as [o [rest [-> _]]]. reflexivity. }
  rewrite Es.
  assert (Hversion : RequirementsTxt.firstVersion specifiers = Some version).
  { apply firstVersion_head. unfold RequirementsTxt.matchVersionHere, specifiers.
    assert (Hnext : Stated.headNot RequirementsTxt.isOperatorChar (gap2 ++ version ++ after)).
    { destruct gap2 as [|g gap2]; intros c r E; simpl in E; injection E as <- _.
      - now destruct (digit_classes _ Hd) as [_ [X _]].
      - apply (blank_classes g). apply Ag2. simpl. now left. }
    rewrite (span_append _ operators _ Ao Hnext).
    assert (Eo : isEmpty operators = false) by (now apply isEmpty_false).
    rewrite Eo.
    assert (T : trimStart (gap2 ++ version ++ after) = version ++ after).
    { unfold trimStart. rewrite (span_append isWhiteSpace gap2 (version ++ after));
        [reflexivity| |].
      - intros c Hc. apply (blank_classes c). now apply Ag2.
      - intros c r E. simpl in E. injection E as <- _.
        now destruct (digit_classes _ Hd) as [_ [_ [X _]]]. }
    rewrite T. unfold version. cbn [append]. rewrite Hd.
    rewrite (span_append _ digits after Av Ha). reflexivity. }
  rewrite Hversion. reflexivity.
Qed.

Lemma requirement_reads_back_witness :
  RequirementsTxt.parseRequirementLine
    ("django" ++ Stated.bracketed (Some "argon2") ++ " " ++ ">=" ++ " "
     ++ String "4" ".2" ++ ",<5.0")
  = Some {| RequirementsTxt.name := "django"; RequirementsTxt.version := "4.2" |}.
Proof.
  apply (requirement_reads_back "django" (Some "argon2") " " ">=" " " "4" ".2" ",<5.0");
    try discriminate; try reflexivity.
  - intros c H. simpl in H. repeat (destruct H as [<-|H]; [reflexivity|]). destruct H.
  - intros inside E. injection E as <-. split; [discriminate|].
    split; intros c H; simpl in H; repeat (destruct H as [<-|H]; [reflexivity|]); destruct H.
  - intros c H. simpl in H. repeat (destruct H as [<-|H]; [reflexivity|]). destruct H.
  - intros c H. simpl in H. repeat (destruct H as [<-|H]; [reflexivity|]). destruct H.
  - intros c H. simpl in H. repeat (destruct H as [<-|H]; [reflexivity|]). destruct H.
  - intros c H. simpl in H. repeat (destruct H as [<-|H]; [reflexivity|]). destruct H.
  - intros c r H. injection H as <- _. reflexivity.
  - intros c H. simpl in H. repeat (destruct H as [<-|H]; [reflexivity|]). destruct H.
Defined.

(** ** The manifest *)

Lemma endsWith_spec (s p : string) :
  endsWith s p = true <-> exists front, s = front ++ p.
Proof.
  induction s as [|c s IH]; cbn [endsWith].
  - destruct (String.eqb_spec "" p) as [<-|N].
    + split; [intros _; now exists ""|reflexivity].
    + split; [discriminate|]. intros [front H]. destruct front, p; try discriminate.
      now contradiction N.
  - destruct (String.eqb_spec (String c s) p) as [<-|N].
    + split; [intros _; now exists ""|reflexivity].
    + rewrite IH. split.
      * intros [front ->]. now exists (String c front).
      * intros [[|d front] H]; simpl in H; [now contradiction N|].
        injection H as <- ->. now exists front.
Qed.

(** X20. The type of a manifest is read off its base name, whatever the
    letter case: npm for the name package.json and for no other, PyPI for
    every name that ends in ".txt" (the test on requirements.txt adds
    nothing to it), unknown for the rest. *)
Theorem file_type_by_name (basename : string -> string) (filePath : string) :
  let name := toLowerCase (basename filePath) in
  let fileType := Manifest.detectFileType basename filePath in
  (fileType = Scan.file_npm <-> name = "package.json") /\
  (fileType = Scan.file_pypi <-> exists stem, name = stem ++ ".txt") /\
  (fileType = Scan.file_unknown <->
     name <> "package.json" /\ ~ exists stem, name = stem ++ ".txt").
Proof.
  cbv zeta. unfold Manifest.detectFileType.
  set (name := toLowerCase (basename filePath)).
  assert (Hnpm : ~ exists stem, "package.json" = stem ++ ".txt").
  { intros H. apply endsWith_spec in H. discriminate H. }
  destruct (String.eqb_spec name "package.json") as [E|N].
  - rewrite E. repeat split; try discriminate; try tauto.
  - destruct (String.eqb_spec name "requirements.txt") as [E|N'].
    + assert (Ht : exists stem, name = stem ++ ".txt") by (exists "requirements"; exact E).
      cbn [orb]. repeat split; try discriminate; try tauto.
    + cbn [orb]. destruct (endsWith name ".txt") eqn:T.
      * apply endsWith_spec in T. repeat split; try discriminate; try tauto.
      * assert (Ht : ~ exists stem, name = stem ++ ".txt").
        { intros H. apply endsWith_spec in H. congruence. }
        repeat split; try discriminate; try tauto.
Qed.

Example file_types :
  map (Manifest.detectFileType (fun name => name))
      [ "package.json"; "Package.JSON"; "requirements.txt"; "notes.TXT"; "dev-requirements.txt";
        "package-lock.json"; "Pipfile"; "" ]
  = [ Scan.file_npm; Scan.file_npm; Scan.file_pypi; Scan.file_pypi; Scan.file_pypi;
      Scan.file_unknown; Scan.file_unknown; Scan.file_unknown ].
Proof. vm_compute. reflexivity. Qed.

Section ScannedManifest.

Variable basename : string -> string.
Variable resolve : string -> string.
Variable join : string -> string -> string.
Variable existsSync : string -> bool.
Variable isDirectory : string -> bool.
Variable readFileSync : string -> string.
Variable JSON_parse : string -> Completion PackageJson.t.

Lemma collect_invariants (packageJson : PackageJson.t) :
  Forall (fun d => Dependency.type d = direct /\ Dependency.source d = npm)
         (PackageJson.collect packageJson).
Proof.
  rewrite collect_eq. apply Forall_app. split; apply Forall_forall; intros d Hd;
    apply in_map_iff in Hd; destruct Hd as [e [<- _]]; split; reflexivity.
Qed.

Lemma requirements_invariants (lines : list string) :
  Forall (fun d => Dependency.type d = direct /\ Dependency.source d = pypi /\
                   Dependency.isDev d = false)
         (flat_map RequirementsTxt.requirementOfLine lines).
Proof.
  induction lines as [|l ls IH]; [constructor|].
  cbn [flat_map]. apply Forall_app. split; [|exact IH].
  destruct (requirementOfLine_spec l) as [_ H].
  eapply Forall_impl; [|exact H]. intros d [_ [_ [_ [Hs [Hd Ht]]]]]. tauto.
Qed.

(** X21. The dependencies a scan analyses, whatever the path, the files and
    the option: each is a direct dependency with npm or PyPI for source,
    never Go, so that its metadata is asked to one of the two registries and
    the loop of the scan never meets an unsupported source; and a development
    dependency is among them only with the [--dev] option and only from a
    package.json. *)
Theorem scanned_dependencies (inputPath : string) (dev : option bool)
    (dependencies : list Dependency.t) :
  Manifest.scannedDependencies basename resolve join existsSync isDirectory readFileSync
    JSON_parse inputPath dev = Normal dependencies ->
  Forall (fun d =>
            Dependency.type d = direct /\
            Dependency.source d <> go /\
            (forall fetchNpmMetadata fetchPyPIMetadata,
               Cli.fetchMetadata fetchNpmMetadata fetchPyPIMetadata d
                 = fetchNpmMetadata (Dependency.name d) \/
               Cli.fetchMetadata fetchNpmMetadata fetchPyPIMetadata d
                 = fetchPyPIMetadata (Dependency.name d)) /\
            (Dependency.isDev d = true -> dev = Some true /\ Dependency.source d = npm))
         dependencies.
Proof.
  unfold Manifest.scannedDependencies.
  destruct (Manifest.locateManifest _ _ _ _ inputPath) as [filePath|m]; [|discriminate].
  cbn [Js.bind]. unfold Manifest.parseDependencyFile.
  destruct (Manifest.detectFileType basename filePath) eqn:T; [| |discriminate].
  - unfold PackageJson.parsePackageJson.
    destruct (negb (existsSync (resolve filePath))); [discriminate|].
    destruct (JSON_parse _) as [packageJson|m]; [|discriminate].
    cbn [Js.bind]. intros H. injection H as <-.
    pose proof (collect_invariants packageJson) as Hc.
    rewrite Forall_forall in Hc.
    apply Forall_forall. intros d Hd.
    assert (Hin : In d (PackageJson.collect packageJson) /\
                  (Dependency.isDev d = true -> dev = Some true)).
    { unfold Scan.selectDependencies in Hd.
      destruct dev as [[|]|]; cbn [truthyBoolean negb] in Hd.
      - split; [exact Hd|reflexivity].
      - apply filter_In in Hd. destruct Hd as [Hd Hf]. split; [exact Hd|].
        intros X. rewrite X in Hf. discriminate.
      - apply filter_In in Hd. destruct Hd as [Hd Hf]. split; [exact Hd|].
        intros X. rewrite X in Hf. discriminate. }
    destruct Hin as [Hin Hdev]. destruct (Hc d Hin) as [Ht Hs].
    split; [exact Ht|]. split; [congruence|]. split.
    + intros f g. left. unfold Cli.fetchMetadata. now rewrite Hs.
    + intros X. split; [now apply Hdev|exact Hs].
  - unfold RequirementsTxt.parseRequirementsTxt.
    destruct (negb (existsSync (resolve filePath))); [discriminate|].
    cbn [Js.bind Scan.selectDependencies]. intros H. injection H as <-.
    eapply Forall_impl; [|apply requirements_invariants].
    intros d [Ht [Hs Hd]].
    split; [exact Ht|]. split; [congruence|]. split.
    + intros f g. right. unfold Cli.fetchMetadata. now rewrite Hs.
    + congruence.
Qed.

End ScannedManifest.

Lemma scanned_dependencies_witness :
  Forall (fun d => Dependency.source d <> go)
    [ {| Dependency.name := "express"; Dependency.version := "4.18.2";
         Dependency.type := direct; Dependency.source := npm;
         Dependency.isDev := false |} ].
Proof.
  eapply Forall_impl;
    [|apply (scanned_dependencies (fun p => "package.json") (fun p => p)
               (fun d f => f) (fun _ => true) (fun _ => false) (fun _ => "")
               (fun _ => Normal {| PackageJson.dependencies := Some [("express", "^4.18.2")];
                                   PackageJson.devDependencies := Some [("jest", "~29.0.0")] |})
               "package.json" None); reflexivity].
  intros d H. apply H.
Defined.

(** ** The repository health client *)

Example contributors_from_link_header :
  map GitHubClient.contributorsOf
      [ (Some ("<https://api.github.com/repositories/1/contributors?per_page=1&page=2>; rel="
               ++ String GitHubClient.quote ("next" ++ String GitHubClient.quote
               (", <https://api.github.com/repositories/1/contributors?per_page=1&page=42"
                ++ GitHubClient.lastRelation))), 1%nat);
        (Some ("<https://api.github.com/repositories/1/contributors?per_page=1&page=1>; rel="
               ++ String GitHubClient.quote ("prev" ++ String GitHubClient.quote "")), 1%nat);
        (None, 1%nat); (None, 0%nat); (Some "", 3%nat) ]
  = [ 42; 0; 1; 0; 3 ].
Proof. vm_compute. reflexivity. Qed.

Section RepositoryHealth.

Variable getRepo : string -> Completion GitHubClient.RepoData.
Variable getCommits : string -> Completion (list string).
Variable getContributors : string -> Completion (option string * nat).
Variable dateOf : string -> Date.

Lemma fetchGitHubRepoHealth_returns (repositoryUrl : string) (token : option string) :
  exists result,
    GitHubClient.fetchGitHubRepoHealth getRepo getCommits getContributors dateOf
      repositoryUrl token = Normal result.
Proof.
  unfold GitHubClient.fetchGitHubRepoHealth.
  destruct (GitHubUrl.parseGitHubUrl repositoryUrl); eexists; reflexivity.
Qed.

(** X22. [fetchGitHubRepoHealth] never throws. It gives no health when the
    URL is not one of a GitHub repository or when the request on the
    repository fails. When that request succeeds it gives a health, whatever
    happens to the two other requests: without a commit date when the
    request on the commits fails or brings no commit, and with a contributor
    count of zero when the request on the contributors fails or when its
    [link] header names no last page; the count is the number of elements of
    the answer when there is no [link] header. *)
Theorem repository_health_degrades (repositoryUrl : string) (token : option string) :
  exists result,
    GitHubClient.fetchGitHubRepoHealth getRepo getCommits getContributors dateOf
      repositoryUrl token = Normal result /\
    (GitHubUrl.parseGitHubUrl repositoryUrl = None -> result = None) /\
    (forall parsed, GitHubUrl.parseGitHubUrl repositoryUrl = Some parsed ->
       let api := GitHubClient.GITHUB_API_URL ++ "/repos/" ++ GitHubUrl.owner parsed
                  ++ "/" ++ GitHubUrl.repo parsed in
       (forall message, getRepo api = Throw message -> result = None) /\
       (forall repoData, getRepo api = Normal repoData ->
          exists health,
            result = Some health /\
            GitHubRepoHealth.isArchived health
              = truthyBoolean (GitHubClient.archived repoData) /\
            ((exists message, getCommits (api ++ "/commits") = Throw message) \/
             getCommits (api ++ "/commits") = Normal [] ->
               GitHubRepoHealth.lastCommitDate health = None) /\
            ((exists message, getContributors (api ++ "/contributors") = Throw message) ->
               GitHubRepoHealth.contributorCount health = 0) /\
            (forall header n,
               getContributors (api ++ "/contributors") = Normal (Some header, n) ->
               header <> "" -> GitHubClient.lastPage header = None ->
               GitHubRepoHealth.contributorCount health = 0) /\
            (forall n, getContributors (api ++ "/contributors") = Normal (None, n) ->
               GitHubRepoHealth.contributorCount health = Z.of_nat n))).
Proof.
  unfold GitHubClient.fetchGitHubRepoHealth.
  destruct (GitHubUrl.parseGitHubUrl repositoryUrl) as [parsed|].
  - eexists. split; [reflexivity|]. split; [discriminate|].
    intros parsed' E. injection E as <-. cbv zeta. split.
    + intros message ->. reflexivity.
    + intros repoData ->. cbn [Js.bind tryCatch]. eexists. split; [reflexivity|].
      cbn [GitHubRepoHealth.isArchived GitHubRepoHealth.lastCommitDate
           GitHubRepoHealth.contributorCount].
      split; [reflexivity|]. split; [|split; [|split]].
      * intros [[message ->]| ->]; reflexivity.
      * intros [message ->]. reflexivity.
      * intros header n -> Hne Hl. cbn [Js.bind tryCatch GitHubClient.contributorsOf].
        destruct header as [|c header]; [contradiction|].
        cbn [truthyString]. now rewrite Hl.
      * intros n ->. reflexivity.
  - eexists. split; [reflexivity|]. split; [reflexivity|]. discriminate.
Qed.

Variable fetchNpmMetadata : string -> Completion PackageMetadata.t.
Variable fetchPyPIMetadata : string -> Completion PackageMetadata.t.

(** X23. In a scan that asks the repository health to this client, a
    dependency fails exactly when the request on its registry throws: then
    the message is recorded and there is no health. Whatever happens to the
    requests on the repository, a dependency whose metadata came is scored
    and carries no error. *)
Theorem only_the_registry_fails_a_dependency (options : Cli.Options.t) (now : Z)
    (dep : Dependency.t) :
  let a := Cli.analyzeDependency fetchNpmMetadata fetchPyPIMetadata
             (GitHubClient.fetchGitHubRepoHealth getRepo getCommits getContributors dateOf)
             options now dep in
  (forall md, Cli.fetchMetadata fetchNpmMetadata fetchPyPIMetadata dep = Normal md ->
     DependencyAnalysis.error a = None /\
     DependencyAnalysis.metadata a = Some md /\
     exists hs overall,
       DependencyAnalysis.health a = Some hs /\
       HealthScore.overall hs = Int overall /\ 0 <= overall <= 100) /\
  (forall message, Cli.fetchMetadata fetchNpmMetadata fetchPyPIMetadata dep = Throw message ->
     DependencyAnalysis.error a = Some message /\
     DependencyAnalysis.metadata a = None /\
     DependencyAnalysis.health a = None).
Proof.
  cbv zeta. unfold Cli.analyzeDependency. split.
  - intros md ->. cbn [Js.bind].
    assert (Hgh : exists gh,
              (if Cli.notFalse (Cli.Options.github options)
                  && truthyString (PackageMetadata.repositoryUrl md)
               then match PackageMetadata.repositoryUrl md with
                    | Some url =>
                        GitHubClient.fetchGitHubRepoHealth getRepo getCommits getContributors
                          dateOf url (Cli.Options.githubToken options)
                    | None => Normal None
                    end
               else Normal None) = Normal gh).
    { destruct (Cli.notFalse _ && truthyString _); [|eexists; reflexivity].
      destruct (PackageMetadata.repositoryUrl md) as [url|]; [|eexists; reflexivity].
      apply fetchGitHubRepoHealth_returns. }
    destruct Hgh as [gh ->]. cbn [Js.bind].
    destruct (calculateHealthScore_values now md gh) as [hs [H _]]. rewrite H.
    cbn [Js.bind tryCatch DependencyAnalysis.error DependencyAnalysis.metadata
         DependencyAnalysis.health].
    split; [reflexivity|]. split; [reflexivity|].
    destruct (health_overall_range _ _ _ _ H) as [o [Ho Hr]].
    now exists hs, o.
  - intros message ->. repeat split.
Qed.

End RepositoryHealth.

Lemma repository_health_degrades_witness :
  GitHubClient.fetchGitHubRepoHealth
    (fun _ => Normal {| GitHubClient.open_issues_count := Some 12;
                        GitHubClient.stargazers_count := None;
                        GitHubClient.archived := Some true |})
    (fun _ => Throw "Request failed with status code 409")
    (fun _ => Throw "Request failed with status code 403")
    (fun _ => InvalidDate)
    "https://github.com/left-pad/left-pad" None
  = Normal (Some {| GitHubRepoHealth.lastCommitDate := None;
                    GitHubRepoHealth.contributorCount := 0;
                    GitHubRepoHealth.openIssues := 12;
                    GitHubRepoHealth.stars := 0;
                    GitHubRepoHealth.isArchived := true |}).
Proof.
  destruct (repository_health_degrades
              (fun _ => Normal {| GitHubClient.open_issues_count := Some 12;
                                  GitHubClient.stargazers_count := None;
                                  GitHubClient.archived := Some true |})
              (fun _ => Throw "Request failed with status code 409")
              (fun _ => Throw "Request failed with status code 403")
              (fun _ => InvalidDate)
              "https://github.com/left-pad/left-pad" None) as [result [E _]].
  rewrite E. vm_compute in E. injection E as <-. reflexivity.
Defined.

Lemma only_the_registry_fails_a_dependency_witness :
  DependencyAnalysis.error
    (Cli.analyzeDependency Sample.registry Sample.registry
       (GitHubClient.fetchGitHubRepoHealth
          (fun _ => Throw "Network Error") (fun _ => Throw "Network Error")
          (fun _ => Throw "Network Error") (fun _ => InvalidDate))
       Sample.options (Sample.day 10) (Sample.dependency "ghost" npm))
  = Some "Package not found: ghost".
Proof.
  apply (only_the_registry_fails_a_dependency
           (fun _ => Throw "Network Error") (fun _ => Throw "Network Error")
           (fun _ => Throw "Network Error") (fun _ => InvalidDate)
           Sample.registry Sample.registry Sample.options (Sample.day 10)
           (Sample.dependency "ghost" npm)).
  reflexivity.
Defined.

(** ** The registry clients *)

Lemma orElse_null (a : option string) :
  Axios.orElse a None <> Some "" /\
  (Axios.orElse a None = None <-> truthyString a = false).
Proof.
  unfold Axios.orElse. destruct a as [[|c r]|]; cbn [truthyString].
  - split; [discriminate|]. split; reflexivity.
  - split; [discriminate|]. split; discriminate.
  - split; [discriminate|]. split; reflexivity.
Qed.

Lemma license_score_of_license md :
  PackageMetadata.license md <> Some "" ->
  exists r, calculateLicenseScore md = Normal r /\
    LicenseScore.license r = PackageMetadata.license md /\
    (LicenseScore.status r = LicenseScore.unknown <-> PackageMetadata.license md = None) /\
    (LicenseScore.score r = 30 <-> PackageMetadata.license md = None).
Proof.
  intros Hne. destruct (PackageMetadata.license md) as [text|] eqn:E.
  - assert (Ht : text <> "") by congruence.
    eexists. split; [apply (calculateLicenseScore_present _ _ E Ht)|].
    destruct (includesSomeOf _ DEPRECATED_LICENSES);
      [|destruct (includesSomeOf _ OSI_APPROVED_LICENSES)];
      cbn [LicenseScore.license LicenseScore.status LicenseScore.score];
      (split; [reflexivity|]); split; split; discriminate.
  - eexists. split; [apply calculateLicenseScore_absent; now left|].
    cbn [LicenseScore.license LicenseScore.status LicenseScore.score].
    split; [reflexivity|]. split; split; reflexivity.
Qed.

(** X24. The metadata either registry client returns carries the name that
    was asked for, and its license is never the empty string: an empty
    license of the registry is turned into [null]. Hence, on the metadata of
    the clients, the license sub-score reports the license of the metadata,
    and it is unknown, with 30 for score, exactly when the metadata has no
    license. *)
Theorem registry_license_is_never_empty
    (getNpm : string -> Axios.Outcome NpmClient.NpmPackageResponse)
    (getPyPI : string -> Axios.Outcome PyPIClient.PyPIResponse)
    (encodeURIComponent : string -> string) (dateOf : string -> Date)
    (packageName : string) (md : PackageMetadata.t) :
  NpmClient.fetchNpmMetadata getNpm encodeURIComponent dateOf packageName = Normal md \/
  PyPIClient.fetchPyPIMetadata getPyPI encodeURIComponent dateOf packageName = Normal md ->
  PackageMetadata.name md = packageName /\
  PackageMetadata.license md <> Some "" /\
  forall now gh,
    exists hs, calculateHealthScore now md gh = Normal hs /\
      let r := HealthScore.licenseHealth hs in
      LicenseScore.license r = PackageMetadata.license md /\
      (LicenseScore.status r = LicenseScore.unknown <-> PackageMetadata.license md = None) /\
      (LicenseScore.score r = 30 <-> PackageMetadata.license md = None).
Proof.
  intros H.
  assert (Hmd : PackageMetadata.name md = packageName /\
                PackageMetadata.license md <> Some "").
  { destruct H as [H|H].
    - unfold NpmClient.fetchNpmMetadata in H.
      destruct (getNpm _) as [data|failure]; [|discriminate].
      injection H as <-. split; [reflexivity|].
      cbn [NpmClient.metadataOf PackageMetadata.license]. apply orElse_null.
    - unfold PyPIClient.fetchPyPIMetadata in H.
      destruct (getPyPI _) as [data|failure]; [|discriminate].
      injection H as <-. split; [reflexivity|].
      cbn [PyPIClient.metadataOf PackageMetadata.license]. apply orElse_null. }
  destruct Hmd as [Hname Hlicense]. split; [exact Hname|]. split; [exact Hlicense|].
  intros now gh.
  apply (license_of_health
           (fun r =>
              LicenseScore.license r = PackageMetadata.license md /\
              (LicenseScore.status r = LicenseScore.unknown <->
               PackageMetadata.license md = None) /\
              (LicenseScore.score r = 30 <-> PackageMetadata.license md = None))).
  apply license_score_of_license. exact Hlicense.
Qed.

Lemma registry_license_is_never_empty_witness :
  exists hs,
    calculateHealthScore 0
      (NpmClient.metadataOf (fun _ => InvalidDate) "left-pad"
         {| NpmClient.name := "left-pad";
            NpmClient.dist_tags := Some {| NpmClient.latest := Some "1.3.0" |};
            NpmClient.time := None;
            NpmClient.maintainers := None;
            NpmClient.license := Some "";
            NpmClient.repository := None;
            NpmClient.homepage := None;
            NpmClient.description := None |}) None = Normal hs /\
    LicenseScore.license (HealthScore.licenseHealth hs) = None.
Proof.
  destruct (registry_license_is_never_empty
              (fun _ => Axios.Response
                          {| NpmClient.name := "left-pad";
                             NpmClient.dist_tags := Some {| NpmClient.latest := Some "1.3.0" |};
                             NpmClient.time := None;
                             NpmClient.maintainers := None;
                             NpmClient.license := Some "";
                             NpmClient.repository := None;
                             NpmClient.homepage := None;
                             NpmClient.description := None |})
              (fun _ => Axios.Failed (Axios.OtherError "offline"))
              (fun s => s) (fun _ => InvalidDate) "left-pad"
              (NpmClient.metadataOf (fun _ => InvalidDate) "left-pad"
                 {| NpmClient.name := "left-pad";
                    NpmClient.dist_tags := Some {| NpmClient.latest := Some "1.3.0" |};
                    NpmClient.time := None;
                    NpmClient.maintainers := None;
                    NpmClient.license := Some "";
                    NpmClient.repository := None;
                    NpmClient.homepage := None;
                    NpmClient.description := None |}))
    as [_ [_ Hscore]]; [left; reflexivity|].
  destruct (Hscore 0 None) as [hs [H [Hl _]]].
  exists hs. split; [exact H|]. rewrite Hl. reflexivity.
Defined.

Lemma pypi_maintainers_length (dateOf : string -> Date) (packageName : string)
    (data : PyPIClient.PyPIResponse) :
  (List.length (PackageMetadata.maintainers (PyPIClient.metadataOf dateOf packageName data))
   <= 1)%nat.
Proof.
  cbn [PyPIClient.metadataOf PackageMetadata.maintainers].
  destruct (truthyString (PyPIClient.maintainer _)); [simpl; lia|].
  destruct (truthyString (PyPIClient.author _)); simpl; lia.
Qed.

Lemma orElse_chain_null (a b : option string) :
  a <> Some "" -> b <> Some "" -> Axios.orElse a b <> Some "".
Proof.
  intros Ha Hb. unfold Axios.orElse. destruct (truthyString a); assumption.
Qed.

(** X25. PyPI metadata has at most one maintainer, the maintainer of the
    project or else its author, and its repository URL is never the empty
    string. So a package of PyPI whose repository gave no contributor count
    (no repository health, or a count of zero) never has healthy
    maintainers: the maintainer sub-score is at most 40 and the overall
    score at most 82. *)
Theorem pypi_maintainers_are_never_healthy
    (get : string -> Axios.Outcome PyPIClient.PyPIResponse)
    (encodeURIComponent : string -> string) (dateOf : string -> Date)
    (packageName : string) (md : PackageMetadata.t) :
  PyPIClient.fetchPyPIMetadata get encodeURIComponent dateOf packageName = Normal md ->
  (List.length (PackageMetadata.maintainers md) <= 1)%nat /\
  PackageMetadata.repositoryUrl md <> Some "" /\
  forall now gh,
    (forall h, gh = Some h -> GitHubRepoHealth.contributorCount h = 0) ->
    exists hs overall,
      calculateHealthScore now md gh = Normal hs /\
      MaintainerScore.score (HealthScore.maintainerHealth hs) <= 40 /\
      MaintainerScore.status (HealthScore.maintainerHealth hs) <> MaintainerScore.healthy /\
      HealthScore.overall hs = Int overall /\ overall <= 82.
Proof.
  unfold PyPIClient.fetchPyPIMetadata.
  destruct (get _) as [data|failure]; [|discriminate].
  intros H. injection H as <-.
  pose proof (pypi_maintainers_length dateOf packageName data) as Hlen.
  split; [exact Hlen|]. split.
  - cbn [PyPIClient.metadataOf PackageMetadata.repositoryUrl].
    destruct (PyPIClient.project_urls _); [|discriminate]. apply orElse_null.
  - intros now gh Hgh.
    set (md := PyPIClient.metadataOf dateOf packageName data) in *.
    destruct (calculateHealthScore_values now md gh) as [hs [H [Ho [Vf [Vm Vl]]]]].
    destruct (maintainer_of_health now md gh) as [hs' [H' Hm]].
    rewrite H in H'. injection H' as <-.
    assert (Hcount : 0 <= MaintainerScore.count (calculateMaintainerScore md gh) <= 1).
    { rewrite calculateMaintainerScore_count.
      destruct gh as [h|]; cbn [optionalChain orNumber]; [rewrite (Hgh h eq_refl)|];
        cbn [Z.eqb]; lia. }
    pose proof (calculateMaintainerScore_bands md gh) as Hb. cbv zeta in Hb.
    destruct Hb as [_ [_ [_ [H1 H0]]]].
    assert (Hscore : MaintainerScore.score (calculateMaintainerScore md gh) <= 40 /\
                     MaintainerScore.status (calculateMaintainerScore md gh)
                       <> MaintainerScore.healthy).
    { assert (Hc : MaintainerScore.count (calculateMaintainerScore md gh) = 1 \/
                   MaintainerScore.count (calculateMaintainerScore md gh) = 0) by lia.
      destruct Hc as [Hc|Hc]; [destruct (H1 Hc) as [-> ->]|destruct (H0 Hc) as [-> ->]];
        split; (lia || discriminate). }
    rewrite <- Hm in Hscore. destruct Hscore as [Hs Hstatus].
    exists hs. eexists.
    split; [exact H|]. split; [exact Hs|]. split; [exact Hstatus|].
    split; [rewrite Ho; apply (round_weighted_exact _ _ _ Vf Vm Vl)|].
    rewrite roundHalfUp_weighted.
    assert (Hf : FreshnessScore.score (HealthScore.freshness hs) <= 100) by in_range Vf.
    assert (Hl : LicenseScore.score (HealthScore.licenseHealth hs) <= 100) by in_range Vl.
    apply Z.lt_succ_r. apply Z.div_lt_upper_bound; lia.
Qed.

Lemma pypi_maintainers_are_never_healthy_witness :
  exists hs overall,
    calculateHealthScore 0
      (PyPIClient.metadataOf (fun _ => ValidDate 0) "requests"
         {| PyPIClient.info :=
              {| PyPIClient.name := "requests"; PyPIClient.version := "2.31.0";
                 PyPIClient.author := Some "Kenneth Reitz";
                 PyPIClient.author_email := None;
                 PyPIClient.maintainer := Some "";
                 PyPIClient.maintainer_email := None;
                 PyPIClient.license := Some "Apache 2.0";
                 PyPIClient.home_page := None;
                 PyPIClient.project_url := None;
                 PyPIClient.project_urls := None;
                 PyPIClient.summary := None |};
            PyPIClient.releases := Some [("2.31.0", ["2023-05-22T15:12:42"])] |})
      None = Normal hs /\
    HealthScore.overall hs = Int overall /\ overall <= 82.
Proof.
  destruct (pypi_maintainers_are_never_healthy
              (fun _ => Axios.Response
                 {| PyPIClient.info :=
                      {| PyPIClient.name := "requests"; PyPIClient.version := "2.31.0";
                         PyPIClient.author := Some "Kenneth Reitz";
                         PyPIClient.author_email := None;
                         PyPIClient.maintainer := Some "";
                         PyPIClient.maintainer_email := None;
                         PyPIClient.license := Some "Apache 2.0";
                         PyPIClient.home_page := None;
                         PyPIClient.project_url := None;
                         PyPIClient.project_urls := None;
                         PyPIClient.summary := None |};
                    PyPIClient.releases := Some [("2.31.0", ["2023-05-22T15:12:42"])] |})
              (fun s => s) (fun _ => ValidDate 0) "requests" _ eq_refl)
    as [_ [_ Hscore]].
  destruct (Hscore 0 None) as [hs [overall [H [_ [_ [Ho Hle]]]]]]; [discriminate|].
  exists hs, overall. split; [exact H|]. split; assumption.
Defined.
